(** * drizzle-graphql: the per-dialect operation builders

    A shallow embedding of the three builder modules of the repository:
    - [src/Util/Builders/vanilla/pg.ts]   (module [Pg]),
    - [src/util/builders/mysql.ts]        (module [MySql]),
    - the SQLite builder                  (module [SQLite]).

    Every builder turns a table into six operations (select-many, select-one,
    insert-many, insert-one, update, delete).  An operation is a name, an
    argument map and an asynchronous resolver.  A resolver is embedded as a
    computation in the monad [M]: it returns a JavaScript value or throws,
    and it records what it awaited from the drizzle executor. *)

From stdpp Require Import gmap strings list.
From Stdlib Require Import ZArith.

Set Warnings "-register-all,-clear-no-such-hyp".

Local Open Scope string_scope.
Local Open Scope list_scope.

(** ** JavaScript values *)

(** The values that flow through the resolvers: arguments, rows, query
    configurations.  Objects keep their properties in insertion order. *)
Inductive value : Type :=
| VUndefined
| VNull
| VBool (b : bool)
| VNumber (n : Z)
| VString (s : string)
| VArray (items : list value)
| VObject (props : list (string * value)).

(** [!!v] in JavaScript. Objects and arrays are always truthy. *)
Definition truthy (v : value) : bool :=
  match v with
  | VUndefined | VNull => false
  | VBool b => b
  | VNumber n => negb (n =? 0)%Z
  | VString s => negb (String.eqb s "")
  | VArray _ | VObject _ => true
  end.

(** [a ?? b] *)
Definition nullish (v : value) : bool :=
  match v with VUndefined | VNull => true | _ => false end.

Definition coalesce (a b : value) : value := if nullish a then b else a.

Fixpoint assoc {A : Type} (k : string) (l : list (string * A)) : option A :=
  match l with
  | [] => None
  | (k', v) :: rest => if String.eqb k k' then Some v else assoc k rest
  end.

(** What is thrown.  The [catch] blocks of the builders look at two things
    only: [typeof e === 'object'] and [typeof e.message === 'string']. *)
Inductive error_class := ErrorClass | GraphQLErrorClass | TypeErrorClass.

Inductive thrown : Type :=
| ErrorObject (cls : error_class) (message : string)
| ThrownObject (props : list (string * value))
| ThrownPrimitive (v : value)
| ThrownNull.

Definition Error (message : string) : thrown := ErrorObject ErrorClass message.
Definition GraphQLError (message : string) : thrown := ErrorObject GraphQLErrorClass message.
Definition TypeError (message : string) : thrown := ErrorObject TypeErrorClass message.

Definition cannot_read (of_what prop : string) : thrown :=
  TypeError ("Cannot read properties of " +:+ of_what +:+ " (reading '" +:+ prop +:+ "')").

(** [typeof e === 'object'] ([typeof null] is ['object'] too). *)
Definition typeof_object (e : thrown) : bool :=
  match e with
  | ErrorObject _ _ | ThrownObject _ | ThrownNull => true
  | ThrownPrimitive _ => false
  end.

(** [e.message], for an [e] that passed [typeof_object]: reading a property
    of [null] throws. *)
Definition message_of (e : thrown) : thrown + value :=
  match e with
  | ErrorObject _ m => inr (VString m)
  | ThrownObject props => inr (default VUndefined (assoc "message" props))
  | ThrownPrimitive _ => inr VUndefined
  | ThrownNull => inl (cannot_read "null" "message")
  end.

(** [v.k] and [v[k]] on a value of unknown shape (the executor's answer is
    typed [any]): a [TypeError] on [undefined] and [null].  The builders read
    own properties by name and the element [0] of an answer; inherited
    properties such as [length] are not among them. *)
Definition index_of_key (k : string) : option nat :=
  match k with
  | "0" => Some 0 | "1" => Some 1 | "2" => Some 2 | "3" => Some 3
  | _ => None
  end.

Definition member (v : value) (k : string) : thrown + value :=
  match v with
  | VUndefined => inl (cannot_read "undefined" k)
  | VNull => inl (cannot_read "null" k)
  | VObject props => inr (default VUndefined (assoc k props))
  | VArray items =>
      inr (match index_of_key k with
           | Some i => default VUndefined (items !! i)
           | None => VUndefined
           end)
  | VString s =>
      inr (match index_of_key k with
           | Some i => match String.get i s with
                       | Some c => VString (String c "")
                       | None => VUndefined
                       end
           | None => VUndefined
           end)
  | VBool _ | VNumber _ => inr VUndefined
  end.

(** [v?.k] *)
Definition opt_member (v : value) (k : string) : value :=
  match member v k with inr x => x | inl _ => VUndefined end.

(** [const { k } = v]: destructuring [undefined] or [null] throws. *)
Definition destructure (v : value) (k : string) : thrown + value :=
  match v with
  | VUndefined =>
      inl (TypeError ("Cannot destructure property '" +:+ k +:+ "' of 'args' as it is undefined."))
  | VNull =>
      inl (TypeError ("Cannot destructure property '" +:+ k +:+ "' of 'args' as it is null."))
  | _ => member v k
  end.

(** [Record<string, any>] *)
Definition record : Type := list (string * value).

(** ** Schema objects of drizzle-orm *)

Inductive dialect := PgTable | MySqlTable | SQLiteTable.

Global Instance dialect_eq_dec : EqDecision dialect.
Proof. solve_decision. Defined.

(** A table object.  The builders compare tables by reference
    ([tableValue === value.table]) and by class ([is(value, PgTable)]). *)
Record Table := { table_ref : nat; table_class : dialect }.

Global Instance Table_eq_dec : EqDecision Table.
Proof. solve_decision. Defined.

(** [a === b] on table objects *)
Definition same_table (a b : Table) : bool := Nat.eqb (table_ref a) (table_ref b).

(** One relation of a [relations(...)] declaration after [config(helpers)]:
    [is(rel, Many)] and [rel.referencedTable]. *)
Record Relation := { referencedTable : Table; is_many : bool }.

Record Relations := { relations_table : Table; config : list (string * Relation) }.

(** The values of the schema object passed to the generator. *)
Inductive schema_value :=
| SchemaTable (t : Table)
| SchemaRelations (r : Relations)
| SchemaOther (v : value).

(** ** Plain objects *)

(** The members of [Object.prototype].  A plain object ([{}], the result of
    [Object.fromEntries], [db.query]) answers to these names whether or not
    it has a property of that name of its own: with a function, and with
    [Object.prototype] itself under [__proto__], all of them truthy. *)
Definition object_prototype_keys : list string :=
  ["constructor"; "__defineGetter__"; "__defineSetter__"; "hasOwnProperty";
   "__lookupGetter__"; "__lookupSetter__"; "isPrototypeOf"; "propertyIsEnumerable";
   "toString"; "valueOf"; "__proto__"; "toLocaleString"].

Definition inherited (k : string) : bool := bool_decide (k ∈ object_prototype_keys).

(** [obj[k] ? ... : ...] on a plain object whose own properties [m] are all
    objects. *)
Definition truthy_at {A} (m : gmap string A) (k : string) : bool :=
  bool_decide (is_Some (m !! k)) || inherited k.

(** [obj[k] = v] on a plain object.  Every key becomes a property of the
    object but [__proto__]: that one is an accessor of [Object.prototype],
    whose setter replaces the prototype and adds no property. *)
Definition assign {A} (k : string) (v : A) (m : gmap string A) : gmap string A :=
  if String.eqb k "__proto__" then m else <[k := v]> m.

(** A drizzle instance.  [db.query] is a plain object; [query] holds the
    names under which it has a relational query builder. *)
Record Db := { db_ref : nat; query : gset string }.

(** What [db.query[tableName]] is when it is truthy: a query builder, or
    a member of [Object.prototype]. *)
Inductive QueryBase := RelationalQueryBuilder | PrototypeMember.

(** [db.query[tableName]], [None] for [undefined]. *)
Definition query_base (db : Db) (tableName : string) : option QueryBase :=
  if decide (tableName ∈ query db) then Some RelationalQueryBuilder
  else if inherited tableName then Some PrototypeMember
  else None.

(** ** Queries handed to the executor *)

(** [.values(input)] takes one remapped row or a list of them. *)
Inductive insert_values :=
| OneRow (input : record)
| ManyRows (input : list record).

(** The builder chains of the source, as data:
    [queryBase.findMany(config)], [queryBase.findFirst(config)],
    [db.insert(table).values(v)[.returning(c).onConflictDoNothing()]],
    [db.update(table).set(v)[.where(f)][.returning(c)]],
    [db.delete(table)[.where(f)][.returning(c)]]. *)
Inductive statement :=
| FindMany (db : Db) (tableName : string) (cfg : record)
| FindFirst (db : Db) (tableName : string) (cfg : record)
| Insert (db : Db) (table : Table) (values : insert_values)
         (returning : option value) (onConflictDoNothing : bool)
| Update (db : Db) (table : Table) (set : record)
         (where_ : option value) (returning : option value)
| Delete (db : Db) (table : Table)
         (where_ : option value) (returning : option value).

(** The external executor: what awaiting a statement gives, a rejection or
    a value. *)
Definition Executor : Type := statement -> thrown + value.

(** ** The resolver monad *)

Inductive event :=
| Awaited (q : statement)
| Remapped (v : value).

Definition M (A : Type) : Type := list event * (thrown + A).

Global Instance M_ret : MRet M := fun A a => ([], inr a).

Global Instance M_bind : MBind M := fun A B f m =>
  match m with
  | (log, inl e) => (log, inl e)
  | (log, inr a) => let '(log', r) := f a in (log ++ log', r)
  end.

Definition throw {A} (e : thrown) : M A := ([], inl e).

(** A call of a synchronous helper that may throw. *)
Definition call {A} (r : thrown + A) : M A := ([], r).

(** [await q] *)
Definition await (exec : Executor) (q : statement) : M value := ([Awaited q], exec q).

(** A call of one of the output remappers of the data-mappers module. *)
Definition remap (v : value) (r : thrown + value) : M value := ([Remapped v], r).

(** [await queryBase.findMany(config)] and [await queryBase.findFirst(config)].
    The configuration is evaluated before the call is made, and calling a
    member that the value does not have is a [TypeError]. *)
Definition findMany (exec : Executor) (queryBase : QueryBase) (db : Db)
    (tableName : string) (cfg : record) : M value :=
  match queryBase with
  | RelationalQueryBuilder => await exec (FindMany db tableName cfg)
  | PrototypeMember => throw (TypeError "queryBase.findMany is not a function")
  end.

Definition findFirst (exec : Executor) (queryBase : QueryBase) (db : Db)
    (tableName : string) (cfg : record) : M value :=
  match queryBase with
  | RelationalQueryBuilder => await exec (FindFirst db tableName cfg)
  | PrototypeMember => throw (TypeError "queryBase.findFirst is not a function")
  end.

(** [try { body } catch (e) { handler }] *)
Definition try_catch {A} (body : M A) (handler : thrown -> M A) : M A :=
  match body with
  | (log, inl e) => let '(log', r) := handler e in (log ++ log', r)
  | (log, inr a) => (log, inr a)
  end.

(** The [catch] block shared by every resolver of the MySQL and SQLite
    builders:
    [if (typeof e === 'object' && typeof e.message === 'string')
       throw new GraphQLError(e.message);
     throw e;] *)
Definition rethrow {A} (e : thrown) : M A :=
  if typeof_object e then
    msg ← call (message_of e);
    match msg with
    | VString m => throw (GraphQLError m)
    | _ => throw e
    end
  else throw e.

Definition awaited (log : list event) : list statement :=
  omap (fun ev => match ev with Awaited q => Some q | Remapped _ => None end) log.

Definition result {A} (m : M A) : thrown + A := snd m.
Definition trace {A} (m : M A) : list event := fst m.

(** ** GraphQL types and field configurations *)

Inductive GraphQLType : Type :=
| GraphQLInt
| GraphQLBoolean
| GraphQLNonNull (t : GraphQLType)
| GraphQLList (t : GraphQLType)
| GraphQLInputObjectType (name : string) (fields : list (string * GraphQLType))
| GraphQLObjectType (name : string) (fields : list (string * GraphQLType))
| UndefinedType.

(** [e.name] *)
Definition type_name (t : GraphQLType) : string :=
  match t with
  | GraphQLInputObjectType n _ | GraphQLObjectType n _ => n
  | _ => ""
  end.

(** [GraphQLFieldConfigArgumentMap]: argument name to [{ type }]. *)
Definition ArgumentMap : Type := list (string * GraphQLType).

Definition arg_names (args : ArgumentMap) : list string := args.*1.

(** The document node a resolver is asked about:
    [info.operation.selectionSet.selections]. *)
Inductive SelectionNode : Type :=
| FieldNode (name : string) (selectionSet : option (list SelectionNode))
| FragmentSpreadNode (name : string)
| InlineFragmentNode (selectionSet : list SelectionNode).

Record GraphQLResolveInfo := { selections : list SelectionNode }.

(** [selections.find((e) => e.kind === Kind.FIELD && e.name.value === name)] *)
Definition find_field (name : string) (sel : list SelectionNode) : option SelectionNode :=
  List.find (fun e => match e with
                      | FieldNode n _ => String.eqb n name
                      | _ => false
                      end) sel.

(** [(source, args, context, info) => Promise<any>], run against an executor. *)
Definition Resolver : Type :=
  Executor -> value -> value -> value -> GraphQLResolveInfo -> M value.

Record CreatedResolver := {
  name : string;
  resolver : Resolver;
  args : ArgumentMap
}.

(** [GraphQLFieldConfig]: an entry of the generated [queries] and
    [mutations] maps. *)
Record FieldConfig := {
  type : GraphQLType;
  field_args : ArgumentMap;
  resolve : Resolver
}.

(** What [generateTableTypes] returns. *)
Record TableTypes := {
  insertInput : GraphQLType;
  updateInput : GraphQLType;
  tableFilters : GraphQLType;
  tableOrder : GraphQLType;
  relationFilters : gmap string GraphQLType;
  relationOrder : gmap string GraphQLType;
  selectSingleOutput : GraphQLType;
  selectArrOutput : GraphQLType;
  singleTableItemOutput : GraphQLType;
  arrTableItemOutput : GraphQLType
}.

Record GeneratedEntities := {
  queries : gmap string FieldConfig;
  mutations : gmap string FieldConfig;
  inputs : gmap string GraphQLType;
  types : gmap string GraphQLType
}.

(** [Object.fromEntries]: a later entry replaces an earlier one with the
    same key. *)
Definition fromEntries {A} (entries : list (string * A)) : gmap string A :=
  foldl (fun m kv => <[kv.1 := kv.2]> m) ∅ entries.

(** [arr.map(f)] with an [f] that may throw: the first throw ends the map. *)
Fixpoint map_throwing {A B} (f : A -> thrown + B) (l : list A) : thrown + list B :=
  match l with
  | [] => inr []
  | x :: rest =>
      match f x with
      | inl e => inl e
      | inr y => match map_throwing f rest with
                 | inl e => inl e
                 | inr ys => inr (y :: ys)
                 end
      end
  end.

(** [entries.find(([n, t]) => t === target)![0]] *)
Definition name_of_table (tableEntries : list (string * Table)) (target : Table)
  : thrown + string :=
  match List.find (fun kv => same_table kv.2 target) tableEntries with
  | Some kv => inr kv.1
  | None => inl (cannot_read "undefined" "0")
  end.

Definition tables_of (d : dialect) (schemaEntries : list (string * schema_value))
  : list (string * Table) :=
  omap (fun kv => match kv.2 with
                  | SchemaTable t =>
                      if decide (table_class t = d) then Some (kv.1, t) else None
                  | _ => None
                  end) schemaEntries.

Definition relations_of (schemaEntries : list (string * schema_value))
  : list (string * Relations) :=
  omap (fun kv => match kv.2 with
                  | SchemaRelations r => Some (kv.1, r)
                  | _ => None
                  end) schemaEntries.

(** ** The MySQL and SQLite builders *)

(** [TableNamedRelations] *)
Record TableNamedRelations := { relation : Relation; targetTableName : string }.

Definition RelationMap : Type := gmap string (list (string * TableNamedRelations)).

(** The modules the two builders import and that are kept abstract here:
    [@/util/builders/common], [@/util/case-ops], [@/util/data-mappers] and
    [graphql-parse-resolve-info].  Each function may throw.  A table looked
    up with [tables[tableName]!] is passed on as it is found, hence the
    [option Table]: [None] when the name is not a key of [tables]. *)
Class Common := {
  databaseOfContext : Db -> value -> thrown + Db;
  extractFilters : option Table -> string -> value -> thrown + value;
  extractOrderBy : option Table -> value -> thrown + value;
  extractRelationsParams :
    RelationMap -> gmap string Table -> string -> value -> string -> thrown + value;
  extractSelectedColumnsFromTree : value -> option Table -> thrown + value;
  extractSelectedColumnsFromTreeSQLFormat : value -> option Table -> thrown + value;
  generateTableTypes :
    string -> gmap string Table -> RelationMap -> bool -> option Z -> thrown + TableTypes;
  capitalize : string -> string;
  uncapitalize : string -> string;
  remapFromGraphQLArrayInput : value -> option Table -> thrown + list record;
  remapFromGraphQLSingleInput : value -> option Table -> thrown + record;
  remapToGraphQLArrayOutput :
    value -> string -> option Table -> option RelationMap -> thrown + value;
  remapToGraphQLSingleOutput :
    value -> string -> option Table -> option RelationMap -> thrown + value;
  parseResolveInfo : GraphQLResolveInfo -> thrown + value
}.

Definition table_not_found (tableName : string) : thrown :=
  Error ("Drizzle-GraphQL Error: Table " +:+ tableName +:+
         " not found in drizzle instance. Did you forget to pass schema to drizzle constructor?").

Definition no_tables_detected : thrown :=
  Error "Drizzle-GraphQL Error: No tables detected in Drizzle-ORM's database instance. Did you forget to pass schema to drizzle constructor?".

Definition isSuccess : value := VObject [("isSuccess", VBool true)].

(** [parsedInfo.fieldsByTypeName[typeName]!] *)
Definition fieldsByTypeName (parsedInfo : value) (typeName : string) : thrown + value :=
  match member parsedInfo "fieldsByTypeName" with
  | inl e => inl e
  | inr fields => member fields typeName
  end.

(** [rawRelations] and [namedRelations] of [generateSchemaData]; the
    Postgres builder has the first under the name [relations]. *)
Definition rawRelations (tableEntries : list (string * Table))
    (schemaEntries : list (string * schema_value))
  : thrown + list (string * list (string * Relation)) :=
  map_throwing
    (fun kv : string * Relations =>
       match name_of_table tableEntries (relations_table kv.2) with
       | inl e => inl e
       | inr tableName => inr (tableName, config kv.2)
       end)
    (relations_of schemaEntries).

Definition namedRelations (tableEntries : list (string * Table))
    (raw : list (string * list (string * Relation)))
  : thrown + RelationMap :=
  match
    map_throwing
      (fun rc : string * list (string * Relation) =>
         match
           map_throwing
             (fun inner : string * Relation =>
                match name_of_table tableEntries (referencedTable inner.2) with
                | inl e => inl e
                | inr target =>
                    inr (inner.1, {| relation := inner.2; targetTableName := target |})
                end)
             rc.2
         with
         | inl e => inl e
         | inr namedConfig => inr (rc.1, namedConfig)
         end)
      raw
  with
  | inl e => inl e
  | inr entries => inr (fromEntries entries)
  end.

Module MySql.
Section Builders.
Context `{Common}.

Definition generateSelectArray (db : Db) (tableName : string)
    (tables : gmap string Table) (relationMap : RelationMap)
    (orderArgs filterArgs : GraphQLType) : CreatedResolver :=
  let queryName := uncapitalize tableName in
  let queryArgs : ArgumentMap :=
    [("offset", GraphQLInt); ("limit", GraphQLInt);
     ("orderBy", orderArgs); ("where", filterArgs)] in
  let typeName := capitalize tableName +:+ "SelectItem" in
  let table := tables !! tableName in
  {| name := queryName;
     resolver := fun exec source args context info =>
       try_catch
         (offset ← call (destructure args "offset");
          limit ← call (destructure args "limit");
          orderBy ← call (destructure args "orderBy");
          where_ ← call (destructure args "where");
          parsedInfo ← call (parseResolveInfo info);
          dynamicDb ← call (databaseOfContext db context);
          match query_base dynamicDb tableName with
          | None => throw (table_not_found tableName)
          | Some queryBase =>
              tree ← call (fieldsByTypeName parsedInfo typeName);
              columns ← call (extractSelectedColumnsFromTree tree table);
              orderBy' ← (if truthy orderBy then call (extractOrderBy table orderBy)
                          else mret VUndefined);
              where' ← (if truthy where_ then call (extractFilters table tableName where_)
                        else mret VUndefined);
              with_ ← (if truthy_at relationMap tableName
                       then call (extractRelationsParams relationMap tables tableName
                                    parsedInfo typeName)
                       else mret VUndefined);
              result ← findMany exec queryBase dynamicDb tableName
                [("columns", columns); ("offset", offset); ("limit", limit);
                 ("orderBy", orderBy'); ("where", where'); ("with", with_)];
              remap result
                (remapToGraphQLArrayOutput result tableName table (Some relationMap))
          end)
         rethrow;
     args := queryArgs |}.

Definition generateSelectSingle (db : Db) (tableName : string)
    (tables : gmap string Table) (relationMap : RelationMap)
    (orderArgs filterArgs : GraphQLType) : CreatedResolver :=
  let queryName := uncapitalize tableName +:+ "Single" in
  let queryArgs : ArgumentMap :=
    [("offset", GraphQLInt); ("orderBy", orderArgs); ("where", filterArgs)] in
  let typeName := capitalize tableName +:+ "SelectItem" in
  let table := tables !! tableName in
  {| name := queryName;
     resolver := fun exec source args context info =>
       try_catch
         (offset ← call (destructure args "offset");
          orderBy ← call (destructure args "orderBy");
          where_ ← call (destructure args "where");
          parsedInfo ← call (parseResolveInfo info);
          dynamicDb ← call (databaseOfContext db context);
          match query_base dynamicDb tableName with
          | None => throw (table_not_found tableName)
          | Some queryBase =>
              tree ← call (fieldsByTypeName parsedInfo typeName);
              columns ← call (extractSelectedColumnsFromTree tree table);
              orderBy' ← (if truthy orderBy then call (extractOrderBy table orderBy)
                          else mret VUndefined);
              where' ← (if truthy where_ then call (extractFilters table tableName where_)
                        else mret VUndefined);
              with_ ← (if truthy_at relationMap tableName
                       then call (extractRelationsParams relationMap tables tableName
                                    parsedInfo typeName)
                       else mret VUndefined);
              result ← findFirst exec queryBase dynamicDb tableName
                [("columns", columns); ("offset", offset);
                 ("orderBy", orderBy'); ("where", where'); ("with", with_)];
              if truthy result then
                remap result
                  (remapToGraphQLSingleOutput result tableName table (Some relationMap))
              else mret VUndefined
          end)
         rethrow;
     args := queryArgs |}.

Definition generateInsertArray (db : Db) (tableName : string) (table : Table)
    (baseType : GraphQLType) : CreatedResolver :=
  let queryName := "insertInto" +:+ capitalize tableName in
  let queryArgs : ArgumentMap :=
    [("values", GraphQLNonNull (GraphQLList (GraphQLNonNull baseType)))] in
  {| name := queryName;
     resolver := fun exec source args context info =>
       try_catch
         (values ← call (member args "values");
          input ← call (remapFromGraphQLArrayInput values (Some table));
          if Nat.eqb (length input) 0 then throw (GraphQLError "No values were provided!")
          else
            dynamicDb ← call (databaseOfContext db context);
            _ ← await exec (Insert dynamicDb table (ManyRows input) None false);
            mret isSuccess)
         rethrow;
     args := queryArgs |}.

Definition generateInsertSingle (db : Db) (tableName : string) (table : Table)
    (baseType : GraphQLType) : CreatedResolver :=
  let queryName := "insertInto" +:+ capitalize tableName +:+ "Single" in
  let queryArgs : ArgumentMap := [("values", GraphQLNonNull baseType)] in
  {| name := queryName;
     resolver := fun exec source args context info =>
       try_catch
         (values ← call (member args "values");
          input ← call (remapFromGraphQLSingleInput values (Some table));
          dynamicDb ← call (databaseOfContext db context);
          _ ← await exec (Insert dynamicDb table (OneRow input) None false);
          mret isSuccess)
         rethrow;
     args := queryArgs |}.

Definition generateUpdate (db : Db) (tableName : string) (table : Table)
    (setArgs filterArgs : GraphQLType) : CreatedResolver :=
  let queryName := "update" +:+ capitalize tableName in
  let queryArgs : ArgumentMap :=
    [("set", GraphQLNonNull setArgs); ("where", filterArgs)] in
  {| name := queryName;
     resolver := fun exec source args context info =>
       try_catch
         (where_ ← call (destructure args "where");
          set ← call (destructure args "set");
          input ← call (remapFromGraphQLSingleInput set (Some table));
          if Nat.eqb (length input) 0
          then throw (GraphQLError "Unable to update with no values specified!")
          else
            dynamicDb ← call (databaseOfContext db context);
            filters ← (if truthy where_
                       then f ← call (extractFilters (Some table) tableName where_);
                            mret (Some f)
                       else mret None);
            _ ← await exec (Update dynamicDb table input filters None);
            mret isSuccess)
         rethrow;
     args := queryArgs |}.

Definition generateDelete (db : Db) (tableName : string) (table : Table)
    (filterArgs : GraphQLType) : CreatedResolver :=
  let queryName := "deleteFrom" +:+ tableName in
  let queryArgs : ArgumentMap := [("where", filterArgs)] in
  {| name := queryName;
     resolver := fun exec source args context info =>
       try_catch
         (where_ ← call (destructure args "where");
          dynamicDb ← call (databaseOfContext db context);
          filters ← (if truthy where_
                     then f ← call (extractFilters (Some table) tableName where_);
                          mret (Some f)
                     else mret None);
          _ ← await exec (Delete dynamicDb table filters None);
          mret isSuccess)
         rethrow;
     args := queryArgs |}.

End Builders.
End MySql.

Module SQLite.
Section Builders.
Context `{Common}.

Definition generateSelectArray (db : Db) (tableName : string)
    (tables : gmap string Table) (relationMap : RelationMap)
    (orderArgs filterArgs : GraphQLType) : CreatedResolver :=
  let queryName := uncapitalize tableName in
  let queryArgs : ArgumentMap :=
    [("offset", GraphQLInt); ("limit", GraphQLInt);
     ("orderBy", orderArgs); ("where", filterArgs)] in
  let typeName := capitalize tableName +:+ "SelectItem" in
  let table := tables !! tableName in
  {| name := queryName;
     resolver := fun exec source args context info =>
       try_catch
         (offset ← call (destructure args "offset");
          limit ← call (destructure args "limit");
          orderBy ← call (destructure args "orderBy");
          where_ ← call (destructure args "where");
          parsedInfo ← call (parseResolveInfo info);
          dynamicDb ← call (databaseOfContext db context);
          match query_base dynamicDb tableName with
          | None => throw (table_not_found tableName)
          | Some queryBase =>
              tree ← call (fieldsByTypeName parsedInfo typeName);
              columns ← call (extractSelectedColumnsFromTree tree table);
              orderBy' ← (if truthy orderBy then call (extractOrderBy table orderBy)
                          else mret VUndefined);
              where' ← (if truthy where_ then call (extractFilters table tableName where_)
                        else mret VUndefined);
              with_ ← (if truthy_at relationMap tableName
                       then call (extractRelationsParams relationMap tables tableName
                                    parsedInfo typeName)
                       else mret VUndefined);
              result ← findMany exec queryBase dynamicDb tableName
                [("columns", columns); ("offset", offset); ("limit", limit);
                 ("orderBy", orderBy'); ("where", where'); ("with", with_)];
              remap result
                (remapToGraphQLArrayOutput result tableName table (Some relationMap))
          end)
         rethrow;
     args := queryArgs |}.

Definition generateSelectSingle (db : Db) (tableName : string)
    (tables : gmap string Table) (relationMap : RelationMap)
    (orderArgs filterArgs : GraphQLType) : CreatedResolver :=
  let queryName := uncapitalize tableName +:+ "Single" in
  let queryArgs : ArgumentMap :=
    [("offset", GraphQLInt); ("orderBy", orderArgs); ("where", filterArgs)] in
  let typeName := capitalize tableName +:+ "SelectItem" in
  let table := tables !! tableName in
  {| name := queryName;
     resolver := fun exec source args context info =>
       try_catch
         (offset ← call (destructure args "offset");
          orderBy ← call (destructure args "orderBy");
          where_ ← call (destructure args "where");
          parsedInfo ← call (parseResolveInfo info);
          dynamicDb ← call (databaseOfContext db context);
          match query_base dynamicDb tableName with
          | None => throw (table_not_found tableName)
          | Some queryBase =>
              tree ← call (fieldsByTypeName parsedInfo typeName);
              columns ← call (extractSelectedColumnsFromTree tree table);
              orderBy' ← (if truthy orderBy then call (extractOrderBy table orderBy)
                          else mret VUndefined);
              where' ← (if truthy where_ then call (extractFilters table tableName where_)
                        else mret VUndefined);
              with_ ← (if truthy_at relationMap tableName
                       then call (extractRelationsParams relationMap tables tableName
                                    parsedInfo typeName)
                       else mret VUndefined);
              result ← findFirst exec queryBase dynamicDb tableName
                [("columns", columns); ("offset", offset);
                 ("orderBy", orderBy'); ("where", where'); ("with", with_)];
              if truthy result then
                remap result
                  (remapToGraphQLSingleOutput result tableName table (Some relationMap))
              else mret VUndefined
          end)
         rethrow;
     args := queryArgs |}.

Definition generateInsertArray (db : Db) (tableName : string) (table : Table)
    (baseType : GraphQLType) : CreatedResolver :=
  let queryName := "insertInto" +:+ capitalize tableName in
  let typeName := capitalize tableName +:+ "Item" in
  let queryArgs : ArgumentMap :=
    [("values", GraphQLNonNull (GraphQLList (GraphQLNonNull baseType)))] in
  {| name := queryName;
     resolver := fun exec source args context info =>
       try_catch
         (values ← call (member args "values");
          input ← call (remapFromGraphQLArrayInput values (Some table));
          if Nat.eqb (length input) 0 then throw (GraphQLError "No values were provided!")
          else
            parsedInfo ← call (parseResolveInfo info);
            tree ← call (fieldsByTypeName parsedInfo typeName);
            columns ← call (extractSelectedColumnsFromTreeSQLFormat tree (Some table));
            result ← await exec (Insert db table (ManyRows input) (Some columns) true);
            remap result (remapToGraphQLArrayOutput result tableName (Some table) None))
         rethrow;
     args := queryArgs |}.

Definition generateInsertSingle (db : Db) (tableName : string) (table : Table)
    (baseType : GraphQLType) : CreatedResolver :=
  let queryName := "insertInto" +:+ capitalize tableName +:+ "Single" in
  let typeName := capitalize tableName +:+ "Item" in
  let queryArgs : ArgumentMap := [("values", GraphQLNonNull baseType)] in
  {| name := queryName;
     resolver := fun exec source args context info =>
       try_catch
         (values ← call (member args "values");
          input ← call (remapFromGraphQLSingleInput values (Some table));
          parsedInfo ← call (parseResolveInfo info);
          tree ← call (fieldsByTypeName parsedInfo typeName);
          columns ← call (extractSelectedColumnsFromTreeSQLFormat tree (Some table));
          dynamicDb ← call (databaseOfContext db context);
          result ← await exec (Insert dynamicDb table (OneRow input) (Some columns) true);
          first ← call (member result "0");
          if truthy first then
            remap first (remapToGraphQLSingleOutput first tableName (Some table) None)
          else mret VUndefined)
         rethrow;
     args := queryArgs |}.

Definition generateUpdate (db : Db) (tableName : string) (table : Table)
    (setArgs filterArgs : GraphQLType) : CreatedResolver :=
  let queryName := "update" +:+ capitalize tableName in
  let typeName := capitalize tableName +:+ "Item" in
  let queryArgs : ArgumentMap :=
    [("set", GraphQLNonNull setArgs); ("where", filterArgs)] in
  {| name := queryName;
     resolver := fun exec source args context info =>
       try_catch
         (where_ ← call (destructure args "where");
          set ← call (destructure args "set");
          parsedInfo ← call (parseResolveInfo info);
          tree ← call (fieldsByTypeName parsedInfo typeName);
          columns ← call (extractSelectedColumnsFromTreeSQLFormat tree (Some table));
          input ← call (remapFromGraphQLSingleInput set (Some table));
          if Nat.eqb (length input) 0
          then throw (GraphQLError "Unable to update with no values specified!")
          else
            dynamicDb ← call (databaseOfContext db context);
            filters ← (if truthy where_
                       then f ← call (extractFilters (Some table) tableName where_);
                            mret (Some f)
                       else mret None);
            result ← await exec (Update dynamicDb table input filters (Some columns));
            remap result (remapToGraphQLArrayOutput result tableName (Some table) None))
         rethrow;
     args := queryArgs |}.

Definition generateDelete (db : Db) (tableName : string) (table : Table)
    (filterArgs : GraphQLType) : CreatedResolver :=
  let queryName := "deleteFrom" +:+ capitalize tableName in
  let typeName := capitalize tableName +:+ "Item" in
  let queryArgs : ArgumentMap := [("where", filterArgs)] in
  {| name := queryName;
     resolver := fun exec source args context info =>
       try_catch
         (where_ ← call (destructure args "where");
          parsedInfo ← call (parseResolveInfo info);
          tree ← call (fieldsByTypeName parsedInfo typeName);
          columns ← call (extractSelectedColumnsFromTreeSQLFormat tree (Some table));
          dynamicDb ← call (databaseOfContext db context);
          filters ← (if truthy where_
                     then f ← call (extractFilters (Some table) tableName where_);
                          mret (Some f)
                     else mret None);
          result ← await exec (Delete dynamicDb table filters (Some columns));
          remap result (remapToGraphQLArrayOutput result tableName (Some table) None))
         rethrow;
     args := queryArgs |}.

End Builders.
End SQLite.

(** ** The Postgres builder *)

(** [obj[k] = v] on an object kept as its list of properties. *)
Fixpoint set_own (k : string) (v : value) (props : record) : record :=
  match props with
  | [] => [(k, v)]
  | (k', v') :: rest =>
      if String.eqb k k' then (k, v) :: rest else (k', v') :: set_own k v rest
  end.

(** The same on a plain object, where [__proto__] names no property. *)
Definition set_prop (k : string) (v : value) (props : record) : record :=
  if String.eqb k "__proto__" then props else set_own k v props.

Module Pg.

(** The modules this builder imports and that are kept abstract here:
    [@/Util/Builders/vanilla/common], [@/Util/caseOps], [@/Util/dataMappers]. *)
Class Vanilla := {
  extractFilters : Table -> string -> value -> thrown + value;
  extractOrderBy : Table -> value -> thrown + value;
  extractSelectedColumnsFromNode : option SelectionNode -> Table -> thrown + value;
  extractSelectedColumnsSQLFormat :
    GraphQLResolveInfo -> string -> Table -> thrown + value;
  generateTableTypes :
    string -> Table -> bool -> option (list (string * Relation)) -> thrown + TableTypes;
  camelize : string -> string;
  pascalize : string -> string;
  remapFromGraphQLArrayInput : value -> Table -> thrown + list record;
  remapFromGraphQLSingleInput : value -> Table -> thrown + record;
  remapToGraphQLArrayOutput :
    value -> option (list (string * Relation)) -> thrown + value;
  remapToGraphQLSingleOutput :
    value -> option (list (string * Relation)) -> thrown + value
}.

Definition table_not_found (tableName : string) : thrown :=
  Error ("Table " +:+ tableName +:+
         " not found in drizzle instance. Did you forget to pass schema to drizzle constructor?").

Definition unable_to_extract_tables : thrown :=
  Error "Unable to extract tables from drizzle instance.
Did you forget to pass tables to graphql schema constructor?".

Section Builders.
Context `{Vanilla}.

(** The input type of one entry of the [relations] argument. *)
Definition relationArgsFields (relVal : Relation)
    (relName : string)
    (relationsOrderArgs relationsFilterArgs : gmap string GraphQLType)
  : list (string * GraphQLType) :=
  if is_many relVal then
    [("where", default UndefinedType (relationsFilterArgs !! relName));
     ("orderBy", default UndefinedType (relationsOrderArgs !! relName));
     ("offset", GraphQLInt);
     ("limit", GraphQLInt)]
  else
    [("where", default UndefinedType (relationsFilterArgs !! relName));
     ("orderBy", default UndefinedType (relationsOrderArgs !! relName));
     ("offset", GraphQLInt)].

(** [relationArgs]: [relationEntries] are the entries of a record, so
    [Object.fromEntries] keeps each of them. *)
Definition relationArgsType (queryName : string)
    (relationEntries : list (string * Relation))
    (relationsOrderArgs relationsFilterArgs : gmap string GraphQLType)
  : GraphQLType :=
  GraphQLInputObjectType (queryName +:+ "RelationArgs")
    (map (fun rel : string * Relation =>
            (rel.1,
             GraphQLInputObjectType (queryName +:+ rel.1 +:+ "RelationArgs")
               (relationArgsFields rel.2 rel.1 relationsOrderArgs relationsFilterArgs)))
         relationEntries).

(** The [for (const [relName, relValue] of relationEntries)] loop shared
    by the two select resolvers. *)
Fixpoint withFieldsLoop (args : value) (tableSelection : option SelectionNode)
    (relationEntries : list (string * Relation)) (withFields : record) : M record :=
  match relationEntries with
  | [] => mret withFields
  | (relName, relValue) :: rest =>
      match tableSelection with
      | None => throw (cannot_read "undefined" "selectionSet")
      | Some (FieldNode _ (Some sels)) =>
          match find_field relName sels with
          | None => withFieldsLoop args tableSelection rest withFields
          | Some node =>
              let refTable := referencedTable relValue in
              rels ← call (member args "relations");
              let relationArgs := opt_member rels relName in
              columns ← call (extractSelectedColumnsFromNode (Some node) refTable);
              orderBy ← (if truthy (opt_member relationArgs "orderBy")
                         then call (extractOrderBy refTable
                                      (opt_member relationArgs "orderBy"))
                         else mret VUndefined);
              where_ ← (if truthy (opt_member relationArgs "where")
                        then call (extractFilters refTable relName
                                     (opt_member relationArgs "where"))
                        else mret VUndefined);
              let offset := coalesce (opt_member relationArgs "offset") VUndefined in
              let limit := coalesce (opt_member relationArgs "limit") VUndefined in
              withFieldsLoop args tableSelection rest
                (set_prop relName
                   (VObject [("columns", columns); ("orderBy", orderBy);
                             ("where", where_); ("offset", offset); ("limit", limit)])
                   withFields)
          end
      | Some _ => withFieldsLoop args tableSelection rest withFields
      end
  end.

(** [Object.keys(withFields).length ? withFields : undefined] *)
Definition with_or_undefined (withFields : record) : value :=
  if Nat.eqb (length withFields) 0 then VUndefined else VObject withFields.

Definition generateSelectArray (db : Db) (tableName : string) (table : Table)
    (relations : option (list (string * Relation)))
    (orderArgs filterArgs : GraphQLType)
    (relationsOrderArgs relationsFilterArgs : gmap string GraphQLType)
  : thrown + CreatedResolver :=
  let queryName := camelize tableName in
  match query_base db tableName with
  | None => inl (table_not_found tableName)
  | Some queryBase =>
    let relationEntries := relations in
    let relationArgs :=
      (fun entries => relationArgsType queryName entries
                        relationsOrderArgs relationsFilterArgs) <$> relationEntries in
    let queryArgs : ArgumentMap :=
      match relationArgs with
      | Some relationArgs =>
          [("offset", GraphQLInt); ("limit", GraphQLInt); ("orderBy", orderArgs);
           ("where", filterArgs); ("relations", relationArgs)]
      | None =>
          [("offset", GraphQLInt); ("limit", GraphQLInt); ("orderBy", orderArgs);
           ("where", filterArgs)]
      end in
    inr {| name := queryName;
           resolver := fun exec source args context info =>
             offset ← call (destructure args "offset");
             limit ← call (destructure args "limit");
             orderBy ← call (destructure args "orderBy");
             where_ ← call (destructure args "where");
             let tableSelection := find_field queryName (selections info) in
             columns ← call (extractSelectedColumnsFromNode tableSelection table);
             withFields ← (match relationEntries with
                           | Some entries => withFieldsLoop args tableSelection entries []
                           | None => mret []
                           end);
             orderBy' ← (if truthy orderBy then call (extractOrderBy table orderBy)
                         else mret VUndefined);
             where' ← (if truthy where_ then call (extractFilters table tableName where_)
                       else mret VUndefined);
             result ← findMany exec queryBase db tableName
               [("columns", columns); ("offset", offset); ("limit", limit);
                ("orderBy", orderBy'); ("where", where');
                ("with", with_or_undefined withFields)];
             remap result (remapToGraphQLArrayOutput result relations);
           args := queryArgs |}
  end.

Definition generateSelectSingle (db : Db) (tableName : string) (table : Table)
    (relations : option (list (string * Relation)))
    (orderArgs filterArgs : GraphQLType)
    (relationsOrderArgs relationsFilterArgs : gmap string GraphQLType)
  : thrown + CreatedResolver :=
  let queryName := camelize tableName +:+ "Single" in
  match query_base db tableName with
  | None => inl (table_not_found tableName)
  | Some queryBase =>
    let relationEntries := relations in
    let relationArgs :=
      (fun entries => relationArgsType queryName entries
                        relationsOrderArgs relationsFilterArgs) <$> relationEntries in
    let queryArgs : ArgumentMap :=
      match relationArgs with
      | Some relationArgs =>
          [("offset", GraphQLInt); ("orderBy", orderArgs);
           ("where", filterArgs); ("relations", relationArgs)]
      | None =>
          [("offset", GraphQLInt); ("limit", GraphQLInt); ("orderBy", orderArgs);
           ("where", filterArgs)]
      end in
    inr {| name := queryName;
           resolver := fun exec source args context info =>
             offset ← call (destructure args "offset");
             limit ← call (destructure args "limit");
             orderBy ← call (destructure args "orderBy");
             where_ ← call (destructure args "where");
             let tableSelection := find_field queryName (selections info) in
             columns ← call (extractSelectedColumnsFromNode tableSelection table);
             withFields ← (match relationEntries with
                           | Some entries => withFieldsLoop args tableSelection entries []
                           | None => mret []
                           end);
             orderBy' ← (if truthy orderBy then call (extractOrderBy table orderBy)
                         else mret VUndefined);
             where' ← (if truthy where_ then call (extractFilters table tableName where_)
                       else mret VUndefined);
             result ← findFirst exec queryBase db tableName
               [("columns", columns); ("offset", offset);
                ("orderBy", orderBy'); ("where", where');
                ("with", with_or_undefined withFields)];
             if truthy result then
               remap result (remapToGraphQLSingleOutput result relations)
             else mret VUndefined;
           args := queryArgs |}
  end.

Definition generateInsertArray (db : Db) (tableName : string) (table : Table)
    (baseType : GraphQLType) : CreatedResolver :=
  let queryName := "insertInto" +:+ pascalize tableName in
  let queryArgs : ArgumentMap :=
    [("values", GraphQLNonNull (GraphQLList (GraphQLNonNull baseType)))] in
  {| name := queryName;
     resolver := fun exec source args context info =>
       values ← call (member args "values");
       input ← call (remapFromGraphQLArrayInput values table);
       if Nat.eqb (length input) 0 then throw (GraphQLError "No values were provided!")
       else
         columns ← call (extractSelectedColumnsSQLFormat info queryName table);
         result ← await exec (Insert db table (ManyRows input) (Some columns) true);
         remap result (remapToGraphQLArrayOutput result None);
     args := queryArgs |}.

Definition generateInsertSingle (db : Db) (tableName : string) (table : Table)
    (baseType : GraphQLType) : CreatedResolver :=
  let queryName := "insertInto" +:+ pascalize tableName +:+ "Single" in
  let queryArgs : ArgumentMap := [("values", GraphQLNonNull baseType)] in
  {| name := queryName;
     resolver := fun exec source args context info =>
       values ← call (member args "values");
       input ← call (remapFromGraphQLSingleInput values table);
       columns ← call (extractSelectedColumnsSQLFormat info queryName table);
       result ← await exec (Insert db table (OneRow input) (Some columns) true);
       first ← call (member result "0");
       if truthy first then remap first (remapToGraphQLSingleOutput first None)
       else mret VUndefined;
     args := queryArgs |}.

Definition generateUpdate (db : Db) (tableName : string) (table : Table)
    (setArgs filterArgs : GraphQLType) : CreatedResolver :=
  let queryName := "update" +:+ pascalize tableName in
  let queryArgs : ArgumentMap :=
    [("set", GraphQLNonNull setArgs); ("where", filterArgs)] in
  {| name := queryName;
     resolver := fun exec source args context info =>
       where_ ← call (destructure args "where");
       set ← call (destructure args "set");
       columns ← call (extractSelectedColumnsSQLFormat info queryName table);
       input ← call (remapFromGraphQLSingleInput set table);
       if Nat.eqb (length input) 0
       then throw (GraphQLError "Unable to update with no values specified!")
       else
         filters ← (if truthy where_
                    then f ← call (extractFilters table tableName where_);
                         mret (Some f)
                    else mret None);
         result ← await exec (Update db table input filters (Some columns));
         remap result (remapToGraphQLArrayOutput result None);
     args := queryArgs |}.

Definition generateDelete (db : Db) (tableName : string) (table : Table)
    (filterArgs : GraphQLType) : CreatedResolver :=
  let queryName := "deleteFrom" +:+ pascalize tableName in
  let queryArgs : ArgumentMap := [("where", filterArgs)] in
  {| name := queryName;
     resolver := fun exec source args context info =>
       where_ ← call (destructure args "where");
       columns ← call (extractSelectedColumnsSQLFormat info queryName table);
       filters ← (if truthy where_
                  then f ← call (extractFilters table tableName where_);
                       mret (Some f)
                  else mret None);
       result ← await exec (Delete db table filters (Some columns));
       remap result (remapToGraphQLArrayOutput result None);
     args := queryArgs |}.

End Builders.
End Pg.

(** ** Schema generation *)

(** [queries[op.name] = { type, args: op.args, resolve: op.resolver }] *)
Definition register (op : CreatedResolver) (t : GraphQLType)
    (fields : gmap string FieldConfig) : gmap string FieldConfig :=
  assign (name op) {| type := t; field_args := args op; resolve := resolver op |} fields.

(** [[a, b, ...].forEach((e) => (inputs[e.name] = e))] *)
Definition register_types (ts : list GraphQLType) (m : gmap string GraphQLType)
  : gmap string GraphQLType :=
  foldl (fun acc e => assign (type_name e) e acc) m ts.

(** The schema is given by its entries, [Object.entries(schema)].  The
    tables filtered out of it keep their keys, so [Object.entries(tables)]
    and [Object.entries(gqlSchemaTypes)] enumerate them in the same order,
    and [schema[tableName]] is the table of the entry. *)
Definition Schema : Type := list (string * schema_value).

Definition mutationReturnType : GraphQLType :=
  GraphQLObjectType "MutationReturn" [("isSuccess", GraphQLNonNull GraphQLBoolean)].

Module MySqlSchema.
Section Generator.
Context `{Common}.

(** One turn of the [for (const [tableName, tableTypes] of ...)] loop. *)
Definition addTable (db : Db) (tables : gmap string Table) (named : RelationMap)
    (acc : GeneratedEntities) (entry : string * Table * TableTypes)
  : GeneratedEntities :=
  let '(tableName, table, tableTypes) := entry in
  let selectArrGenerated :=
    MySql.generateSelectArray db tableName tables named
      (tableOrder tableTypes) (tableFilters tableTypes) in
  let selectSingleGenerated :=
    MySql.generateSelectSingle db tableName tables named
      (tableOrder tableTypes) (tableFilters tableTypes) in
  let insertArrGenerated :=
    MySql.generateInsertArray db tableName table (insertInput tableTypes) in
  let insertSingleGenerated :=
    MySql.generateInsertSingle db tableName table (insertInput tableTypes) in
  let updateGenerated :=
    MySql.generateUpdate db tableName table
      (updateInput tableTypes) (tableFilters tableTypes) in
  let deleteGenerated :=
    MySql.generateDelete db tableName table (tableFilters tableTypes) in
  {| queries :=
       register selectSingleGenerated (selectSingleOutput tableTypes)
         (register selectArrGenerated (selectArrOutput tableTypes) (queries acc));
     mutations :=
       register deleteGenerated mutationReturnType
         (register updateGenerated mutationReturnType
            (register insertSingleGenerated mutationReturnType
               (register insertArrGenerated mutationReturnType (mutations acc))));
     inputs :=
       register_types
         [insertInput tableTypes; updateInput tableTypes;
          tableFilters tableTypes; tableOrder tableTypes] (inputs acc);
     types :=
       assign (type_name (selectSingleOutput tableTypes)) (selectSingleOutput tableTypes)
         (types acc) |}.

Definition generateSchemaData (db : Db) (schema : Schema)
    (relationsDepthLimit : option Z) : thrown + GeneratedEntities :=
  let schemaEntries := schema in
  let tableEntries := tables_of MySqlTable schemaEntries in
  let tables := fromEntries tableEntries in
  if Nat.eqb (length tableEntries) 0 then inl no_tables_detected
  else
    match rawRelations tableEntries schemaEntries with
    | inl e => inl e
    | inr raw =>
        match namedRelations tableEntries raw with
        | inl e => inl e
        | inr named =>
            match
              map_throwing
                (fun kv : string * Table =>
                   match generateTableTypes kv.1 tables named false
                           relationsDepthLimit with
                   | inl e => inl e
                   | inr tableTypes => inr (kv.1, kv.2, tableTypes)
                   end)
                tableEntries
            with
            | inl e => inl e
            | inr gqlSchemaTypes =>
                inr (foldl (addTable db tables named)
                       {| queries := ∅; mutations := ∅; inputs := ∅;
                          types := {["MutationReturn" := mutationReturnType]} |}
                       gqlSchemaTypes)
            end
        end
    end.
End Generator.
End MySqlSchema.

Module SQLiteSchema.
Section Generator.
Context `{Common}.

Definition addTable (db : Db) (tables : gmap string Table) (named : RelationMap)
    (acc : GeneratedEntities) (entry : string * Table * TableTypes)
  : GeneratedEntities :=
  let '(tableName, table, tableTypes) := entry in
  let selectArrGenerated :=
    SQLite.generateSelectArray db tableName tables named
      (tableOrder tableTypes) (tableFilters tableTypes) in
  let selectSingleGenerated :=
    SQLite.generateSelectSingle db tableName tables named
      (tableOrder tableTypes) (tableFilters tableTypes) in
  let insertArrGenerated :=
    SQLite.generateInsertArray db tableName table (insertInput tableTypes) in
  let insertSingleGenerated :=
    SQLite.generateInsertSingle db tableName table (insertInput tableTypes) in
  let updateGenerated :=
    SQLite.generateUpdate db tableName table
      (updateInput tableTypes) (tableFilters tableTypes) in
  let deleteGenerated :=
    SQLite.generateDelete db tableName table (tableFilters tableTypes) in
  {| queries :=
       register selectSingleGenerated (selectSingleOutput tableTypes)
         (register selectArrGenerated (selectArrOutput tableTypes) (queries acc));
     mutations :=
       register deleteGenerated (arrTableItemOutput tableTypes)
         (register updateGenerated (arrTableItemOutput tableTypes)
            (register insertSingleGenerated (singleTableItemOutput tableTypes)
               (register insertArrGenerated (arrTableItemOutput tableTypes)
                  (mutations acc))));
     inputs :=
       register_types
         [insertInput tableTypes; updateInput tableTypes;
          tableFilters tableTypes; tableOrder tableTypes] (inputs acc);
     types :=
       assign (type_name (singleTableItemOutput tableTypes))
         (singleTableItemOutput tableTypes)
         (assign (type_name (selectSingleOutput tableTypes))
            (selectSingleOutput tableTypes) (types acc)) |}.

Definition generateSchemaData (db : Db) (schema : Schema)
    (relationsDepthLimit : option Z) : thrown + GeneratedEntities :=
  let schemaEntries := schema in
  let tableEntries := tables_of SQLiteTable schemaEntries in
  let tables := fromEntries tableEntries in
  if Nat.eqb (length tableEntries) 0 then inl no_tables_detected
  else
    match rawRelations tableEntries schemaEntries with
    | inl e => inl e
    | inr raw =>
        match namedRelations tableEntries raw with
        | inl e => inl e
        | inr named =>
            match
              map_throwing
                (fun kv : string * Table =>
                   match generateTableTypes kv.1 tables named true
                           relationsDepthLimit with
                   | inl e => inl e
                   | inr tableTypes => inr (kv.1, kv.2, tableTypes)
                   end)
                tableEntries
            with
            | inl e => inl e
            | inr gqlSchemaTypes =>
                inr (foldl (addTable db tables named)
                       {| queries := ∅; mutations := ∅; inputs := ∅; types := ∅ |}
                       gqlSchemaTypes)
            end
        end
    end.
End Generator.
End SQLiteSchema.

Module PgSchema.
Section Generator.
Context `{Pg.Vanilla}.

(** [relations[tableName]] on the plain object [relations].  For a table
    without relations whose name is a member of [Object.prototype] this is
    that member: an object, with no entries. *)
Definition relations_at (relations : gmap string (list (string * Relation)))
    (tableName : string) : option (list (string * Relation)) :=
  match relations !! tableName with
  | Some entries => Some entries
  | None => if inherited tableName then Some [] else None
  end.

(** One turn of the loop; the two select builders may throw. *)
Definition addTable (db : Db)
    (relations : gmap string (list (string * Relation)))
    (acc : GeneratedEntities) (entry : string * Table * TableTypes)
  : thrown + GeneratedEntities :=
  let '(tableName, table, tableTypes) := entry in
  match
    Pg.generateSelectArray db tableName table (relations_at relations tableName)
      (tableOrder tableTypes) (tableFilters tableTypes)
      (relationOrder tableTypes) (relationFilters tableTypes)
  with
  | inl e => inl e
  | inr selectArrGenerated =>
      match
        Pg.generateSelectSingle db tableName table (relations_at relations tableName)
          (tableOrder tableTypes) (tableFilters tableTypes)
          (relationOrder tableTypes) (relationFilters tableTypes)
      with
      | inl e => inl e
      | inr selectSingleGenerated =>
          let insertArrGenerated :=
            Pg.generateInsertArray db tableName table (insertInput tableTypes) in
          let insertSingleGenerated :=
            Pg.generateInsertSingle db tableName table (insertInput tableTypes) in
          let updateGenerated :=
            Pg.generateUpdate db tableName table
              (updateInput tableTypes) (tableFilters tableTypes) in
          let deleteGenerated :=
            Pg.generateDelete db tableName table (tableFilters tableTypes) in
          inr {| queries :=
                   register selectSingleGenerated (selectSingleOutput tableTypes)
                     (register selectArrGenerated (selectArrOutput tableTypes)
                        (queries acc));
                 mutations :=
                   register deleteGenerated (arrTableItemOutput tableTypes)
                     (register updateGenerated (arrTableItemOutput tableTypes)
                        (register insertSingleGenerated
                           (singleTableItemOutput tableTypes)
                           (register insertArrGenerated
                              (arrTableItemOutput tableTypes) (mutations acc))));
                 inputs :=
                   register_types
                     [insertInput tableTypes; updateInput tableTypes;
                      tableFilters tableTypes; tableOrder tableTypes] (inputs acc);
                 types :=
                   assign (type_name (selectSingleOutput tableTypes))
                     (selectSingleOutput tableTypes) (types acc) |}
      end
  end.

Fixpoint addTables (db : Db) (relations : gmap string (list (string * Relation)))
    (acc : GeneratedEntities) (entries : list (string * Table * TableTypes))
  : thrown + GeneratedEntities :=
  match entries with
  | [] => inr acc
  | entry :: rest =>
      match addTable db relations acc entry with
      | inl e => inl e
      | inr acc' => addTables db relations acc' rest
      end
  end.

Definition generateSchemaData (db : Db) (schema : Schema)
  : thrown + GeneratedEntities :=
  let schemaEntries := schema in
  let tableEntries := tables_of PgTable schemaEntries in
  if Nat.eqb (length tableEntries) 0 then inl Pg.unable_to_extract_tables
  else
    match rawRelations tableEntries schemaEntries with
    | inl e => inl e
    | inr raw =>
        let relations := fromEntries raw in
        match
          map_throwing
            (fun kv : string * Table =>
               match Pg.generateTableTypes kv.1 kv.2 true (relations_at relations kv.1) with
               | inl e => inl e
               | inr tableTypes => inr (kv.1, kv.2, tableTypes)
               end)
            tableEntries
        with
        | inl e => inl e
        | inr gqlSchemaTypes =>
            addTables db relations
              {| queries := ∅; mutations := ∅; inputs := ∅; types := ∅ |}
              gqlSchemaTypes
        end
    end.
End Generator.
End PgSchema.

(** ** The operations of one table *)

(** The six operations a builder makes for a table, as the loop of
    [generateSchemaData] calls the builders. *)
Definition mysql_operations `{Common} (db : Db) (tableName : string)
    (tables : gmap string Table) (named : RelationMap) (table : Table)
    (tableTypes : TableTypes) : list CreatedResolver :=
  [MySql.generateSelectArray db tableName tables named
     (tableOrder tableTypes) (tableFilters tableTypes);
   MySql.generateSelectSingle db tableName tables named
     (tableOrder tableTypes) (tableFilters tableTypes);
   MySql.generateInsertArray db tableName table (insertInput tableTypes);
   MySql.generateInsertSingle db tableName table (insertInput tableTypes);
   MySql.generateUpdate db tableName table
     (updateInput tableTypes) (tableFilters tableTypes);
   MySql.generateDelete db tableName table (tableFilters tableTypes)].

Definition sqlite_operations `{Common} (db : Db) (tableName : string)
    (tables : gmap string Table) (named : RelationMap) (table : Table)
    (tableTypes : TableTypes) : list CreatedResolver :=
  [SQLite.generateSelectArray db tableName tables named
     (tableOrder tableTypes) (tableFilters tableTypes);
   SQLite.generateSelectSingle db tableName tables named
     (tableOrder tableTypes) (tableFilters tableTypes);
   SQLite.generateInsertArray db tableName table (insertInput tableTypes);
   SQLite.generateInsertSingle db tableName table (insertInput tableTypes);
   SQLite.generateUpdate db tableName table
     (updateInput tableTypes) (tableFilters tableTypes);
   SQLite.generateDelete db tableName table (tableFilters tableTypes)].

Definition pg_operations `{Pg.Vanilla} (db : Db) (tableName : string)
    (table : Table) (relations : option (list (string * Relation)))
    (tableTypes : TableTypes) : thrown + list CreatedResolver :=
  match
    Pg.generateSelectArray db tableName table relations
      (tableOrder tableTypes) (tableFilters tableTypes)
      (relationOrder tableTypes) (relationFilters tableTypes)
  with
  | inl e => inl e
  | inr selectArrGenerated =>
      match
        Pg.generateSelectSingle db tableName table relations
          (tableOrder tableTypes) (tableFilters tableTypes)
          (relationOrder tableTypes) (relationFilters tableTypes)
      with
      | inl e => inl e
      | inr selectSingleGenerated =>
          inr [selectArrGenerated;
               selectSingleGenerated;
               Pg.generateInsertArray db tableName table (insertInput tableTypes);
               Pg.generateInsertSingle db tableName table (insertInput tableTypes);
               Pg.generateUpdate db tableName table
                 (updateInput tableTypes) (tableFilters tableTypes);
               Pg.generateDelete db tableName table (tableFilters tableTypes)]
      end
  end.

(** The names the operations of a table are registered under. *)
Definition mysql_query_names `{Common} (tableName : string) : list string :=
  [uncapitalize tableName; uncapitalize tableName +:+ "Single"].

Definition mysql_mutation_names `{Common} (tableName : string) : list string :=
  ["insertInto" +:+ capitalize tableName;
   "insertInto" +:+ capitalize tableName +:+ "Single";
   "update" +:+ capitalize tableName;
   "deleteFrom" +:+ tableName].

Definition sqlite_query_names `{Common} (tableName : string) : list string :=
  [uncapitalize tableName; uncapitalize tableName +:+ "Single"].

Definition sqlite_mutation_names `{Common} (tableName : string) : list string :=
  ["insertInto" +:+ capitalize tableName;
   "insertInto" +:+ capitalize tableName +:+ "Single";
   "update" +:+ capitalize tableName;
   "deleteFrom" +:+ capitalize tableName].

Definition pg_query_names `{Pg.Vanilla} (tableName : string) : list string :=
  [Pg.camelize tableName; Pg.camelize tableName +:+ "Single"].

Definition pg_mutation_names `{Pg.Vanilla} (tableName : string) : list string :=
  ["insertInto" +:+ Pg.pascalize tableName;
   "insertInto" +:+ Pg.pascalize tableName +:+ "Single";
   "update" +:+ Pg.pascalize tableName;
   "deleteFrom" +:+ Pg.pascalize tableName].

(** What the [catch] block of the MySQL and SQLite resolvers throws for a
    caught [e]. *)
Definition rethrown (e : thrown) : thrown :=
  match e with
  | ErrorObject _ m => GraphQLError m
  | ThrownObject props =>
      match assoc "message" props with
      | Some (VString m) => GraphQLError m
      | _ => e
      end
  | ThrownPrimitive _ => e
  | ThrownNull => cannot_read "null" "message"
  end.

(** The computation threw. *)
Definition failed {A} (r : thrown + A) : Prop :=
  match r with inl _ => True | inr _ => False end.

(** The argument names of select-many that select-one is to keep. *)
Definition without_limit (names : list string) : list string :=
  filter (fun n => n <> "limit") names.

(** The argument names of the input type of one relation entry. *)
Definition nested_names (t : GraphQLType) : list string :=
  match t with
  | GraphQLInputObjectType _ fields => fields.*1
  | _ => []
  end.

(** The rows of [.values(input)]. *)
Definition rows_of (vals : insert_values) : list record :=
  match vals with
  | OneRow input => [input]
  | ManyRows input => input
  end.

(** ** Reading a statement *)

(** The database a statement is addressed to. *)
Definition db_of (q : statement) : Db :=
  match q with
  | FindMany d _ _ | FindFirst d _ _ => d
  | Insert d _ _ _ _ => d
  | Update d _ _ _ _ => d
  | Delete d _ _ _ => d
  end.

(** The argument of [.where(...)] of an update or a delete, when it was
    called. *)
Definition predicate_of (q : statement) : option value :=
  match q with
  | Update _ _ _ where_ _ => where_
  | Delete _ _ where_ _ => where_
  | _ => None
  end.

(** The configuration handed to [findMany] or [findFirst]. *)
Definition config_of (q : statement) : record :=
  match q with
  | FindMany _ _ cfg | FindFirst _ _ cfg => cfg
  | _ => []
  end.

(** The relations a request selects, among the names of the relations of
    the table: those with a field of their name in the selection set. *)
Definition selected_relations (sels : list SelectionNode) (names : list string)
  : list string :=
  filter (fun relName => is_Some (find_field relName sels)) names.

(** A map of types in which every type sits under its own name. *)
Definition keyed_by_name (m : gmap string GraphQLType) : Prop :=
  forall n t, m !! n = Some t -> type_name t = n.

(** The three shapes of the trace of a resolver: nothing awaited and a
    throw; one statement awaited; one statement awaited, resolved, and the
    answer (or its element [0]) handed to an output remapper. *)
Definition one_await (exec : Executor) (r : M value) : Prop :=
  (trace r = [] /\ failed (result r))
  \/ (exists q, trace r = [Awaited q])
  \/ (exists q answer v,
        trace r = [Awaited q; Remapped v]
        /\ exec q = inr answer
        /\ (v = answer \/ member answer "0" = inr v)).

(** ** Reading the generated maps *)

(** The property [n] of a plain object after the assignments [obj[k] = v]
    of a list, made in order: the value of the last assignment under [n],
    and none under [__proto__]. *)
Definition assigned {A} (n : string) (l : list (string * A)) : option A :=
  if String.eqb n "__proto__" then None else assoc n (reverse l).


(** The names that become properties when they are assigned to. *)
Definition own_names (names : list string) : list string :=
  filter (fun n => n <> "__proto__") names.









(** ** Stand-ins for the abstract modules *)

(** Modelled from the spec: the case-ops modules ([capitalize],
    [uncapitalize], [camelize], [pascalize]) are not among the sources.  The
    spec names the operations [<table>] and [insertInto<Table>]: the table
    name with its first letter in lower case, resp. in upper case. *)
Definition upper_first (s : string) : string :=
  match s with
  | EmptyString => EmptyString
  | String c rest =>
      let n := Ascii.nat_of_ascii c in
      if (97 <=? n)%nat && (n <=? 122)%nat
      then String (Ascii.ascii_of_nat (n - 32)) rest
      else s
  end.

Definition lower_first (s : string) : string :=
  match s with
  | EmptyString => EmptyString
  | String c rest =>
      let n := Ascii.nat_of_ascii c in
      if (65 <=? n)%nat && (n <=? 90)%nat
      then String (Ascii.ascii_of_nat (n + 32)) rest
      else s
  end.

(** A mock of the collaborators, in the manner of a test double: filters,
    orderings and rows pass through unchanged, every selection asks for
    [id], and the generated types carry the table's name. *)
Module Mock.

Definition rows_of_value (v : value) : list record :=
  match v with
  | VArray items =>
      omap (fun item => match item with VObject props => Some props | _ => None end) items
  | _ => []
  end.

Definition record_of_value (v : value) : record :=
  match v with VObject props => props | _ => [] end.

Definition selected : value := VObject [("id", VBool true)].

Definition tableTypes (tableName : string) : TableTypes :=
  let T := upper_first tableName in
  {| insertInput := GraphQLInputObjectType (T +:+ "InsertInput") [("id", GraphQLInt)];
     updateInput := GraphQLInputObjectType (T +:+ "UpdateInput") [("id", GraphQLInt)];
     tableFilters := GraphQLInputObjectType (T +:+ "Filters") [];
     tableOrder := GraphQLInputObjectType (T +:+ "OrderBy") [];
     relationFilters := ∅;
     relationOrder := ∅;
     selectSingleOutput := GraphQLObjectType (T +:+ "SelectItem") [("id", GraphQLInt)];
     selectArrOutput :=
       GraphQLNonNull (GraphQLList (GraphQLNonNull
         (GraphQLObjectType (T +:+ "SelectItem") [("id", GraphQLInt)])));
     singleTableItemOutput := GraphQLObjectType (T +:+ "Item") [("id", GraphQLInt)];
     arrTableItemOutput :=
       GraphQLNonNull (GraphQLList (GraphQLNonNull
         (GraphQLObjectType (T +:+ "Item") [("id", GraphQLInt)]))) |}.

Definition common : Common :=
  {| databaseOfContext := fun db _ => inr db;
     extractFilters := fun _ _ where_ => inr where_;
     extractOrderBy := fun _ orderBy => inr orderBy;
     extractRelationsParams := fun _ _ _ _ _ => inr VUndefined;
     extractSelectedColumnsFromTree := fun _ _ => inr selected;
     extractSelectedColumnsFromTreeSQLFormat := fun _ _ => inr selected;
     generateTableTypes := fun tableName _ _ _ _ => inr (tableTypes tableName);
     capitalize := upper_first;
     uncapitalize := lower_first;
     remapFromGraphQLArrayInput := fun v _ => inr (rows_of_value v);
     remapFromGraphQLSingleInput := fun v _ => inr (record_of_value v);
     remapToGraphQLArrayOutput := fun v _ _ _ => inr v;
     remapToGraphQLSingleOutput := fun v _ _ _ => inr v;
     parseResolveInfo := fun _ => inr (VObject [("fieldsByTypeName", VObject [])]) |}.

Definition vanilla : Pg.Vanilla :=
  {| Pg.extractFilters := fun _ _ where_ => inr where_;
     Pg.extractOrderBy := fun _ orderBy => inr orderBy;
     Pg.extractSelectedColumnsFromNode := fun _ _ => inr selected;
     Pg.extractSelectedColumnsSQLFormat := fun _ _ _ => inr selected;
     Pg.generateTableTypes := fun tableName _ _ _ => inr (tableTypes tableName);
     Pg.camelize := lower_first;
     Pg.pascalize := upper_first;
     Pg.remapFromGraphQLArrayInput := fun v _ => inr (rows_of_value v);
     Pg.remapFromGraphQLSingleInput := fun v _ => inr (record_of_value v);
     Pg.remapToGraphQLArrayOutput := fun v _ => inr v;
     Pg.remapToGraphQLSingleOutput := fun v _ => inr v |}.

(** Executors: one that answers every statement with the same value, one
    that rejects every statement. *)
Definition answering (v : value) : Executor := fun _ => inr v.
Definition rejecting (e : thrown) : Executor := fun _ => inl e.

(** A store keyed by the [id] column, in the manner of a table with a
    unique key.  Two rows conflict when they have the same [id].  An insert
    flagged [onConflictDoNothing] adds its rows one after the other, leaves
    out each row that conflicts with a row of the table, and resolves to the
    rows it added; an unflagged insert rejects as soon as one row
    conflicts. *)
Definition id_of (r : record) : option Z :=
  match assoc "id" r with
  | Some (VNumber n) => Some n
  | _ => None
  end.

Definition conflicting (stored : list record) (r : record) : bool :=
  match id_of r with
  | Some n => bool_decide (Some n ∈ id_of <$> stored)
  | None => false
  end.

Fixpoint inserted (stored rows : list record) : list record :=
  match rows with
  | [] => []
  | r :: rest =>
      if conflicting stored r then inserted stored rest
      else r :: inserted (stored ++ [r]) rest
  end.

Definition store (stored : list record) : Executor := fun q =>
  match q with
  | Insert _ _ vals _ true => inr (VArray (VObject <$> inserted stored (rows_of vals)))
  | Insert _ _ vals _ false =>
      if Nat.eqb (length (inserted stored (rows_of vals))) (length (rows_of vals))
      then inr (VArray (VObject <$> rows_of vals))
      else inl (Error "duplicate key value violates unique constraint")
  | FindFirst _ _ _ => inr (default VUndefined (head (VObject <$> stored)))
  | _ => inr (VArray (VObject <$> stored))
  end.

Definition users : Table := {| table_ref := 1; table_class := MySqlTable |}.
Definition pg_users : Table := {| table_ref := 1; table_class := PgTable |}.
Definition sqlite_users : Table := {| table_ref := 1; table_class := SQLiteTable |}.
Definition db : Db := {| db_ref := 0; query := {["users"]} |}.
Definition empty_db : Db := {| db_ref := 0; query := ∅ |}.
Definition info : GraphQLResolveInfo :=
  {| selections := [FieldNode "users" (Some [FieldNode "id" None])] |}.

(** [users.posts] (many) points at a table that no schema below holds;
    [users.invitedBy] (one) points back at [users]. *)
Definition posts : Table := {| table_ref := 2; table_class := MySqlTable |}.
Definition users_posts : Relation := {| referencedTable := posts; is_many := true |}.
Definition users_invitedBy : Relation :=
  {| referencedTable := users; is_many := false |}.
Definition users_relations : Relations :=
  {| relations_table := users; config := [("posts", users_posts)] |}.

(** A stricter mock: the input remappers and [extractFilters] know the
    columns [id] and [name] and throw on any other key, and on an input of
    the wrong shape. *)
Definition known_columns (v : value) : thrown + record :=
  match v with
  | VObject props =>
      match List.find (fun kv => negb (bool_decide (kv.1 ∈ ["id"; "name"]))) props with
      | Some kv => inl (GraphQLError ("Unknown column: " +:+ kv.1))
      | None => inr props
      end
  | _ => inl (TypeError "input is not an object")
  end.

Definition strict_common : Common :=
  {| databaseOfContext := fun db _ => inr db;
     extractFilters := fun _ _ where_ =>
       match known_columns where_ with
       | inl e => inl e
       | inr props => inr (VObject props)
       end;
     extractOrderBy := fun _ orderBy => inr orderBy;
     extractRelationsParams := fun _ _ _ _ _ => inr VUndefined;
     extractSelectedColumnsFromTree := fun _ _ => inr selected;
     extractSelectedColumnsFromTreeSQLFormat := fun _ _ => inr selected;
     generateTableTypes := fun tableName _ _ _ _ => inr (tableTypes tableName);
     capitalize := upper_first;
     uncapitalize := lower_first;
     remapFromGraphQLArrayInput := fun v _ =>
       match v with
       | VArray items => map_throwing known_columns items
       | _ => inl (TypeError "values is not iterable")
       end;
     remapFromGraphQLSingleInput := fun v _ => known_columns v;
     remapToGraphQLArrayOutput := fun v _ _ _ => inr v;
     remapToGraphQLSingleOutput := fun v _ _ _ => inr v;
     parseResolveInfo := fun _ => inr (VObject [("fieldsByTypeName", VObject [])]) |}.

Definition strict_vanilla : Pg.Vanilla :=
  {| Pg.extractFilters := fun _ _ where_ =>
       match known_columns where_ with
       | inl e => inl e
       | inr props => inr (VObject props)
       end;
     Pg.extractOrderBy := fun _ orderBy => inr orderBy;
     Pg.extractSelectedColumnsFromNode := fun _ _ => inr selected;
     Pg.extractSelectedColumnsSQLFormat := fun _ _ _ => inr selected;
     Pg.generateTableTypes := fun tableName _ _ _ => inr (tableTypes tableName);
     Pg.camelize := lower_first;
     Pg.pascalize := upper_first;
     Pg.remapFromGraphQLArrayInput := fun v _ =>
       match v with
       | VArray items => map_throwing known_columns items
       | _ => inl (TypeError "values is not iterable")
       end;
     Pg.remapFromGraphQLSingleInput := fun v _ => known_columns v;
     Pg.remapToGraphQLArrayOutput := fun v _ => inr v;
     Pg.remapToGraphQLSingleOutput := fun v _ => inr v |}.

(** The mock, for requests whose context carries the database [d]. *)
Definition in_database (d : Db) : Common :=
  {| databaseOfContext := fun _ _ => inr d;
     extractFilters := fun _ _ where_ => inr where_;
     extractOrderBy := fun _ orderBy => inr orderBy;
     extractRelationsParams := fun _ _ _ _ _ => inr VUndefined;
     extractSelectedColumnsFromTree := fun _ _ => inr selected;
     extractSelectedColumnsFromTreeSQLFormat := fun _ _ => inr selected;
     generateTableTypes := fun tableName _ _ _ _ => inr (tableTypes tableName);
     capitalize := upper_first;
     uncapitalize := lower_first;
     remapFromGraphQLArrayInput := fun v _ => inr (rows_of_value v);
     remapFromGraphQLSingleInput := fun v _ => inr (record_of_value v);
     remapToGraphQLArrayOutput := fun v _ _ _ => inr v;
     remapToGraphQLSingleOutput := fun v _ _ _ => inr v;
     parseResolveInfo := fun _ => inr (VObject [("fieldsByTypeName", VObject [])]) |}.

Definition tenant_db : Db := {| db_ref := 7; query := {["users"]} |}.

(** A relations declaration of [posts], a table no schema below holds. *)
Definition posts_relations : Relations :=
  {| relations_table := posts; config := [] |}.

(** A table named like a member of [Object.prototype], in a schema of its
    own; the drizzle instance [empty_db] was made without it. *)
Definition table_constructor : Table := {| table_ref := 3; table_class := MySqlTable |}.
Definition pg_constructor : Table := {| table_ref := 3; table_class := PgTable |}.

(** A request that selects [users { id posts { id } }] only. *)
Definition info_many_with_posts : GraphQLResolveInfo :=
  {| selections :=
       [FieldNode "users" (Some [FieldNode "id" None;
                                 FieldNode "posts" (Some [FieldNode "id" None])])] |}.

(** A request that selects [usersSingle { id posts { id } }] only. *)
Definition info_single_with_posts : GraphQLResolveInfo :=
  {| selections :=
       [FieldNode "usersSingle" (Some [FieldNode "id" None;
                                       FieldNode "posts" (Some [FieldNode "id" None])])] |}.


End Mock.

(** * Properties *)

Lemma rethrow_rethrown {A} (e : thrown) : @rethrow A e = ([], inl (rethrown e)).
Proof.
  destruct e as [c m|props|v|]; try reflexivity.
  unfold rethrow, rethrown; cbn.
  destruct (assoc "message" props) as [[]|]; reflexivity.
Qed.

Lemma destructure_other (v : value) (k k' : string) (x : value) :
  destructure v k = inr x -> exists y, destructure v k' = inr y.
Proof. destruct v; cbn; intros; try discriminate; eauto. Qed.

Lemma query_base_builder (db : Db) (tableName : string) :
  tableName ∈ query db -> query_base db tableName = Some RelationalQueryBuilder.
Proof. intros Hin. unfold query_base. by destruct (decide _). Qed.

(** Case analysis on the next helper call of a resolver. *)
Ltac next_call :=
  match goal with
  | |- context [match ?r with inl _ => _ | inr _ => _ end] =>
      lazymatch r with
      | context [match _ with _ => _ end] => fail
      | _ => destruct r eqn:?
      end
  | |- context [match ?m !! ?k with Some _ => _ | None => _ end] =>
      destruct (m !! k) eqn:?
  | |- context [if truthy ?v then _ else _] => destruct (truthy v) eqn:?
  | |- context [match query_base ?d ?t with Some _ => _ | None => _ end] =>
      destruct (query_base d t) as [[|]|] eqn:?
  | |- context [if truthy_at ?m ?k then _ else _] => destruct (truthy_at m k) eqn:?
  | |- context [if decide ?P then _ else _] => destruct (decide P)
  | |- context [if (length ?l =? 0)%nat then _ else _] =>
      destruct (length l =? 0)%nat eqn:?
  end; cbn.

Section Validation.
Context `{Common} `{Pg.Vanilla}.
Variables (exec : Executor) (db : Db) (tableName : string) (table : Table).
Variables (source args context : value) (info : GraphQLResolveInfo).

(** C2. Insert-many with an empty [values] list: each of the three
    builders throws [GraphQLError('No values were provided!')], and the
    resolver has awaited nothing (its trace is empty). *)
Theorem insert_many_rejects_empty_list (baseType : GraphQLType) :
  member args "values" = inr (VArray []) ->
  remapFromGraphQLArrayInput (VArray []) (Some table) = inr [] ->
  Pg.remapFromGraphQLArrayInput (VArray []) table = inr [] ->
  resolver (MySql.generateInsertArray db tableName table baseType)
    exec source args context info
  = ([], inl (GraphQLError "No values were provided!"))
  /\ resolver (SQLite.generateInsertArray db tableName table baseType)
       exec source args context info
     = ([], inl (GraphQLError "No values were provided!"))
  /\ resolver (Pg.generateInsertArray db tableName table baseType)
       exec source args context info
     = ([], inl (GraphQLError "No values were provided!")).
Proof.
  intros Hvalues Hcommon Hvanilla.
  repeat split; cbn; rewrite Hvalues; cbn;
    rewrite ?Hcommon, ?Hvanilla; reflexivity.
Qed.

(** C1. Update with an empty [set]: when the selection of the request is
    read without error, each of the three builders throws
    [GraphQLError('Unable to update with no values specified!')], and the
    resolver has awaited nothing. *)
Theorem update_rejects_empty_set (setArgs filterArgs : GraphQLType)
    (parsedInfo tree columns pgColumns : value) :
  destructure args "set" = inr (VObject []) ->
  remapFromGraphQLSingleInput (VObject []) (Some table) = inr [] ->
  Pg.remapFromGraphQLSingleInput (VObject []) table = inr [] ->
  parseResolveInfo info = inr parsedInfo ->
  fieldsByTypeName parsedInfo (capitalize tableName +:+ "Item") = inr tree ->
  extractSelectedColumnsFromTreeSQLFormat tree (Some table) = inr columns ->
  Pg.extractSelectedColumnsSQLFormat info ("update" +:+ Pg.pascalize tableName) table
    = inr pgColumns ->
  resolver (MySql.generateUpdate db tableName table setArgs filterArgs)
    exec source args context info
  = ([], inl (GraphQLError "Unable to update with no values specified!"))
  /\ resolver (SQLite.generateUpdate db tableName table setArgs filterArgs)
       exec source args context info
     = ([], inl (GraphQLError "Unable to update with no values specified!"))
  /\ resolver (Pg.generateUpdate db tableName table setArgs filterArgs)
       exec source args context info
     = ([], inl (GraphQLError "Unable to update with no values specified!")).
Proof.
  intros Hset Hcommon Hvanilla Hparse Htree Hcolumns Hpg.
  destruct (destructure_other _ _ "where" _ Hset) as [where_ Hwhere].
  repeat split; cbn; rewrite Hwhere; cbn; rewrite Hset; cbn;
    rewrite ?Hparse; cbn; rewrite ?Htree; cbn; rewrite ?Hcolumns, ?Hpg; cbn;
    rewrite ?Hcommon, ?Hvanilla; reflexivity.
Qed.

(** Whatever the selection helpers do, an update with an empty [set]
    fails and nothing is awaited. *)
Lemma update_empty_set_never_dispatches (setArgs filterArgs : GraphQLType) :
  destructure args "set" = inr (VObject []) ->
  remapFromGraphQLSingleInput (VObject []) (Some table) = inr [] ->
  Pg.remapFromGraphQLSingleInput (VObject []) table = inr [] ->
  forall r,
    r ∈ [resolver (MySql.generateUpdate db tableName table setArgs filterArgs)
           exec source args context info;
         resolver (SQLite.generateUpdate db tableName table setArgs filterArgs)
           exec source args context info;
         resolver (Pg.generateUpdate db tableName table setArgs filterArgs)
           exec source args context info] ->
    failed (result r) /\ trace r = [].
Proof.
  intros Hset Hcommon Hvanilla r Hr.
  destruct (destructure_other _ _ "where" _ Hset) as [where_ Hwhere].
  repeat (apply elem_of_cons in Hr as [->|Hr]); [| | |by apply elem_of_nil in Hr].
  - cbn. rewrite Hwhere; cbn. rewrite Hset; cbn. rewrite Hcommon. cbn. done.
  - cbn. rewrite Hwhere; cbn. rewrite Hset; cbn.
    repeat (rewrite ?Hcommon, ?rethrow_rethrown; cbn; first [done | next_call]).
  - cbn. rewrite Hwhere; cbn. rewrite Hset; cbn.
    repeat (rewrite ?Hvanilla; cbn; first [done | next_call]).
Qed.
End Validation.

Lemma insert_many_rejects_empty_list_witness :
  let args := VObject [("values", VArray [])] in
  member args "values" = inr (VArray [])
  /\ @remapFromGraphQLArrayInput Mock.common (VArray []) (Some Mock.users) = inr []
  /\ @Pg.remapFromGraphQLArrayInput Mock.vanilla (VArray []) Mock.users = inr []
  /\ resolver (@MySql.generateInsertArray Mock.common Mock.db "users" Mock.users GraphQLInt)
       (Mock.store []) VUndefined args VUndefined Mock.info
     = ([], inl (GraphQLError "No values were provided!"))
  /\ resolver (@SQLite.generateInsertArray Mock.common Mock.db "users" Mock.users GraphQLInt)
       (Mock.store []) VUndefined args VUndefined Mock.info
     = ([], inl (GraphQLError "No values were provided!"))
  /\ resolver (@Pg.generateInsertArray Mock.vanilla Mock.db "users" Mock.users GraphQLInt)
       (Mock.store []) VUndefined args VUndefined Mock.info
     = ([], inl (GraphQLError "No values were provided!")).
Proof.
  repeat (split; [reflexivity|]).
  apply (@insert_many_rejects_empty_list Mock.common Mock.vanilla (Mock.store [])
           Mock.db "users" Mock.users VUndefined (VObject [("values", VArray [])])
           VUndefined Mock.info GraphQLInt); reflexivity.
Defined.

Lemma update_rejects_empty_set_witness :
  let args := VObject [("set", VObject [])] in
  destructure args "set" = inr (VObject [])
  /\ @remapFromGraphQLSingleInput Mock.common (VObject []) (Some Mock.users) = inr []
  /\ @Pg.remapFromGraphQLSingleInput Mock.vanilla (VObject []) Mock.users = inr []
  /\ @parseResolveInfo Mock.common Mock.info = inr (VObject [("fieldsByTypeName", VObject [])])
  /\ fieldsByTypeName (VObject [("fieldsByTypeName", VObject [])]) "UsersItem" = inr VUndefined
  /\ @extractSelectedColumnsFromTreeSQLFormat Mock.common VUndefined (Some Mock.users)
     = inr Mock.selected
  /\ @Pg.extractSelectedColumnsSQLFormat Mock.vanilla Mock.info "updateUsers" Mock.users
     = inr Mock.selected
  /\ resolver (@MySql.generateUpdate Mock.common Mock.db "users" Mock.users
                 GraphQLInt GraphQLInt)
       (Mock.store []) VUndefined args VUndefined Mock.info
     = ([], inl (GraphQLError "Unable to update with no values specified!"))
  /\ resolver (@SQLite.generateUpdate Mock.common Mock.db "users" Mock.users
                 GraphQLInt GraphQLInt)
       (Mock.store []) VUndefined args VUndefined Mock.info
     = ([], inl (GraphQLError "Unable to update with no values specified!"))
  /\ resolver (@Pg.generateUpdate Mock.vanilla Mock.db "users" Mock.users
                 GraphQLInt GraphQLInt)
       (Mock.store []) VUndefined args VUndefined Mock.info
     = ([], inl (GraphQLError "Unable to update with no values specified!")).
Proof.
  repeat (split; [reflexivity|]).
  apply (@update_rejects_empty_set Mock.common Mock.vanilla (Mock.store [])
           Mock.db "users" Mock.users VUndefined (VObject [("set", VObject [])])
           VUndefined Mock.info GraphQLInt GraphQLInt
           (VObject [("fieldsByTypeName", VObject [])]) VUndefined
           Mock.selected Mock.selected); reflexivity.
Defined.

(** ** What a resolver awaits *)

Ltac explore :=
  cbn; repeat (rewrite ?rethrow_rethrown; cbn; next_call);
  rewrite ?rethrow_rethrown; cbn.

(** Closes a goal [Awaited q ∈ trace r -> ...] once [r] is evaluated. *)
Ltac leaf :=
  let Hin := fresh "Hin" in
  intros Hin; cbn in Hin;
  repeat (apply elem_of_cons in Hin as [Hin|Hin]);
  try (by apply elem_of_nil in Hin);
  simplify_eq; first [congruence | solve [eauto 10]].

Section Execution.
Context `{Common} `{Pg.Vanilla}.
Variables (exec : Executor) (db : Db) (tableName : string) (table : Table).
Variables (tables : gmap string Table) (named : RelationMap).
Variables (relations : option (list (string * Relation))).
Variables (tableTypes : TableTypes).
Variables (source args context : value) (info : GraphQLResolveInfo).

(** The relation loop of the Postgres select resolvers awaits nothing. *)
Lemma withFieldsLoop_silent (sel : option SelectionNode)
    (entries : list (string * Relation)) (withFields : record) :
  trace (Pg.withFieldsLoop args sel entries withFields) = [].
Proof.
  revert withFields.
  induction entries as [|[relName relValue] rest IH]; intros withFields; [done|].
  cbn. destruct sel as [[n [sels|]| |]|]; cbn; try apply IH; try done.
  destruct (find_field relName sels); [|apply IH].
  explore; try done.
  all: unfold trace in IH;
    match goal with
    | |- context [Pg.withFieldsLoop ?a ?b ?c ?d] =>
        specialize (IH d); destruct (Pg.withFieldsLoop a b c d)
    end; cbn in *; by subst.
Qed.

(** Evaluates the relation loop in a goal about a Postgres select. *)
Ltac loop_done :=
  match goal with
  | |- context [Pg.withFieldsLoop ?a ?sel ?entries ?w] =>
      let Hs := fresh "Hs" in
      pose proof (withFieldsLoop_silent sel entries w) as Hs;
      destruct (Pg.withFieldsLoop a sel entries w) as [? [?|?]];
      cbn in Hs; subst; cbn
  end.

Ltac pg_select Hop :=
  try unfold Pg.generateSelectArray in Hop; try unfold Pg.generateSelectSingle in Hop;
  destruct (query_base _ _) as [[|]|] in Hop; [| |done];
  injection Hop as <-;
  cbn; repeat (next_call; try leaf);
  destruct relations as [entries|]; cbn; try loop_done; try leaf;
  repeat (next_call; try leaf).

Lemma pg_operations_inv (ops : list CreatedResolver) (op : CreatedResolver) :
  pg_operations db tableName table relations tableTypes = inr ops ->
  op ∈ ops ->
  Pg.generateSelectArray db tableName table relations
    (tableOrder tableTypes) (tableFilters tableTypes)
    (relationOrder tableTypes) (relationFilters tableTypes) = inr op
  \/ Pg.generateSelectSingle db tableName table relations
       (tableOrder tableTypes) (tableFilters tableTypes)
       (relationOrder tableTypes) (relationFilters tableTypes) = inr op
  \/ op ∈ [Pg.generateInsertArray db tableName table (insertInput tableTypes);
           Pg.generateInsertSingle db tableName table (insertInput tableTypes);
           Pg.generateUpdate db tableName table
             (updateInput tableTypes) (tableFilters tableTypes);
           Pg.generateDelete db tableName table (tableFilters tableTypes)].
Proof.
  unfold pg_operations.
  destruct (Pg.generateSelectArray _ _ _ _ _ _ _ _) as [|a]; [done|].
  destruct (Pg.generateSelectSingle _ _ _ _ _ _ _ _) as [|s]; [done|].
  intros [= <-] Hop.
  apply elem_of_cons in Hop as [->|Hop]; [by left|].
  apply elem_of_cons in Hop as [->|Hop]; [by right; left|].
  by right; right.
Qed.

(** C7, as the code has it.  When the executor rejects the statement [q]
    that an operation awaited, with [e]:
    - an operation of the MySQL or SQLite builder throws what its [catch]
      block makes of [e]: a [GraphQLError] with the message of [e] when [e]
      is an object with a string message; the [TypeError] of reading
      [message] of [null] when [e] is [null]; and [e] itself otherwise (a
      primitive, an object without a string message);
    - an operation of the Postgres builder throws [e] itself, unwrapped;
    - in both cases [q] is all that was awaited: nothing is issued again. *)
Theorem rejection_propagates_once (q : statement) (e : thrown)
    (ops : list CreatedResolver) :
  exec q = inl e ->
  pg_operations db tableName table relations tableTypes = inr ops ->
  (forall op, op ∈ mysql_operations db tableName tables named table tableTypes
                   ++ sqlite_operations db tableName tables named table tableTypes ->
     Awaited q ∈ trace (resolver op exec source args context info) ->
     resolver op exec source args context info = ([Awaited q], inl (rethrown e)))
  /\ (forall op, op ∈ ops ->
        Awaited q ∈ trace (resolver op exec source args context info) ->
        resolver op exec source args context info = ([Awaited q], inl e))
  /\ @rethrow value e = ([], inl (rethrown e))
  /\ rethrown e
     = match e with
       | ErrorObject _ m => GraphQLError m
       | ThrownObject props =>
           match assoc "message" props with
           | Some (VString m) => GraphQLError m
           | _ => e
           end
       | ThrownPrimitive _ => e
       | ThrownNull => TypeError "Cannot read properties of null (reading 'message')"
       end.
Proof.
  intros Hexec Hops. split; [|split; [|split]].
  - intros op Hop.
    unfold mysql_operations, sqlite_operations in Hop. cbn [app] in Hop.
    repeat (apply elem_of_cons in Hop as [->|Hop]);
      try (by apply elem_of_nil in Hop);
      explore; leaf.
  - intros op Hop.
    destruct (pg_operations_inv ops op Hops Hop) as [Ha|[Hs|Hm]].
    + pg_select Ha.
    + pg_select Hs.
    + repeat (apply elem_of_cons in Hm as [->|Hm]);
        try (by apply elem_of_nil in Hm);
        explore; leaf.
  - apply rethrow_rethrown.
  - by destruct e.
Qed.

(** No operation awaits more than one statement. *)
Lemma awaits_at_most_once (ops : list CreatedResolver) :
  pg_operations db tableName table relations tableTypes = inr ops ->
  forall op, op ∈ mysql_operations db tableName tables named table tableTypes
                  ++ sqlite_operations db tableName tables named table tableTypes
                  ++ ops ->
    length (awaited (trace (resolver op exec source args context info))) <= 1.
Proof.
  intros Hops op Hop.
  rewrite !elem_of_app in Hop. destruct Hop as [Hop|[Hop|Hop]].
  - unfold mysql_operations in Hop.
    repeat (apply elem_of_cons in Hop as [->|Hop]);
      try (by apply elem_of_nil in Hop);
      explore; lia.
  - unfold sqlite_operations in Hop.
    repeat (apply elem_of_cons in Hop as [->|Hop]);
      try (by apply elem_of_nil in Hop);
      explore; lia.
  - destruct (pg_operations_inv ops op Hops Hop) as [Ha|[Hs|Hm]].
    + unfold Pg.generateSelectArray in Ha.
      destruct (query_base _ _) as [[|]|] in Ha; [| |done];
        injection Ha as <-; cbn; repeat (next_call; try lia);
        destruct relations as [entries|]; cbn; try loop_done; try lia;
        repeat (next_call; try lia).
    + unfold Pg.generateSelectSingle in Hs.
      destruct (query_base _ _) as [[|]|] in Hs; [| |done];
        injection Hs as <-; cbn; repeat (next_call; try lia);
        destruct relations as [entries|]; cbn; try loop_done; try lia;
        repeat (next_call; try lia).
    + repeat (apply elem_of_cons in Hm as [->|Hm]);
        try (by apply elem_of_nil in Hm);
        explore; lia.
Qed.

(** C9. Select-one on a request whose helper calls succeed, for a table
    that the drizzle instance has: the resolver awaits [findFirst] on the
    table, and nothing else; and when the executor answers that statement
    with no row ([undefined], or any falsy value), the resolver returns
    [undefined]: nothing is thrown, no remapper is called, the awaited
    statement is the whole trace. *)
Theorem select_single_absent (orderArgs filterArgs : GraphQLType)
    (relationsOrderArgs relationsFilterArgs : gmap string GraphQLType)
    (offset orderBy where_ parsedInfo tree columns order filters with_ : value)
    (dynamicDb : Db) (pgSingle : CreatedResolver)
    (pgColumns pgOrder pgFilters : value) (withFields : record) :
  destructure args "offset" = inr offset ->
  destructure args "orderBy" = inr orderBy ->
  destructure args "where" = inr where_ ->
  parseResolveInfo info = inr parsedInfo ->
  databaseOfContext db context = inr dynamicDb ->
  tableName ∈ query dynamicDb ->
  fieldsByTypeName parsedInfo (capitalize tableName +:+ "SelectItem") = inr tree ->
  extractSelectedColumnsFromTree tree (tables !! tableName) = inr columns ->
  (if truthy orderBy then extractOrderBy (tables !! tableName) orderBy
   else inr VUndefined) = inr order ->
  (if truthy where_ then extractFilters (tables !! tableName) tableName where_
   else inr VUndefined) = inr filters ->
  (if truthy_at named tableName
   then extractRelationsParams named tables tableName parsedInfo
          (capitalize tableName +:+ "SelectItem")
   else inr VUndefined) = inr with_ ->
  tableName ∈ query db ->
  Pg.generateSelectSingle db tableName table relations orderArgs filterArgs
    relationsOrderArgs relationsFilterArgs = inr pgSingle ->
  Pg.extractSelectedColumnsFromNode
    (find_field (Pg.camelize tableName +:+ "Single") (selections info)) table
  = inr pgColumns ->
  result (match relations with
          | Some entries =>
              Pg.withFieldsLoop args
                (find_field (Pg.camelize tableName +:+ "Single") (selections info))
                entries []
          | None => mret []
          end) = inr withFields ->
  (if truthy orderBy then Pg.extractOrderBy table orderBy else inr VUndefined)
  = inr pgOrder ->
  (if truthy where_ then Pg.extractFilters table tableName where_ else inr VUndefined)
  = inr pgFilters ->
  forall op q,
    (op, q) ∈ [(MySql.generateSelectSingle db tableName tables named orderArgs filterArgs,
                FindFirst dynamicDb tableName
                  [("columns", columns); ("offset", offset); ("orderBy", order);
                   ("where", filters); ("with", with_)]);
               (SQLite.generateSelectSingle db tableName tables named orderArgs filterArgs,
                FindFirst dynamicDb tableName
                  [("columns", columns); ("offset", offset); ("orderBy", order);
                   ("where", filters); ("with", with_)]);
               (pgSingle,
                FindFirst db tableName
                  [("columns", pgColumns); ("offset", offset); ("orderBy", pgOrder);
                   ("where", pgFilters); ("with", Pg.with_or_undefined withFields)])] ->
    awaited (trace (resolver op exec source args context info)) = [q]
    /\ forall v, exec q = inr v -> truthy v = false ->
         resolver op exec source args context info = ([Awaited q], inr VUndefined).
Proof.
  intros Hoffset HorderBy Hwhere Hparse Hdb Hquery Htree Hcolumns Horder Hfilters Hwith
    HpgQuery Hpg HpgColumns Hloop HpgOrder HpgFilters op q Hop.
  apply query_base_builder in Hquery, HpgQuery.
  destruct (destructure_other _ _ "limit" _ Hoffset) as [limit Hlimit].
  unfold Pg.generateSelectSingle in Hpg. rewrite HpgQuery in Hpg. injection Hpg as <-.
  assert (Hend : forall (r : M value),
             (forall e, exec q = inl e -> exists e', r = ([Awaited q], inl e')) ->
             (forall v, exec q = inr v -> truthy v = false ->
                        r = ([Awaited q], inr VUndefined)) ->
             (forall v, exec q = inr v -> truthy v = true ->
                        exists x, r = ([Awaited q; Remapped v], x)) ->
             awaited (trace r) = [q]
             /\ forall v, exec q = inr v -> truthy v = false ->
                  r = ([Awaited q], inr VUndefined)).
  { intros r Hrejected Habsent Hfound. split; [|exact Habsent].
    destruct (exec q) as [e|v] eqn:Hexec.
    - destruct (Hrejected e eq_refl) as [e' ->]. reflexivity.
    - destruct (truthy v) eqn:Hv.
      + destruct (Hfound v eq_refl Hv) as [x ->]. reflexivity.
      + by rewrite (Habsent v eq_refl Hv). }
  repeat (apply elem_of_cons in Hop as [[= -> ->]|Hop]); try (by apply elem_of_nil in Hop).
  1,2: apply Hend; intros ? Hexec; try intros Hv; cbn;
    rewrite Hoffset; cbn; rewrite HorderBy; cbn; rewrite Hwhere; cbn;
    rewrite Hparse; cbn; rewrite Hdb; cbn; rewrite Hquery; cbn;
    rewrite Htree; cbn; rewrite Hcolumns; cbn;
    destruct (truthy orderBy); cbn; rewrite ?Horder; cbn;
    destruct (truthy where_); cbn; rewrite ?Hfilters; cbn;
    destruct (truthy_at named tableName); cbn; rewrite ?Hwith; cbn;
    simplify_eq; rewrite Hexec; cbn; rewrite ?Hv, ?rethrow_rethrown; cbn;
    first [reflexivity | by eexists
          | destruct (remapToGraphQLSingleOutput _ _ _ _); cbn;
            rewrite ?rethrow_rethrown; by eexists].
  apply Hend; intros ? Hexec; try intros Hv; cbn;
    rewrite Hoffset; cbn; rewrite Hlimit; cbn; rewrite HorderBy; cbn; rewrite Hwhere; cbn;
    rewrite HpgColumns; cbn;
    (destruct relations as [entries|]; cbn in Hloop |- *;
     [pose proof (withFieldsLoop_silent
                    (find_field (Pg.camelize tableName +:+ "Single") (selections info))
                    entries []) as Hsilent;
      destruct (Pg.withFieldsLoop _ _ _ _) as [loopLog [?|w]];
      cbn in Hloop, Hsilent; subst loopLog; [discriminate|]; cbn
     |]);
    destruct (truthy orderBy); cbn; rewrite ?HpgOrder; cbn;
    destruct (truthy where_); cbn; rewrite ?HpgFilters; cbn;
    simplify_eq; cbn in Hexec; rewrite Hexec; cbn; rewrite ?Hv; cbn;
    first [reflexivity | by eexists].
Qed.

(** C10. Delete without [where] (the argument is absent, [null], or any
    falsy value): the one statement awaited is a delete of the table with
    no predicate attached.  Nothing stands between the call and the
    dispatch but the reading of the selection and of the database. *)
Theorem delete_without_where (filterArgs : GraphQLType) (where_ : value)
    (dynamicDb : Db) (parsedInfo tree columns pgColumns : value) :
  destructure args "where" = inr where_ ->
  truthy where_ = false ->
  databaseOfContext db context = inr dynamicDb ->
  parseResolveInfo info = inr parsedInfo ->
  fieldsByTypeName parsedInfo (capitalize tableName +:+ "Item") = inr tree ->
  extractSelectedColumnsFromTreeSQLFormat tree (Some table) = inr columns ->
  Pg.extractSelectedColumnsSQLFormat info ("deleteFrom" +:+ Pg.pascalize tableName) table
    = inr pgColumns ->
  awaited (trace (resolver (MySql.generateDelete db tableName table filterArgs)
                    exec source args context info))
  = [Delete dynamicDb table None None]
  /\ awaited (trace (resolver (SQLite.generateDelete db tableName table filterArgs)
                       exec source args context info))
     = [Delete dynamicDb table None (Some columns)]
  /\ awaited (trace (resolver (Pg.generateDelete db tableName table filterArgs)
                       exec source args context info))
     = [Delete db table None (Some pgColumns)].
Proof.
  intros Hwhere Hfalsy Hdb Hparse Htree Hcolumns Hpg.
  repeat split; cbn; rewrite Hwhere; cbn;
    rewrite ?Hparse; cbn; rewrite ?Htree; cbn; rewrite ?Hcolumns, ?Hpg; cbn;
    rewrite ?Hdb; cbn; rewrite Hfalsy; cbn.
  - destruct (exec _); cbn; rewrite ?rethrow_rethrown; reflexivity.
  - destruct (exec _) as [|rows]; cbn; rewrite ?rethrow_rethrown; [reflexivity|].
    destruct (remapToGraphQLArrayOutput _ _ _ _); cbn;
      rewrite ?rethrow_rethrown; reflexivity.
  - destruct (exec _) as [|rows]; reflexivity.
Qed.

(** With a [where] that is an object, the same resolvers attach the
    compiled filter: the predicate is the only difference. *)
Lemma delete_with_where (filterArgs : GraphQLType) (where_ filters : value)
    (dynamicDb : Db) :
  destructure args "where" = inr where_ ->
  truthy where_ = true ->
  databaseOfContext db context = inr dynamicDb ->
  extractFilters (Some table) tableName where_ = inr filters ->
  awaited (trace (resolver (MySql.generateDelete db tableName table filterArgs)
                    exec source args context info))
  = [Delete dynamicDb table (Some filters) None].
Proof.
  intros Hwhere Htruthy Hdb Hfilters.
  cbn; rewrite Hwhere; cbn; rewrite Hdb; cbn; rewrite Htruthy; cbn.
  rewrite Hfilters; cbn.
  destruct (exec _); cbn; rewrite ?rethrow_rethrown; reflexivity.
Qed.

End Execution.

(** ** Conflicting inserts *)

Lemma conflicting_app (stored more : list record) (r : record) :
  Mock.conflicting (stored ++ more) r = false -> Mock.conflicting stored r = false.
Proof.
  unfold Mock.conflicting. destruct (Mock.id_of r) as [n|]; [|done].
  rewrite !bool_decide_eq_false, fmap_app, elem_of_app. tauto.
Qed.

Lemma inserted_rows (stored rows : list record) (r : record) :
  r ∈ Mock.inserted stored rows -> r ∈ rows /\ Mock.conflicting stored r = false.
Proof.
  revert stored. induction rows as [|r' rest IH]; intros stored; cbn.
  - by intros Hin%elem_of_nil.
  - destruct (Mock.conflicting stored r') eqn:Hc.
    + intros Hin. destruct (IH _ Hin). split; [by right|done].
    + intros [->|Hin]%elem_of_cons; [split; [by left|done]|].
      destruct (IH _ Hin) as [? Hc']. split; [by right|]. by eapply conflicting_app.
Qed.

Section ConflictSkipping.
Context `{Common} `{Pg.Vanilla}.
Variables (db : Db) (tableName : string) (table : Table) (baseType : GraphQLType).
Variables (source context : value) (info : GraphQLResolveInfo).

(** C6. The inserts of the Postgres and SQLite builders, on requests
    whose helper calls succeed.
    - Each resolver awaits one statement, the insert of the remapped rows
      with [.returning(columns).onConflictDoNothing()].  Insert-many hands
      the executor's answer to the output remapper and returns what it
      gives, however many rows the answer holds; insert-one returns
      [undefined] when the answer holds no first row.
    - Against a table with a unique key ([Mock.store]), where an unflagged
      insert of a conflicting row is rejected, the rows that conflict are
      left out and nothing is thrown: insert-many returns the remaining
      rows, insert-one of a conflicting row returns [undefined]. *)
Theorem insert_conflict_is_skipped
    (manyArgs oneArgs values value1 : value) (input : list record) (row : record)
    (parsedInfo tree columns pgManyColumns pgOneColumns : value) (dynamicDb : Db) :
  member manyArgs "values" = inr values ->
  remapFromGraphQLArrayInput values (Some table) = inr input ->
  Pg.remapFromGraphQLArrayInput values table = inr input ->
  input <> [] ->
  member oneArgs "values" = inr value1 ->
  remapFromGraphQLSingleInput value1 (Some table) = inr row ->
  Pg.remapFromGraphQLSingleInput value1 table = inr row ->
  parseResolveInfo info = inr parsedInfo ->
  fieldsByTypeName parsedInfo (capitalize tableName +:+ "Item") = inr tree ->
  extractSelectedColumnsFromTreeSQLFormat tree (Some table) = inr columns ->
  databaseOfContext db context = inr dynamicDb ->
  Pg.extractSelectedColumnsSQLFormat info ("insertInto" +:+ Pg.pascalize tableName) table
  = inr pgManyColumns ->
  Pg.extractSelectedColumnsSQLFormat info
    ("insertInto" +:+ Pg.pascalize tableName +:+ "Single") table
  = inr pgOneColumns ->
  let pgMany := Insert db table (ManyRows input) (Some pgManyColumns) true in
  let pgOne := Insert db table (OneRow row) (Some pgOneColumns) true in
  let sqliteMany := Insert db table (ManyRows input) (Some columns) true in
  let sqliteOne := Insert dynamicDb table (OneRow row) (Some columns) true in
  (forall exec,
      resolver (Pg.generateInsertArray db tableName table baseType)
        exec source manyArgs context info
      = match exec pgMany with
        | inl e => ([Awaited pgMany], inl e)
        | inr answer =>
            ([Awaited pgMany; Remapped answer], Pg.remapToGraphQLArrayOutput answer None)
        end
      /\ resolver (SQLite.generateInsertArray db tableName table baseType)
           exec source manyArgs context info
         = match exec sqliteMany with
           | inl e => ([Awaited sqliteMany], inl (rethrown e))
           | inr answer =>
               ([Awaited sqliteMany; Remapped answer],
                match remapToGraphQLArrayOutput answer tableName (Some table) None with
                | inl e => inl (rethrown e)
                | inr out => inr out
                end)
           end
      /\ awaited (trace (resolver (Pg.generateInsertSingle db tableName table baseType)
                           exec source oneArgs context info)) = [pgOne]
      /\ awaited (trace (resolver (SQLite.generateInsertSingle db tableName table baseType)
                           exec source oneArgs context info)) = [sqliteOne]
      /\ (forall answer first,
             exec pgOne = inr answer -> member answer "0" = inr first ->
             truthy first = false ->
             resolver (Pg.generateInsertSingle db tableName table baseType)
               exec source oneArgs context info
             = ([Awaited pgOne], inr VUndefined))
      /\ (forall answer first,
             exec sqliteOne = inr answer -> member answer "0" = inr first ->
             truthy first = false ->
             resolver (SQLite.generateInsertSingle db tableName table baseType)
               exec source oneArgs context info
             = ([Awaited sqliteOne], inr VUndefined)))
  /\ (forall stored,
         let kept := VArray (VObject <$> Mock.inserted stored input) in
         (forall r, r ∈ Mock.inserted stored input ->
                    r ∈ input /\ Mock.conflicting stored r = false)
         /\ resolver (Pg.generateInsertArray db tableName table baseType)
              (Mock.store stored) source manyArgs context info
            = ([Awaited pgMany; Remapped kept], Pg.remapToGraphQLArrayOutput kept None)
         /\ resolver (SQLite.generateInsertArray db tableName table baseType)
              (Mock.store stored) source manyArgs context info
            = ([Awaited sqliteMany; Remapped kept],
               match remapToGraphQLArrayOutput kept tableName (Some table) None with
               | inl e => inl (rethrown e)
               | inr out => inr out
               end)
         /\ (Mock.conflicting stored row = true ->
             resolver (Pg.generateInsertSingle db tableName table baseType)
               (Mock.store stored) source oneArgs context info
             = ([Awaited pgOne], inr VUndefined)
             /\ resolver (SQLite.generateInsertSingle db tableName table baseType)
                  (Mock.store stored) source oneArgs context info
                = ([Awaited sqliteOne], inr VUndefined))).
Proof.
  intros Hmany Hinput HpgInput Hrows Hone Hrow HpgRow Hparse Htree Hcolumns Hdb
    HpgMany HpgOne pgMany pgOne sqliteMany sqliteOne.
  assert (Hlen : (length input =? 0)%nat = false) by (by destruct input).
  assert (Hgeneral : forall exec,
      resolver (Pg.generateInsertArray db tableName table baseType)
        exec source manyArgs context info
      = match exec pgMany with
        | inl e => ([Awaited pgMany], inl e)
        | inr answer =>
            ([Awaited pgMany; Remapped answer], Pg.remapToGraphQLArrayOutput answer None)
        end
      /\ resolver (SQLite.generateInsertArray db tableName table baseType)
           exec source manyArgs context info
         = match exec sqliteMany with
           | inl e => ([Awaited sqliteMany], inl (rethrown e))
           | inr answer =>
               ([Awaited sqliteMany; Remapped answer],
                match remapToGraphQLArrayOutput answer tableName (Some table) None with
                | inl e => inl (rethrown e)
                | inr out => inr out
                end)
           end
      /\ resolver (Pg.generateInsertSingle db tableName table baseType)
           exec source oneArgs context info
         = match exec pgOne with
           | inl e => ([Awaited pgOne], inl e)
           | inr answer =>
               match member answer "0" with
               | inl e => ([Awaited pgOne], inl e)
               | inr first =>
                   if truthy first
                   then ([Awaited pgOne; Remapped first],
                         Pg.remapToGraphQLSingleOutput first None)
                   else ([Awaited pgOne], inr VUndefined)
               end
           end
      /\ resolver (SQLite.generateInsertSingle db tableName table baseType)
           exec source oneArgs context info
         = match exec sqliteOne with
           | inl e => ([Awaited sqliteOne], inl (rethrown e))
           | inr answer =>
               match member answer "0" with
               | inl e => ([Awaited sqliteOne], inl (rethrown e))
               | inr first =>
                   if truthy first
                   then ([Awaited sqliteOne; Remapped first],
                         match remapToGraphQLSingleOutput first tableName (Some table) None
                         with
                         | inl e => inl (rethrown e)
                         | inr out => inr out
                         end)
                   else ([Awaited sqliteOne], inr VUndefined)
               end
           end).
  { intros exec. subst pgMany pgOne sqliteMany sqliteOne.
    split; [|split; [|split]]; cbn;
      rewrite ?Hmany, ?Hone; cbn;
      rewrite ?Hinput, ?HpgInput, ?Hrow, ?HpgRow; cbn; rewrite ?Hlen; cbn;
      rewrite ?Hparse; cbn; rewrite ?Htree; cbn;
      rewrite ?Hcolumns, ?HpgMany, ?HpgOne; cbn; rewrite ?Hdb; cbn;
      repeat (rewrite ?rethrow_rethrown; cbn; first [reflexivity | next_call]);
      rewrite ?rethrow_rethrown; reflexivity. }
  split.
  - intros exec. destruct (Hgeneral exec) as (HA & HB & HC & HD).
    split; [exact HA|]. split; [exact HB|].
    split; [|split; [|split]].
    + rewrite HC. destruct (exec pgOne) as [|answer]; [done|].
      destruct (member answer "0") as [|first]; [done|]. by destruct (truthy first).
    + rewrite HD. destruct (exec sqliteOne) as [|answer]; [done|].
      destruct (member answer "0") as [|first]; [done|]. by destruct (truthy first).
    + intros answer first Hexec Hfirst Hfalsy. by rewrite HC, Hexec, Hfirst, Hfalsy.
    + intros answer first Hexec Hfirst Hfalsy. by rewrite HD, Hexec, Hfirst, Hfalsy.
  - intros stored kept.
    destruct (Hgeneral (Mock.store stored)) as (HA & HB & HC & HD).
    split; [intros r; apply inserted_rows|].
    split; [exact HA|]. split; [exact HB|].
    intros Hconflict. rewrite HC, HD. cbn. by rewrite Hconflict.
Qed.
End ConflictSkipping.

Lemma rejection_propagates_once_witness :
  let e := Error "connection lost" in
  let exec := Mock.rejecting e in
  let args := VObject [("values", VArray [VObject [("id", VNumber 1)]])] in
  let q := Insert Mock.db Mock.users (ManyRows [[("id", VNumber 1)]]) None false in
  exec q = inl e
  /\ (exists ops, @pg_operations Mock.vanilla Mock.db "users" Mock.pg_users None
                     (Mock.tableTypes "users") = inr ops)
  /\ resolver (@MySql.generateInsertArray Mock.common Mock.db "users" Mock.users
                 (insertInput (Mock.tableTypes "users")))
       exec VUndefined args VUndefined Mock.info
     = ([Awaited q], inl (GraphQLError "connection lost")).
Proof.
  split; [reflexivity|]. split; [eexists; reflexivity|].
  refine (proj1 (@rejection_propagates_once Mock.common Mock.vanilla
                   (Mock.rejecting (Error "connection lost")) Mock.db "users" Mock.users
                   ∅ ∅ None (Mock.tableTypes "users") VUndefined
                   (VObject [("values", VArray [VObject [("id", VNumber 1)]])])
                   VUndefined Mock.info
                   (Insert Mock.db Mock.users (ManyRows [[("id", VNumber 1)]]) None false)
                   (Error "connection lost") _ eq_refl eq_refl) _ _ _).
  - unfold mysql_operations. cbn [app]. rewrite !elem_of_cons. auto.
  - apply elem_of_cons; by left.
Defined.

(** C7, as stated, fails on the Postgres builder: a rejection with
    [Error('duplicate key')] reaches the caller as that very [Error], not
    wrapped into a [GraphQLError]. *)
Lemma pg_rejection_is_not_wrapped :
  let e := Error "duplicate key" in
  let args := VObject [("values", VArray [VObject [("id", VNumber 1)]])] in
  let r := resolver (@Pg.generateInsertArray Mock.vanilla Mock.db "users" Mock.pg_users
                       GraphQLInt)
             (Mock.rejecting e) VUndefined args VUndefined Mock.info in
  awaited (trace r)
  = [Insert Mock.db Mock.pg_users (ManyRows [[("id", VNumber 1)]]) (Some Mock.selected) true]
  /\ result r = inl (Error "duplicate key")
  /\ result r <> inl (GraphQLError "duplicate key").
Proof. repeat split. discriminate. Qed.

(** A rejection with [null]: the [catch] block of the MySQL builder reads
    [message] of it, and what reaches the caller is that [TypeError]. *)
Example null_rejection_raises_TypeError :
  resolver (@MySql.generateDelete Mock.common Mock.db "users" Mock.users GraphQLInt)
    (Mock.rejecting ThrownNull) VUndefined (VObject []) VUndefined Mock.info
  = ([Awaited (Delete Mock.db Mock.users None None)],
     inl (TypeError "Cannot read properties of null (reading 'message')")).
Proof. reflexivity. Qed.

Lemma select_single_absent_witness :
  let exec := Mock.store [] in
  let cfg := [("columns", Mock.selected); ("offset", VUndefined);
              ("orderBy", VUndefined); ("where", VUndefined); ("with", VUndefined)] in
  let q := FindFirst Mock.db "users" cfg in
  exists pgSingle,
    @Pg.generateSelectSingle Mock.vanilla Mock.db "users" Mock.pg_users None
      GraphQLInt GraphQLInt ∅ ∅ = inr pgSingle
    /\ "users" ∈ query Mock.db
    /\ exec q = inr VUndefined
    /\ resolver (@MySql.generateSelectSingle Mock.common Mock.db "users" ∅ ∅
                   GraphQLInt GraphQLInt)
         exec VUndefined (VObject []) VUndefined Mock.info
       = ([Awaited q], inr VUndefined)
    /\ resolver (@SQLite.generateSelectSingle Mock.common Mock.db "users" ∅ ∅
                   GraphQLInt GraphQLInt)
         exec VUndefined (VObject []) VUndefined Mock.info
       = ([Awaited q], inr VUndefined)
    /\ resolver pgSingle exec VUndefined (VObject []) VUndefined Mock.info
       = ([Awaited q], inr VUndefined).
Proof.
  intros exec cfg q. eexists.
  assert (Hquery : "users" ∈ query Mock.db) by (vm_compute; reflexivity).
  split; [reflexivity|]. split; [exact Hquery|]. split; [reflexivity|].
  pose proof (@select_single_absent Mock.common Mock.vanilla exec Mock.db "users"
                Mock.pg_users ∅ ∅ None VUndefined (VObject []) VUndefined Mock.info
                GraphQLInt GraphQLInt ∅ ∅
                VUndefined VUndefined VUndefined (VObject [("fieldsByTypeName", VObject [])])
                VUndefined Mock.selected VUndefined VUndefined VUndefined
                Mock.db _ Mock.selected VUndefined VUndefined []
                eq_refl eq_refl eq_refl eq_refl eq_refl Hquery eq_refl eq_refl
                eq_refl eq_refl eq_refl Hquery eq_refl eq_refl eq_refl eq_refl eq_refl)
    as Habsent.
  split; [|split].
  - apply (proj2 (Habsent _ q (list_elem_of_here _ _)) VUndefined eq_refl eq_refl).
  - apply (proj2 (Habsent _ q (list_elem_of_further _ _ _ (list_elem_of_here _ _)))
             VUndefined eq_refl eq_refl).
  - apply (proj2 (Habsent _ q
                    (list_elem_of_further _ _ _
                       (list_elem_of_further _ _ _ (list_elem_of_here _ _))))
             VUndefined eq_refl eq_refl).
Defined.

Lemma delete_without_where_witness :
  let exec := Mock.store [[("id", VNumber 1)]] in
  let parsed := VObject [("fieldsByTypeName", VObject [])] in
  destructure (VObject []) "where" = inr VUndefined
  /\ truthy VUndefined = false
  /\ @databaseOfContext Mock.common Mock.db VUndefined = inr Mock.db
  /\ @parseResolveInfo Mock.common Mock.info = inr parsed
  /\ fieldsByTypeName parsed "UsersItem" = inr VUndefined
  /\ @extractSelectedColumnsFromTreeSQLFormat Mock.common VUndefined (Some Mock.users)
     = inr Mock.selected
  /\ @Pg.extractSelectedColumnsSQLFormat Mock.vanilla Mock.info "deleteFromUsers" Mock.users
     = inr Mock.selected
  /\ awaited (trace (resolver (@MySql.generateDelete Mock.common Mock.db "users"
                                 Mock.users GraphQLInt)
                       exec VUndefined (VObject []) VUndefined Mock.info))
     = [Delete Mock.db Mock.users None None].
Proof.
  repeat (split; [reflexivity|]).
  exact (proj1 (@delete_without_where Mock.common Mock.vanilla
                  (Mock.store [[("id", VNumber 1)]]) Mock.db "users" Mock.users
                  VUndefined (VObject []) VUndefined Mock.info GraphQLInt VUndefined
                  Mock.db (VObject [("fieldsByTypeName", VObject [])]) VUndefined
                  Mock.selected Mock.selected
                  eq_refl eq_refl eq_refl eq_refl eq_refl eq_refl eq_refl)).
Defined.

Lemma insert_conflict_is_skipped_witness :
  let stored := [[("id", VNumber 1)]] in
  let manyArgs := VObject [("values", VArray [VObject [("id", VNumber 1)];
                                              VObject [("id", VNumber 2)]])] in
  let oneArgs := VObject [("values", VObject [("id", VNumber 1)])] in
  let input := [[("id", VNumber 1)]; [("id", VNumber 2)]] in
  let many := Insert Mock.db Mock.pg_users (ManyRows input) (Some Mock.selected) true in
  let one := Insert Mock.db Mock.pg_users (OneRow [("id", VNumber 1)])
               (Some Mock.selected) true in
  input <> []
  /\ Mock.conflicting stored [("id", VNumber 1)] = true
  /\ resolver (@Pg.generateInsertArray Mock.vanilla Mock.db "users" Mock.pg_users
                 GraphQLInt)
       (Mock.store stored) VUndefined manyArgs VUndefined Mock.info
     = ([Awaited many; Remapped (VArray [VObject [("id", VNumber 2)]])],
        inr (VArray [VObject [("id", VNumber 2)]]))
  /\ resolver (@Pg.generateInsertSingle Mock.vanilla Mock.db "users" Mock.pg_users
                 GraphQLInt)
       (Mock.store stored) VUndefined oneArgs VUndefined Mock.info
     = ([Awaited one], inr VUndefined)
  /\ resolver (@SQLite.generateInsertSingle Mock.common Mock.db "users" Mock.pg_users
                 GraphQLInt)
       (Mock.store stored) VUndefined oneArgs VUndefined Mock.info
     = ([Awaited one], inr VUndefined).
Proof.
  intros stored manyArgs oneArgs input many one.
  assert (Hrows : input <> []) by discriminate.
  assert (Hconflict : Mock.conflicting stored [("id", VNumber 1)] = true) by reflexivity.
  split; [exact Hrows|]. split; [exact Hconflict|].
  pose proof (proj2 (@insert_conflict_is_skipped Mock.common Mock.vanilla Mock.db "users"
                       Mock.pg_users GraphQLInt VUndefined VUndefined Mock.info
                       manyArgs oneArgs
                       (VArray [VObject [("id", VNumber 1)]; VObject [("id", VNumber 2)]])
                       (VObject [("id", VNumber 1)]) input [("id", VNumber 1)]
                       (VObject [("fieldsByTypeName", VObject [])]) VUndefined
                       Mock.selected Mock.selected Mock.selected Mock.db
                       eq_refl eq_refl eq_refl Hrows eq_refl eq_refl eq_refl eq_refl
                       eq_refl eq_refl eq_refl eq_refl eq_refl) stored)
    as (_ & Hmany & _ & Hone).
  split; [exact Hmany|]. exact (Hone Hconflict).
Defined.

(** On the same table, the insert of the MySQL builder, which carries no
    [onConflictDoNothing], is rejected when a row conflicts. *)
Example unflagged_insert_of_conflicting_row_is_rejected :
  resolver (@MySql.generateInsertSingle Mock.common Mock.db "users" Mock.users GraphQLInt)
    (Mock.store [[("id", VNumber 1)]]) VUndefined
    (VObject [("values", VObject [("id", VNumber 1)])])
    VUndefined Mock.info
  = ([Awaited (Insert Mock.db Mock.users (OneRow [("id", VNumber 1)]) None false)],
     inl (GraphQLError "duplicate key value violates unique constraint")).
Proof. reflexivity. Qed.

(** Two rows with the same [id] in one insert-many: the second conflicts
    with the first. *)
Example insert_many_skips_duplicates_within_the_list :
  result (resolver (@Pg.generateInsertArray Mock.vanilla Mock.db "users" Mock.pg_users
                      GraphQLInt)
            (Mock.store []) VUndefined
            (VObject [("values", VArray [VObject [("id", VNumber 2)];
                                         VObject [("id", VNumber 2)]])])
            VUndefined Mock.info)
  = inr (VArray [VObject [("id", VNumber 2)]]).
Proof. reflexivity. Qed.

(** ** Argument maps *)

Section Arguments.
Context `{Common} `{Pg.Vanilla}.
Variables (db : Db) (tableName : string) (table : Table).
Variables (tables : gmap string Table) (named : RelationMap).
Variables (orderArgs filterArgs : GraphQLType).
Variables (relationsOrderArgs relationsFilterArgs : gmap string GraphQLType).

(** Select-one takes the arguments of select-many but [limit], in the
    MySQL and SQLite builders, and in the Postgres builder for a table
    with relations. *)
Lemma select_single_args_drop_limit (entries : list (string * Relation))
    (pgArray pgSingle : CreatedResolver) :
  Pg.generateSelectArray db tableName table (Some entries) orderArgs filterArgs
    relationsOrderArgs relationsFilterArgs = inr pgArray ->
  Pg.generateSelectSingle db tableName table (Some entries) orderArgs filterArgs
    relationsOrderArgs relationsFilterArgs = inr pgSingle ->
  arg_names (args (MySql.generateSelectSingle db tableName tables named
                     orderArgs filterArgs))
  = without_limit (arg_names (args (MySql.generateSelectArray db tableName tables named
                                      orderArgs filterArgs)))
  /\ arg_names (args (SQLite.generateSelectSingle db tableName tables named
                        orderArgs filterArgs))
     = without_limit (arg_names (args (SQLite.generateSelectArray db tableName tables
                                         named orderArgs filterArgs)))
  /\ arg_names (args pgSingle) = without_limit (arg_names (args pgArray)).
Proof.
  unfold Pg.generateSelectArray, Pg.generateSelectSingle.
  destruct (query_base _ _) as [[|]|]; [| |done]; by intros [= <-] [= <-].
Qed.

(** C5 at the input where the code departs from it: in the Postgres
    builder, select-one of a table without relations takes [limit]. *)
Theorem pg_select_single_without_relations_takes_limit
    (pgArray pgSingle : CreatedResolver) :
  Pg.generateSelectArray db tableName table None orderArgs filterArgs
    relationsOrderArgs relationsFilterArgs = inr pgArray ->
  Pg.generateSelectSingle db tableName table None orderArgs filterArgs
    relationsOrderArgs relationsFilterArgs = inr pgSingle ->
  arg_names (args pgSingle) = ["offset"; "limit"; "orderBy"; "where"]
  /\ arg_names (args pgSingle) = arg_names (args pgArray)
  /\ arg_names (args pgSingle) <> without_limit (arg_names (args pgArray)).
Proof.
  unfold Pg.generateSelectArray, Pg.generateSelectSingle.
  destruct (query_base _ _) as [[|]|]; [| |done]; by intros [= <-] [= <-].
Qed.

(** C8, as the code has it.  In the Postgres builder, for a table with
    relations, both select operations take a [relations] argument; its type
    has one field per relation, in the order of the relations, and the
    input type of a field has the arguments [where], [orderBy], [offset],
    and [limit] exactly when the relation is a [Many].  The select
    operations of the MySQL and SQLite builders take no [relations]
    argument. *)
Theorem pg_relations_argument (entries : list (string * Relation))
    (pgArray pgSingle : CreatedResolver) :
  Pg.generateSelectArray db tableName table (Some entries) orderArgs filterArgs
    relationsOrderArgs relationsFilterArgs = inr pgArray ->
  Pg.generateSelectSingle db tableName table (Some entries) orderArgs filterArgs
    relationsOrderArgs relationsFilterArgs = inr pgSingle ->
  (forall op, op ∈ [pgArray; pgSingle] ->
     exists typeName fields,
       assoc "relations" (args op) = Some (GraphQLInputObjectType typeName fields)
       /\ fields.*1 = entries.*1
       /\ forall i relName rel,
            entries !! i = Some (relName, rel) ->
            exists t,
              fields !! i = Some (relName, t)
              /\ nested_names t
                 = if is_many rel then ["where"; "orderBy"; "offset"; "limit"]
                   else ["where"; "orderBy"; "offset"])
  /\ (forall op,
        op ∈ [MySql.generateSelectArray db tableName tables named orderArgs filterArgs;
              MySql.generateSelectSingle db tableName tables named orderArgs filterArgs;
              SQLite.generateSelectArray db tableName tables named orderArgs filterArgs;
              SQLite.generateSelectSingle db tableName tables named orderArgs filterArgs] ->
        assoc "relations" (args op) = None).
Proof.
  intros Ha Hs.
  assert (forall op, op ∈ [pgArray; pgSingle] ->
            exists queryName,
              assoc "relations" (args op)
              = Some (Pg.relationArgsType queryName entries
                        relationsOrderArgs relationsFilterArgs))
    as Hrelations.
  { revert Ha Hs. unfold Pg.generateSelectArray, Pg.generateSelectSingle.
    destruct (query_base _ _) as [[|]|]; [| |done];
      intros [= <-] [= <-] op Hop;
      repeat (apply elem_of_cons in Hop as [->|Hop]);
      try (by apply elem_of_nil in Hop); eexists; reflexivity. }
  split.
  - intros op Hop.
    destruct (Hrelations op Hop) as [queryName Hrel].
    rewrite Hrel. unfold Pg.relationArgsType.
    do 2 eexists. split; [reflexivity|].
    clear Hrel Hop Ha Hs Hrelations. split.
    + induction entries as [|[relName rel] rest IH]; [done|]. cbn. by rewrite IH.
    + induction entries as [|[relName' rel'] rest IH]; intros i relName rel Hi; [done|].
      destruct i as [|i]; cbn in *.
      * injection Hi as -> ->. eexists. split; [reflexivity|].
        unfold Pg.relationArgsFields. by destruct (is_many rel).
      * by apply IH.
  - intros op Hop.
    repeat (apply elem_of_cons in Hop as [->|Hop]); try (by apply elem_of_nil in Hop);
      reflexivity.
Qed.
End Arguments.

(** ** Generation *)

Lemma map_throwing_fails {A B} (f : A -> thrown + B) (l : list A) (x : A) :
  x ∈ l -> failed (f x) -> failed (map_throwing f l).
Proof.
  induction l as [|y l IH]; intros Hx Hf; [by apply elem_of_nil in Hx|].
  cbn. destruct (f y) eqn:Hy; [done|].
  apply elem_of_cons in Hx as [->|Hx]; [by rewrite Hy in Hf|].
  specialize (IH Hx Hf). by destruct (map_throwing f l).
Qed.

Lemma map_throwing_inr {A B} (f : A -> thrown + B) (l : list A) (l' : list B) :
  map_throwing f l = inr l' -> Forall2 (fun x y => f x = inr y) l l'.
Proof.
  revert l'. induction l as [|x l IH]; intros l'; cbn.
  - intros [= <-]. constructor.
  - destruct (f x) eqn:Hx; [done|].
    destruct (map_throwing f l); [done|].
    intros [= <-]. constructor; auto.
Qed.

Lemma map_throwing_error {A B} (f : A -> thrown + B) (l : list A) (e : thrown) :
  map_throwing f l = inl e -> exists x, x ∈ l /\ f x = inl e.
Proof.
  induction l as [|y l IH]; cbn; [done|].
  destruct (f y) as [e'|b] eqn:Hy.
  - intros [= ->]. exists y. split; [by left|done].
  - destruct (map_throwing f l) as [e'|]; [|done].
    intros [= ->]. destruct (IH eq_refl) as (x & Hx & Hfx).
    exists x. split; [by right|done].
Qed.

Lemma map_throwing_first_failure {A B} (f : A -> thrown + B) (l : list A) (x : A)
    (e : thrown) :
  x ∈ l -> failed (f x) -> (forall y e', f y = inl e' -> e' = e) ->
  map_throwing f l = inl e.
Proof.
  intros Hx Hfx Hsame.
  induction l as [|y l IH]; [by apply elem_of_nil in Hx|].
  cbn. destruct (f y) as [e'|b] eqn:Hy.
  - by rewrite (Hsame _ _ Hy).
  - apply elem_of_cons in Hx as [->|Hx]; [by rewrite Hy in Hfx|].
    by rewrite (IH Hx).
Qed.

Lemma map_throwing_keys {X} (gen : string * Table -> thrown + X)
    (l : list (string * Table)) (l' : list (string * Table * X)) :
  map_throwing (fun kv => match gen kv with
                          | inl e => inl e
                          | inr x => inr (kv.1, kv.2, x)
                          end) l = inr l' ->
  l'.*1 = l /\ Forall (fun entry => gen entry.1 = inr entry.2) l'.
Proof.
  intros Hmap. apply map_throwing_inr in Hmap.
  induction Hmap as [|[n t] e ?? Hhead ? [IHkeys IHtypes]]; [done|].
  cbn in *. destruct (gen (n, t)) eqn:Hgen; [done|]. injection Hhead as <-.
  split; [by rewrite IHkeys|]. by constructor.
Qed.

Lemma name_of_table_unknown (tableEntries : list (string * Table)) (target : Table) :
  (forall kv, kv ∈ tableEntries -> same_table kv.2 target = false) ->
  failed (name_of_table tableEntries target).
Proof.
  intros Hnone. unfold name_of_table.
  induction tableEntries as [|kv rest IH]; [done|].
  cbn. rewrite (Hnone kv) by (apply elem_of_cons; by left).
  apply IH. intros kv' Hkv'. apply Hnone. apply elem_of_cons. by right.
Qed.

Lemma name_of_table_error (tableEntries : list (string * Table)) (target : Table)
    (e : thrown) :
  name_of_table tableEntries target = inl e -> e = cannot_read "undefined" "0".
Proof. unfold name_of_table. destruct (List.find _ _); by intros [= <-]. Qed.

Lemma relations_of_elem (schema : Schema) (key : string) (rels : Relations) :
  (key, SchemaRelations rels) ∈ schema -> (key, rels) ∈ relations_of schema.
Proof.
  intros Hin. unfold relations_of. apply list_elem_of_omap.
  exists (key, SchemaRelations rels). done.
Qed.

Lemma rawRelations_error (tableEntries : list (string * Table)) (schema : Schema)
    (e : thrown) :
  rawRelations tableEntries schema = inl e -> e = cannot_read "undefined" "0".
Proof.
  unfold rawRelations. intros (kv & _ & Hkv)%map_throwing_error.
  cbn in Hkv. destruct (name_of_table _ _) eqn:Hn; [|done].
  injection Hkv as <-. by eapply name_of_table_error.
Qed.

Lemma namedRelations_error (tableEntries : list (string * Table))
    (raw : list (string * list (string * Relation))) (e : thrown) :
  namedRelations tableEntries raw = inl e -> e = cannot_read "undefined" "0".
Proof.
  unfold namedRelations. destruct (map_throwing _ raw) as [e'|] eqn:Hmap; [|done].
  intros [= <-]. apply map_throwing_error in Hmap as (rc & _ & Hrc).
  cbn in Hrc. destruct (map_throwing _ rc.2) as [e''|] eqn:Hinner; [|done].
  injection Hrc as <-. apply map_throwing_error in Hinner as (inner & _ & Hin).
  cbn in Hin. destruct (name_of_table _ _) eqn:Hn; [|done].
  injection Hin as <-. by eapply name_of_table_error.
Qed.

(** *** Assignments to a plain object *)



Lemma own_names_app (l1 l2 : list string) :
  own_names (l1 ++ l2) = own_names l1 ++ own_names l2.
Proof. apply filter_app. Qed.


Lemma own_names_singleton (k : string) :
  own_names [k] = if String.eqb k "__proto__" then [] else [k].
Proof.
  unfold own_names. destruct (String.eqb k "__proto__") eqn:Hk.
  - apply String.eqb_eq in Hk as ->.
    by rewrite filter_cons_False by (intros Hne; by apply Hne).
  - apply String.eqb_neq in Hk. by rewrite filter_cons_True.
Qed.


Lemma assoc_elem {A} (n : string) (l : list (string * A)) (v : A) :
  assoc n l = Some v -> (n, v) ∈ l.
Proof.
  induction l as [|[k w] l IH]; cbn; [done|].
  destruct (String.eqb n k) eqn:Hnk.
  - apply String.eqb_eq in Hnk as ->. intros [= ->]. by left.
  - intros Hl. right. by apply IH.
Qed.

(** What a name holds was assigned under that name. *)
Lemma assigned_elem {A} (n : string) (l : list (string * A)) (v : A) :
  assigned n l = Some v -> (n, v) ∈ l.
Proof.
  unfold assigned. destruct (String.eqb n "__proto__"); [done|].
  intros Hl%assoc_elem. by apply elem_of_reverse.
Qed.

(** The last assignment under a name is the one that stays. *)
Lemma assigned_last {A} (n : string) (v : A) (l1 l2 : list (string * A)) :
  n <> "__proto__" -> (n ∉ l2.*1) -> assigned n (l1 ++ (n, v) :: l2) = Some v.
Proof.
  intros Hn Hlater. unfold assigned.
  apply String.eqb_neq in Hn. rewrite Hn.
  rewrite reverse_app, reverse_cons, <- (assoc_L (++)).
  assert (forall l l' : list (string * A),
             (n ∉ l.*1) -> assoc n (l ++ l') = assoc n l') as Hskip.
  { intros l l' Hl. induction l as [|[k w] l IH]; [done|].
    cbn in *. apply not_elem_of_cons in Hl as [Hne Hl].
    apply String.eqb_neq in Hne. rewrite Hne. by apply IH. }
  rewrite Hskip.
  - cbn. by rewrite String.eqb_refl.
  - by rewrite fmap_reverse, elem_of_reverse.
Qed.



Lemma bind_names {X} (fields : X -> list (string * FieldConfig)) (names : X -> list string)
    (entries : list X) :
  (forall entry, entry ∈ entries -> (fields entry).*1 = names entry) ->
  (entries ≫= fields).*1 = entries ≫= names.
Proof.
  induction entries as [|entry rest IH]; intros Hnames; [done|].
  rewrite !bind_cons, fmap_app, Hnames by (by left).
  rewrite IH; [done|]. intros e He. apply Hnames. by right.
Qed.

Lemma bind_fmap {X} (f : X -> string) (g : string -> list string) (entries : list X) :
  entries ≫= (fun entry => g (f entry)) = (f <$> entries) ≫= g.
Proof.
  induction entries as [|entry rest IH]; [done|].
  by rewrite fmap_cons, !bind_cons, IH.
Qed.

Section Generation.
Context `{Common} `{Pg.Vanilla}.

Lemma pg_select_builders (db : Db) tableName table relations orderArgs filterArgs
    relationsOrderArgs relationsFilterArgs :
  match query_base db tableName with
  | None =>
      Pg.generateSelectArray db tableName table relations orderArgs filterArgs
        relationsOrderArgs relationsFilterArgs = inl (Pg.table_not_found tableName)
      /\ Pg.generateSelectSingle db tableName table relations orderArgs filterArgs
           relationsOrderArgs relationsFilterArgs = inl (Pg.table_not_found tableName)
  | Some _ =>
      exists pgArray pgSingle,
        Pg.generateSelectArray db tableName table relations orderArgs filterArgs
          relationsOrderArgs relationsFilterArgs = inr pgArray
        /\ Pg.generateSelectSingle db tableName table relations orderArgs filterArgs
             relationsOrderArgs relationsFilterArgs = inr pgSingle
        /\ name pgArray = Pg.camelize tableName
        /\ name pgSingle = Pg.camelize tableName +:+ "Single"
  end.
Proof.
  unfold Pg.generateSelectArray, Pg.generateSelectSingle.
  destruct (query_base db tableName); [|done].
  do 2 eexists. repeat split.
Qed.

Lemma pg_addTables_error (db : Db) relations acc
    (entries : list (string * Table * TableTypes)) (e : thrown) :
  PgSchema.addTables db relations acc entries = inl e ->
  exists n, n ∈ entries.*1.*1 /\ query_base db n = None /\ e = Pg.table_not_found n.
Proof.
  revert acc. induction entries as [|[[n t] tt] rest IH]; intros acc;
    cbn [PgSchema.addTables]; [done|].
  destruct (PgSchema.addTable db relations acc (n, t, tt)) as [e'|acc'] eqn:Hadd.
  - intros [= ->]. exists n. split; [by left|].
    revert Hadd. unfold PgSchema.addTable.
    pose proof (pg_select_builders db n t (PgSchema.relations_at relations n)
                  (tableOrder tt) (tableFilters tt) (relationOrder tt) (relationFilters tt))
      as Hbuilders.
    destruct (query_base db n).
    + destruct Hbuilders as (a & s & -> & -> & _). done.
    + destruct Hbuilders as [-> _]. by intros [= <-].
  - intros Hrest. destruct (IH _ Hrest) as (n' & Hn' & Hmissing & ->).
    exists n'. split; [by right|done].
Qed.

Lemma pg_addTables_missing (db : Db) relations acc
    (entries : list (string * Table * TableTypes)) tableName table tableTypes :
  (tableName, table, tableTypes) ∈ entries ->
  query_base db tableName = None ->
  failed (PgSchema.addTables db relations acc entries).
Proof.
  intros Hin Hmissing. revert acc.
  induction entries as [|entry rest IH]; intros acc; [by apply elem_of_nil in Hin|].
  cbn. apply elem_of_cons in Hin as [<-|Hin].
  - unfold PgSchema.addTable, Pg.generateSelectArray. by rewrite Hmissing.
  - destruct (PgSchema.addTable db relations acc entry); [done|]. by apply IH.
Qed.

Lemma pg_missing_table_fails_generation (db : Db) (schema : Schema) tableName table :
  (tableName, table) ∈ tables_of PgTable schema -> query_base db tableName = None ->
  failed (PgSchema.generateSchemaData db schema).
Proof.
  intros Hin Hmissing. unfold PgSchema.generateSchemaData.
  destruct (length _ =? 0)%nat; [done|].
  destruct (rawRelations _ _) as [|raw]; [done|].
  destruct (map_throwing _ _) as [|gqlSchemaTypes] eqn:Hmap; [done|].
  apply map_throwing_inr in Hmap.
  apply list_elem_of_lookup in Hin as [i Hi].
  destruct (Forall2_lookup_l _ _ _ _ _ Hmap Hi) as [[[n t] tt] [Hj Hf]].
  cbn in Hf. destruct (Pg.generateTableTypes _ _ _ _); [done|].
  injection Hf as <- <- <-.
  eapply pg_addTables_missing; [|done].
  eapply list_elem_of_lookup_2. exact Hj.
Qed.



Lemma pg_generation_failure (db : Db) (schema : Schema) (e : thrown) :
  PgSchema.generateSchemaData db schema = inl e ->
  (tables_of PgTable schema = [] /\ e = Pg.unable_to_extract_tables)
  \/ e = cannot_read "undefined" "0"
  \/ (exists n t relations, Pg.generateTableTypes n t true relations = inl e)
  \/ exists n, n ∈ (tables_of PgTable schema).*1
               /\ query_base db n = None /\ e = Pg.table_not_found n.
Proof.
  unfold PgSchema.generateSchemaData.
  destruct (tables_of PgTable schema) as [|kv0 rest] eqn:Htables;
    [intros [= <-]; by left|].
  cbn [length Nat.eqb]. rewrite <- Htables.
  destruct (rawRelations _ _) as [|raw] eqn:Hraw;
    [intros [= <-]; right; left; by eapply rawRelations_error|].
  destruct (map_throwing _ _) as [|gqlSchemaTypes] eqn:Hmap.
  - intros [= <-]. right. right. left.
    apply map_throwing_error in Hmap as (kv & _ & Hkv). cbn in Hkv.
    destruct (Pg.generateTableTypes _ _ _ _) eqn:Htypes; [|done].
    injection Hkv as <-. eauto.
  - intros Hadd. right. right. right.
    apply pg_addTables_error in Hadd as (n & Hn & Hmissing & ->).
    apply (map_throwing_keys
             (fun kv => Pg.generateTableTypes kv.1 kv.2 true
                          (PgSchema.relations_at (fromEntries raw) kv.1)))
      in Hmap as [Hkeys _].
    exists n. by rewrite <- Hkeys.
Qed.

Lemma dangling_target_fails_namedRelations (schema : Schema) (d : dialect)
    raw key rels relName rel :
  (key, SchemaRelations rels) ∈ schema ->
  (relName, rel) ∈ config rels ->
  (forall kv, kv ∈ tables_of d schema ->
              same_table kv.2 (referencedTable rel) = false) ->
  rawRelations (tables_of d schema) schema = inr raw ->
  failed (namedRelations (tables_of d schema) raw).
Proof.
  intros Hrels Hrel Hnone Hraw. unfold namedRelations.
  apply map_throwing_inr in Hraw.
  apply relations_of_elem in Hrels.
  apply list_elem_of_lookup in Hrels as [i Hi].
  destruct (Forall2_lookup_l _ _ _ _ _ Hraw Hi) as [[tn cfg] [Hj Hf]].
  cbn in Hf. destruct (name_of_table _ _); [done|]. injection Hf as <- <-.
  apply list_elem_of_lookup_2 in Hj.
  match goal with
  | |- failed (match ?m with _ => _ end) => assert (failed m) as Hm
  end.
  { eapply map_throwing_fails; [exact Hj|]. cbn.
    match goal with
    | |- failed (match ?m with _ => _ end) => assert (failed m) as Hm
    end.
    { eapply map_throwing_fails; [exact Hrel|]. cbn.
      pose proof (name_of_table_unknown _ _ Hnone) as Hu.
      by destruct (name_of_table _ _). }
    by destruct (map_throwing _ (config rels)). }
  by destruct (map_throwing _ raw).
Qed.

(** C3, as the code has it.
    - Postgres builder: a table of the schema for which [db.query[name]]
      is [undefined] makes generation fail; the error is the [TypeError] of
      a relations declaration of an unknown table, an error of the type
      generator, or [Error('Table <n> not found in drizzle instance ...')]
      for a table [n] that the instance lacks.
    - MySQL and SQLite builders: a relation whose target table is not in
      the schema makes generation fail, with the [TypeError] of reading
      [[0]] of [undefined] (with the "no tables" error when the schema has
      no table of the dialect).
    - MySQL and SQLite builders: whether the table is in the drizzle
      instance is looked up by the select resolvers, on every request, in
      the database of the request's context; a table for which
      [db.query[name]] is [undefined] is thrown as a [GraphQLError] there,
      before anything is awaited.
    - The lookup is a truthiness test on a plain object.  For a table
      that the instance lacks and whose name is a member of
      [Object.prototype] it finds that member: the select builders of the
      Postgres builder accept the table and their resolvers throw on every
      request without awaiting anything; the select resolvers of the MySQL
      and SQLite builders evaluate the configuration and throw the
      [GraphQLError] of [queryBase.findMany is not a function] (resp.
      [findFirst]), without awaiting anything. *)
Theorem schema_failures (db : Db) (schema : Schema) (relationsDepthLimit : option Z) :
  (forall tableName table,
      (tableName, table) ∈ tables_of PgTable schema ->
      query_base db tableName = None ->
      exists e,
        PgSchema.generateSchemaData db schema = inl e
        /\ (e = cannot_read "undefined" "0"
            \/ (exists n t relations, Pg.generateTableTypes n t true relations = inl e)
            \/ exists n, n ∈ (tables_of PgTable schema).*1
                         /\ query_base db n = None /\ e = Pg.table_not_found n))
  /\ (forall key rels relName rel,
        (key, SchemaRelations rels) ∈ schema ->
        (relName, rel) ∈ config rels ->
        ((forall kv, kv ∈ tables_of MySqlTable schema ->
                     same_table kv.2 (referencedTable rel) = false) ->
         MySqlSchema.generateSchemaData db schema relationsDepthLimit
         = inl (match tables_of MySqlTable schema with
                | [] => no_tables_detected
                | _ => cannot_read "undefined" "0"
                end))
        /\ ((forall kv, kv ∈ tables_of SQLiteTable schema ->
                        same_table kv.2 (referencedTable rel) = false) ->
            SQLiteSchema.generateSchemaData db schema relationsDepthLimit
            = inl (match tables_of SQLiteTable schema with
                   | [] => no_tables_detected
                   | _ => cannot_read "undefined" "0"
                   end)))
  /\ (forall exec tableName tables named orderArgs filterArgs
             source props context info parsedInfo dynamicDb,
        parseResolveInfo info = inr parsedInfo ->
        databaseOfContext db context = inr dynamicDb ->
        query_base dynamicDb tableName = None ->
        forall op,
          op ∈ [MySql.generateSelectArray db tableName tables named orderArgs filterArgs;
                MySql.generateSelectSingle db tableName tables named orderArgs filterArgs;
                SQLite.generateSelectArray db tableName tables named orderArgs filterArgs;
                SQLite.generateSelectSingle db tableName tables named
                  orderArgs filterArgs] ->
          resolver op exec source (VObject props) context info
          = ([], inl (GraphQLError
                        ("Drizzle-GraphQL Error: Table " +:+ tableName +:+
                         " not found in drizzle instance. Did you forget to pass schema to drizzle constructor?"))))
  /\ (forall exec tableName tables named orderArgs filterArgs
             source args context info orderBy where_ parsedInfo dynamicDb
             tree columns order filters with_,
        destructure args "orderBy" = inr orderBy ->
        destructure args "where" = inr where_ ->
        parseResolveInfo info = inr parsedInfo ->
        databaseOfContext db context = inr dynamicDb ->
        query_base dynamicDb tableName = Some PrototypeMember ->
        fieldsByTypeName parsedInfo (capitalize tableName +:+ "SelectItem") = inr tree ->
        extractSelectedColumnsFromTree tree (tables !! tableName) = inr columns ->
        (if truthy orderBy then extractOrderBy (tables !! tableName) orderBy
         else inr VUndefined) = inr order ->
        (if truthy where_ then extractFilters (tables !! tableName) tableName where_
         else inr VUndefined) = inr filters ->
        extractRelationsParams named tables tableName parsedInfo
          (capitalize tableName +:+ "SelectItem") = inr with_ ->
        forall op method,
          (op, method)
          ∈ [(MySql.generateSelectArray db tableName tables named orderArgs filterArgs,
              "findMany");
             (MySql.generateSelectSingle db tableName tables named orderArgs filterArgs,
              "findFirst");
             (SQLite.generateSelectArray db tableName tables named orderArgs filterArgs,
              "findMany");
             (SQLite.generateSelectSingle db tableName tables named orderArgs filterArgs,
              "findFirst")] ->
          resolver op exec source args context info
          = ([], inl (GraphQLError ("queryBase." +:+ method +:+ " is not a function"))))
  /\ (forall tableName table relations orderArgs filterArgs
             relationsOrderArgs relationsFilterArgs,
        query_base db tableName = Some PrototypeMember ->
        exists pgArray pgSingle,
          Pg.generateSelectArray db tableName table relations orderArgs filterArgs
            relationsOrderArgs relationsFilterArgs = inr pgArray
          /\ Pg.generateSelectSingle db tableName table relations orderArgs filterArgs
               relationsOrderArgs relationsFilterArgs = inr pgSingle
          /\ forall exec source args context info op,
               op ∈ [pgArray; pgSingle] ->
               trace (resolver op exec source args context info) = []
               /\ failed (result (resolver op exec source args context info))).
Proof.
  split; [|split; [|split; [|split]]].
  - intros tableName table Hin Hmissing.
    pose proof (pg_missing_table_fails_generation db schema tableName table Hin Hmissing)
      as Hfailed.
    destruct (PgSchema.generateSchemaData db schema) as [e|] eqn:Hgen; [|done].
    exists e. split; [done|].
    destruct (pg_generation_failure db schema e Hgen) as [[Hnone _]|[->|[Htypes|Htable]]];
      auto.
    rewrite Hnone in Hin. by apply elem_of_nil in Hin.
  - intros key rels relName rel Hrels Hrel. split; intros Hnone.
    + unfold MySqlSchema.generateSchemaData.
      destruct (tables_of MySqlTable schema) as [|kv0 rest] eqn:Htables; [done|].
      cbn [length Nat.eqb]. rewrite <- Htables in Hnone |- *.
      destruct (rawRelations _ _) as [e|raw] eqn:Hraw;
        [by rewrite (rawRelations_error _ _ _ Hraw)|].
      pose proof (dangling_target_fails_namedRelations schema MySqlTable
                    raw key rels relName rel Hrels Hrel Hnone Hraw) as Hfail.
      destruct (namedRelations _ _) as [e|] eqn:Hnamed; [|done].
      by rewrite (namedRelations_error _ _ _ Hnamed).
    + unfold SQLiteSchema.generateSchemaData.
      destruct (tables_of SQLiteTable schema) as [|kv0 rest] eqn:Htables; [done|].
      cbn [length Nat.eqb]. rewrite <- Htables in Hnone |- *.
      destruct (rawRelations _ _) as [e|raw] eqn:Hraw;
        [by rewrite (rawRelations_error _ _ _ Hraw)|].
      pose proof (dangling_target_fails_namedRelations schema SQLiteTable
                    raw key rels relName rel Hrels Hrel Hnone Hraw) as Hfail.
      destruct (namedRelations _ _) as [e|] eqn:Hnamed; [|done].
      by rewrite (namedRelations_error _ _ _ Hnamed).
  - intros exec tableName tables named orderArgs filterArgs source props context info
      parsedInfo dynamicDb Hparse Hdb Hmissing op Hop.
    repeat (apply elem_of_cons in Hop as [->|Hop]); try (by apply elem_of_nil in Hop);
      cbn; rewrite Hparse; cbn; rewrite Hdb; cbn; rewrite Hmissing; cbn;
      by rewrite ?rethrow_rethrown.
  - intros exec tableName tables named orderArgs filterArgs source args context info
      orderBy where_ parsedInfo dynamicDb tree columns order filters with_
      HorderBy Hwhere Hparse Hdb Hmember Htree Hcolumns Horder Hfilters Hwith op method Hop.
    destruct (destructure_other _ _ "offset" _ HorderBy) as [offset Hoffset].
    destruct (destructure_other _ _ "limit" _ HorderBy) as [limit Hlimit].
    assert (Hrelations : truthy_at named tableName = true).
    { unfold truthy_at. revert Hmember. unfold query_base.
      destruct (decide _); [done|]. destruct (inherited tableName); [|done].
      intros _. apply orb_true_r. }
    repeat (apply elem_of_cons in Hop as [[= -> ->]|Hop]);
      try (by apply elem_of_nil in Hop);
      cbn; rewrite Hoffset; cbn; rewrite ?Hlimit; cbn; rewrite HorderBy; cbn;
      rewrite Hwhere; cbn; rewrite Hparse; cbn; rewrite Hdb; cbn; rewrite Hmember; cbn;
      rewrite Htree; cbn; rewrite Hcolumns; cbn;
      destruct (truthy orderBy); cbn; rewrite ?Horder; cbn;
      destruct (truthy where_); cbn; rewrite ?Hfilters; cbn;
      rewrite Hrelations; cbn; rewrite Hwith; cbn;
      by rewrite ?rethrow_rethrown.
  - intros tableName table relations orderArgs filterArgs
      relationsOrderArgs relationsFilterArgs Hmember.
    unfold Pg.generateSelectArray, Pg.generateSelectSingle. rewrite Hmember.
    do 2 eexists. split; [reflexivity|]. split; [reflexivity|].
    intros exec source args context info op Hop.
    repeat (apply elem_of_cons in Hop as [->|Hop]); try (by apply elem_of_nil in Hop);
      cbn; repeat (next_call; try done);
      (destruct relations as [entries|]; cbn;
       [match goal with
        | |- context [Pg.withFieldsLoop ?a ?sel ?l ?w] =>
            pose proof (withFieldsLoop_silent a sel l w) as Hsilent;
            destruct (Pg.withFieldsLoop a sel l w) as [loopLog [?|?]];
            cbn in Hsilent; subst loopLog; cbn
        end|]);
      try done; repeat (next_call; try done).
Qed.

Lemma operation_names_agree db tableName tables named table tableTypes relations ops :
  pg_operations db tableName table relations tableTypes = inr ops ->
  name <$> mysql_operations db tableName tables named table tableTypes
  = mysql_query_names tableName ++ mysql_mutation_names tableName
  /\ name <$> sqlite_operations db tableName tables named table tableTypes
     = sqlite_query_names tableName ++ sqlite_mutation_names tableName
  /\ name <$> ops = pg_query_names tableName ++ pg_mutation_names tableName.
Proof.
  unfold pg_operations, Pg.generateSelectArray, Pg.generateSelectSingle.
  destruct (query_base _ _) as [[|]|]; [| |done]; by intros [= <-].
Qed.







End Generation.


Lemma schema_failures_witness :
  let pgSchema : Schema := [("users", SchemaTable Mock.pg_users)] in
  let dangling : Schema :=
    [("users", SchemaTable Mock.users);
     ("usersRelations", SchemaRelations Mock.users_relations)] in
  let parsed := VObject [("fieldsByTypeName", VObject [])] in
  (("users", Mock.pg_users) ∈ tables_of PgTable pgSchema
   /\ query_base Mock.empty_db "users" = None
   /\ failed (@PgSchema.generateSchemaData Mock.vanilla Mock.empty_db pgSchema))
  /\ (("usersRelations", SchemaRelations Mock.users_relations) ∈ dangling
      /\ ("posts", Mock.users_posts) ∈ config Mock.users_relations
      /\ (forall kv, kv ∈ tables_of MySqlTable dangling ->
                     same_table kv.2 (referencedTable Mock.users_posts) = false)
      /\ @MySqlSchema.generateSchemaData Mock.common Mock.db dangling None
         = inl (TypeError "Cannot read properties of undefined (reading '0')"))
  /\ (@parseResolveInfo Mock.common Mock.info = inr parsed
      /\ @databaseOfContext Mock.common Mock.empty_db VUndefined = inr Mock.empty_db
      /\ query_base Mock.empty_db "users" = None
      /\ resolver (@MySql.generateSelectArray Mock.common Mock.empty_db "users" ∅ ∅
                     GraphQLInt GraphQLInt)
           (Mock.store []) VUndefined (VObject []) VUndefined Mock.info
         = ([], inl (GraphQLError
                       "Drizzle-GraphQL Error: Table users not found in drizzle instance. Did you forget to pass schema to drizzle constructor?")))
  /\ (query_base Mock.empty_db "constructor" = Some PrototypeMember
      /\ fieldsByTypeName parsed "ConstructorSelectItem" = inr VUndefined
      /\ resolver (@MySql.generateSelectSingle Mock.common Mock.empty_db "constructor" ∅ ∅
                     GraphQLInt GraphQLInt)
           (Mock.store []) VUndefined (VObject []) VUndefined Mock.info
         = ([], inl (GraphQLError "queryBase.findFirst is not a function")))
  /\ exists pgArray,
       @Pg.generateSelectArray Mock.vanilla Mock.empty_db "constructor"
         Mock.pg_constructor None GraphQLInt GraphQLInt ∅ ∅ = inr pgArray
       /\ trace (resolver pgArray (Mock.store []) VUndefined (VObject []) VUndefined
                   Mock.info) = []
       /\ failed (result (resolver pgArray (Mock.store []) VUndefined (VObject [])
                            VUndefined Mock.info)).
Proof.
  intros pgSchema dangling parsed.
  assert (Hpg : ("users", Mock.pg_users) ∈ tables_of PgTable pgSchema)
    by (apply elem_of_cons; by left).
  assert (Hrels : ("usersRelations", SchemaRelations Mock.users_relations) ∈ dangling)
    by (apply elem_of_cons; right; apply elem_of_cons; by left).
  assert (Hrel : ("posts", Mock.users_posts) ∈ config Mock.users_relations)
    by (apply elem_of_cons; by left).
  assert (Hnone : forall kv, kv ∈ tables_of MySqlTable dangling ->
                             same_table kv.2 (referencedTable Mock.users_posts) = false).
  { intros kv Hkv. apply elem_of_cons in Hkv as [->|Hkv]; [done|].
    by apply elem_of_nil in Hkv. }
  pose proof (@schema_failures Mock.common Mock.vanilla Mock.empty_db pgSchema None)
    as (Hgeneration & _ & Hrequest & Hmember & Hpostgres).
  pose proof (@schema_failures Mock.common Mock.vanilla Mock.db dangling None)
    as (_ & Hdangling & _).
  split; [|split; [|split; [|split]]].
  - split; [done|]. split; [done|].
    destruct (Hgeneration "users" Mock.pg_users Hpg eq_refl) as (e & -> & _). exact I.
  - split; [done|]. split; [done|]. split; [done|].
    exact (proj1 (Hdangling _ _ _ _ Hrels Hrel) Hnone).
  - split; [done|]. split; [done|]. split; [done|].
    refine (Hrequest (Mock.store []) "users" ∅ ∅ GraphQLInt GraphQLInt VUndefined []
              VUndefined Mock.info _ Mock.empty_db eq_refl eq_refl eq_refl _ _).
    apply elem_of_cons; by left.
  - split; [done|]. split; [done|].
    refine (Hmember (Mock.store []) "constructor" ∅ ∅ GraphQLInt GraphQLInt VUndefined
              (VObject []) VUndefined Mock.info VUndefined VUndefined parsed Mock.empty_db
              VUndefined Mock.selected VUndefined VUndefined VUndefined
              eq_refl eq_refl eq_refl eq_refl eq_refl eq_refl eq_refl eq_refl eq_refl
              eq_refl _ "findFirst" _).
    apply elem_of_cons; right. apply elem_of_cons; by left.
  - destruct (Hpostgres "constructor" Mock.pg_constructor None GraphQLInt GraphQLInt ∅ ∅
                eq_refl) as (pgArray & pgSingle & Harray & _ & Hruns).
    exists pgArray. split; [exact Harray|].
    apply Hruns. apply elem_of_cons; by left.
Defined.

(** C3, as stated, fails on the MySQL builder: generation succeeds for a
    table that the drizzle instance does not have, and the failure comes
    out of the resolver when a request runs it. *)
Lemma missing_table_surfaces_per_request :
  exists g f,
    @MySqlSchema.generateSchemaData Mock.common Mock.empty_db
      [("users", SchemaTable Mock.users)] None = inr g
    /\ queries g !! "users" = Some f
    /\ resolve f (Mock.store []) VUndefined (VObject []) VUndefined Mock.info
       = ([], inl (GraphQLError
                     "Drizzle-GraphQL Error: Table users not found in drizzle instance. Did you forget to pass schema to drizzle constructor?")).
Proof.
  do 2 eexists. split; [reflexivity|].
  split; [vm_compute; reflexivity|].
  reflexivity.
Qed.

(** The same on the Postgres builder, for a table named like a member of
    [Object.prototype]: the check at generation time finds that member,
    generation succeeds although the drizzle instance does not have the
    table, and the failure comes out of the resolver. *)
Example prototype_member_passes_the_check :
  exists g f,
    @PgSchema.generateSchemaData Mock.vanilla Mock.empty_db
      [("constructor", SchemaTable Mock.pg_constructor)] = inr g
    /\ queries g !! "constructor" = Some f
    /\ resolve f (Mock.store []) VUndefined (VObject []) VUndefined Mock.info
       = ([], inl (TypeError "queryBase.findMany is not a function")).
Proof.
  do 2 eexists. split; [reflexivity|].
  split; [vm_compute; reflexivity|].
  reflexivity.
Qed.


Lemma pg_select_single_without_relations_takes_limit_witness :
  exists pgArray pgSingle,
    @Pg.generateSelectArray Mock.vanilla Mock.db "users" Mock.pg_users None
      GraphQLInt GraphQLInt ∅ ∅ = inr pgArray
    /\ @Pg.generateSelectSingle Mock.vanilla Mock.db "users" Mock.pg_users None
         GraphQLInt GraphQLInt ∅ ∅ = inr pgSingle
    /\ arg_names (args pgSingle) = ["offset"; "limit"; "orderBy"; "where"].
Proof.
  do 2 eexists. split; [reflexivity|]. split; [reflexivity|].
  exact (proj1 (@pg_select_single_without_relations_takes_limit Mock.vanilla Mock.db
                  "users" Mock.pg_users GraphQLInt GraphQLInt ∅ ∅ _ _ eq_refl eq_refl)).
Defined.

Lemma pg_relations_argument_witness :
  let entries := [("posts", Mock.users_posts); ("invitedBy", Mock.users_invitedBy)] in
  exists pgArray pgSingle,
    @Pg.generateSelectArray Mock.vanilla Mock.db "users" Mock.pg_users (Some entries)
      GraphQLInt GraphQLInt ∅ ∅ = inr pgArray
    /\ @Pg.generateSelectSingle Mock.vanilla Mock.db "users" Mock.pg_users (Some entries)
         GraphQLInt GraphQLInt ∅ ∅ = inr pgSingle
    /\ exists typeName fields,
         assoc "relations" (args pgSingle) = Some (GraphQLInputObjectType typeName fields)
         /\ fields.*1 = ["posts"; "invitedBy"].
Proof.
  intros entries. do 2 eexists. split; [reflexivity|]. split; [reflexivity|].
  destruct (proj1 (@pg_relations_argument Mock.common Mock.vanilla Mock.db "users"
                     Mock.pg_users ∅ ∅ GraphQLInt GraphQLInt ∅ ∅ entries _ _
                     eq_refl eq_refl) _
              (list_elem_of_further _ _ _ (list_elem_of_here _ _)))
    as (typeName & fields & Hrelations & Hnames & _).
  exists typeName, fields. split; [exact Hrelations|exact Hnames].
Defined.

(** C8, as stated, fails on the MySQL builder: the select-many operation of
    a table with relations takes [offset], [limit], [orderBy] and [where],
    and no [relations]. *)
Lemma mysql_select_takes_no_relations_argument :
  let named : RelationMap :=
    {["users" := [("posts", {| relation := Mock.users_posts;
                               targetTableName := "posts" |})]]} in
  let op := @MySql.generateSelectArray Mock.common Mock.db "users"
              {["users" := Mock.users]} named GraphQLInt GraphQLInt in
  is_Some (named !! "users")
  /\ arg_names (args op) = ["offset"; "limit"; "orderBy"; "where"]
  /\ assoc "relations" (args op) = None.
Proof.
  split; [|split]; [|reflexivity|reflexivity].
  eexists. apply lookup_singleton_eq.
Qed.

(** * Further properties of the resolvers *)

(** Membership in the list of operations of a builder, one operation at a
    time. *)
Ltac each_operation Hop :=
  unfold mysql_operations, sqlite_operations in Hop; cbn [app] in Hop;
  repeat (apply elem_of_cons in Hop as [->|Hop]);
  try (by apply elem_of_nil in Hop).

(** Evaluates the relation loop in a goal about a Postgres select. *)
Ltac relation_loop :=
  match goal with
  | |- context [Pg.withFieldsLoop ?a ?sel ?entries ?w] =>
      let Hs := fresh "Hs" in
      pose proof (withFieldsLoop_silent a sel entries w) as Hs;
      destruct (Pg.withFieldsLoop a sel entries w) as [? [?|?]];
      cbn in Hs; subst; cbn
  end.

(** Runs a Postgres select resolver, closing every branch with [tac]. *)
Ltac run_pg_select Hop rels tac :=
  try unfold Pg.generateSelectArray in Hop; try unfold Pg.generateSelectSingle in Hop;
  destruct (query_base _ _) as [[|]|] in Hop; [| |done];
  injection Hop as <-;
  cbn; repeat (next_call; try tac);
  destruct rels as [?entries|]; cbn; try relation_loop; try tac;
  repeat (next_call; try tac).

Ltac shape :=
  first [ by left
        | by right; left; eexists
        | right; right; do 3 eexists; split; [reflexivity|]; split; [eassumption|];
          first [by left | by right] ].

Section Resolvers.
Context `{Common} `{Pg.Vanilla}.
Variables (exec : Executor) (db : Db) (tableName : string) (table : Table).
Variables (tables : gmap string Table) (named : RelationMap).
Variables (relations : option (list (string * Relation))).
Variables (tableTypes : TableTypes).
Variables (source args context : value) (info : GraphQLResolveInfo).

(** X1. A resolver of any of the three builders awaits at most one
    statement, and calls an output remapper at most once, after the
    statement resolved, on the answer or on its element [0]. *)
Theorem one_await_per_operation (ops : list CreatedResolver) :
  pg_operations db tableName table relations tableTypes = inr ops ->
  forall op, op ∈ mysql_operations db tableName tables named table tableTypes
                  ++ sqlite_operations db tableName tables named table tableTypes
                  ++ ops ->
    one_await exec (resolver op exec source args context info).
Proof.
  intros Hops op Hop. unfold one_await.
  rewrite !elem_of_app in Hop. destruct Hop as [Hop|[Hop|Hop]].
  - each_operation Hop; explore; shape.
  - each_operation Hop; explore; shape.
  - destruct (pg_operations_inv db tableName table relations tableTypes ops op Hops Hop) as [Ha|[Hs|Hm]].
    + run_pg_select Ha relations shape.
    + run_pg_select Hs relations shape.
    + each_operation Hm; explore; shape.
Qed.
Lemma rethrown_class (e0 : thrown) (c : error_class) (m : string) :
  rethrown e0 = ErrorObject c m ->
  c = GraphQLErrorClass \/ ErrorObject c m = cannot_read "null" "message".
Proof.
  destruct e0 as [c0 m0|props|v|]; cbn.
  - intros [= <- <-]. by left.
  - destruct (assoc "message" props) as [[]|]; try discriminate.
    intros [= <- <-]. by left.
  - discriminate.
  - intros <-. by right.
Qed.

(** X2. Whatever a resolver of the MySQL or SQLite builder throws has
    gone through its [catch] block: an error object with a string message
    leaves the resolver as a [GraphQLError] (the one exception is the
    [TypeError] the block itself raises when it reads [message] of a caught
    [null]).  No plain [Error] of a helper or of the executor gets out. *)
Theorem errors_leave_as_GraphQLError (e : thrown) :
  forall op, op ∈ mysql_operations db tableName tables named table tableTypes
                  ++ sqlite_operations db tableName tables named table tableTypes ->
    result (resolver op exec source args context info) = inl e ->
    (exists e0, e = rethrown e0)
    /\ (forall c m, e = ErrorObject c m ->
          c = GraphQLErrorClass \/ e = cannot_read "null" "message").
Proof.
  intros op Hop Hresult.
  assert (exists e0, e = rethrown e0) as [e0 ->].
  { revert Hresult.
    each_operation Hop; explore; unfold result; cbn;
      first [discriminate
            | intros [= <-]; first [by eexists | by eexists (GraphQLError _)]]. }
  split; [by eexists|]. intros c m Heq. rewrite Heq. by apply (rethrown_class e0).
Qed.

(** X3. A mutation of the MySQL builder whose statement resolves returns
    [{ isSuccess: true }], whatever the executor answered; the answer is not
    remapped. *)
Theorem mysql_mutation_returns_isSuccess (baseType setArgs filterArgs : GraphQLType)
    (q : statement) (answer : value) :
  exec q = inr answer ->
  forall op,
    op ∈ [MySql.generateInsertArray db tableName table baseType;
          MySql.generateInsertSingle db tableName table baseType;
          MySql.generateUpdate db tableName table setArgs filterArgs;
          MySql.generateDelete db tableName table filterArgs] ->
    Awaited q ∈ trace (resolver op exec source args context info) ->
    resolver op exec source args context info = ([Awaited q], inr isSuccess).
Proof.
  intros Hexec op Hop.
  each_operation Hop; explore; leaf.
Qed.

(** X4. Which database a statement goes to.  Every statement of the MySQL
    builder, and every statement of the SQLite builder but the one of
    insert-many, goes to the database that [databaseOfContext] gives for the
    request; insert-many of the SQLite builder and every operation of the
    Postgres builder address the database the schema was generated with. *)
Theorem statement_database (dynamicDb : Db) (baseType : GraphQLType) (q : statement)
    (ops : list CreatedResolver) :
  databaseOfContext db context = inr dynamicDb ->
  pg_operations db tableName table relations tableTypes = inr ops ->
  (forall op,
      op ∈ mysql_operations db tableName tables named table tableTypes
           ++ [SQLite.generateSelectArray db tableName tables named
                 (tableOrder tableTypes) (tableFilters tableTypes);
               SQLite.generateSelectSingle db tableName tables named
                 (tableOrder tableTypes) (tableFilters tableTypes);
               SQLite.generateInsertSingle db tableName table (insertInput tableTypes);
               SQLite.generateUpdate db tableName table
                 (updateInput tableTypes) (tableFilters tableTypes);
               SQLite.generateDelete db tableName table (tableFilters tableTypes)] ->
      Awaited q ∈ trace (resolver op exec source args context info) ->
      db_of q = dynamicDb)
  /\ (forall op,
        op ∈ SQLite.generateInsertArray db tableName table baseType :: ops ->
        Awaited q ∈ trace (resolver op exec source args context info) ->
        db_of q = db).
Proof.
  intros Hdb Hops. split.
  - intros op Hop.
    each_operation Hop; cbn; repeat (rewrite ?Hdb, ?rethrow_rethrown; cbn; next_call);
      rewrite ?Hdb, ?rethrow_rethrown; cbn; leaf.
  - intros op Hop. apply elem_of_cons in Hop as [->|Hop].
    + explore; leaf.
    + destruct (pg_operations_inv db tableName table relations tableTypes ops op Hops Hop)
        as [Ha|[Hs|Hm]].
      * run_pg_select Ha relations leaf.
      * run_pg_select Hs relations leaf.
      * each_operation Hm; explore; leaf.
Qed.
End Resolvers.

(** Two calls of the same helper gave the same value. *)
Ltac same_call :=
  repeat match goal with
         | H1 : ?x = inr ?a, H2 : ?x = inr ?b |- _ =>
             first [ is_var a; assert (a = b) by congruence; subst a; clear H2
                   | is_var b; assert (b = a) by congruence; subst b; clear H2 ]
         end.

(** Reads [Awaited q ∈ trace r] off an evaluated run. *)
Ltac awaited_is Hin :=
  cbn in Hin;
  repeat (apply elem_of_cons in Hin as [Hin|Hin]);
  try (by apply elem_of_nil in Hin); try discriminate Hin;
  try (injection Hin as ->).

Section Statements.
Context `{Common} `{Pg.Vanilla}.
Variables (exec : Executor) (db : Db) (tableName : string) (table : Table).
Variables (tables : gmap string Table) (named : RelationMap).
Variables (relations : option (list (string * Relation))).
Variables (orderArgs filterArgs : GraphQLType).
Variables (relationsOrderArgs relationsFilterArgs : gmap string GraphQLType).
Variables (source args context : value) (info : GraphQLResolveInfo).

(** X5. A [where] that does not compile stops the operation before the
    executor: when [extractFilters] throws on the [where] of the request,
    the select, update and delete resolvers of the three builders fail and
    await nothing. *)
Theorem filter_failure_prevents_dispatch (where_ : value) (e1 e2 e3 : thrown)
    (setArgs : GraphQLType) (pgArray pgSingle : CreatedResolver) :
  destructure args "where" = inr where_ ->
  truthy where_ = true ->
  extractFilters (tables !! tableName) tableName where_ = inl e1 ->
  extractFilters (Some table) tableName where_ = inl e2 ->
  Pg.extractFilters table tableName where_ = inl e3 ->
  Pg.generateSelectArray db tableName table relations orderArgs filterArgs
    relationsOrderArgs relationsFilterArgs = inr pgArray ->
  Pg.generateSelectSingle db tableName table relations orderArgs filterArgs
    relationsOrderArgs relationsFilterArgs = inr pgSingle ->
  forall op,
    op ∈ [MySql.generateSelectArray db tableName tables named orderArgs filterArgs;
          MySql.generateSelectSingle db tableName tables named orderArgs filterArgs;
          MySql.generateUpdate db tableName table setArgs filterArgs;
          MySql.generateDelete db tableName table filterArgs;
          SQLite.generateSelectArray db tableName tables named orderArgs filterArgs;
          SQLite.generateSelectSingle db tableName tables named orderArgs filterArgs;
          SQLite.generateUpdate db tableName table setArgs filterArgs;
          SQLite.generateDelete db tableName table filterArgs;
          pgArray; pgSingle;
          Pg.generateUpdate db tableName table setArgs filterArgs;
          Pg.generateDelete db tableName table filterArgs] ->
    trace (resolver op exec source args context info) = []
    /\ failed (result (resolver op exec source args context info)).
Proof.
  intros Hwhere Htruthy He1 He2 He3 Ha Hs op Hop.
  repeat (apply elem_of_cons in Hop as [->|Hop]); try (by apply elem_of_nil in Hop).
  1-8,11-12: explore; first [done | congruence].
  - run_pg_select Ha relations ltac:(first [done | congruence]).
  - run_pg_select Hs relations ltac:(first [done | congruence]).
Qed.

(** X6. The predicate of an update or a delete is the compiled [where]
    of the request when there is one, and absent otherwise: the statement
    awaited carries [extractFilters]'s result, or no [.where(...)] at all. *)
Theorem mutation_predicate (where_ filters pgFilters : value) (setArgs : GraphQLType)
    (q : statement) :
  destructure args "where" = inr where_ ->
  (truthy where_ = true -> extractFilters (Some table) tableName where_ = inr filters) ->
  (truthy where_ = true -> Pg.extractFilters table tableName where_ = inr pgFilters) ->
  (forall op,
      op ∈ [MySql.generateUpdate db tableName table setArgs filterArgs;
            MySql.generateDelete db tableName table filterArgs;
            SQLite.generateUpdate db tableName table setArgs filterArgs;
            SQLite.generateDelete db tableName table filterArgs] ->
      Awaited q ∈ trace (resolver op exec source args context info) ->
      predicate_of q = if truthy where_ then Some filters else None)
  /\ (forall op,
        op ∈ [Pg.generateUpdate db tableName table setArgs filterArgs;
              Pg.generateDelete db tableName table filterArgs] ->
        Awaited q ∈ trace (resolver op exec source args context info) ->
        predicate_of q = if truthy where_ then Some pgFilters else None).
Proof.
  intros Hwhere Hfilters Hpg.
  split; intros op Hop;
    repeat (apply elem_of_cons in Hop as [->|Hop]); try (by apply elem_of_nil in Hop);
    explore; intros Hin; awaited_is Hin; cbn; simplify_eq;
    try specialize (Hfilters eq_refl); try specialize (Hpg eq_refl); congruence.
Qed.

(** X7. What a select hands to the executor.  Select-many awaits
    [findMany] on the table with the [offset] and the [limit] of the request
    as they came; select-one awaits [findFirst] with the [offset] and with no
    [limit] at all, also in the Postgres builder, whose select-one takes a
    [limit] argument for a table without relations. *)
Theorem select_statement (offset limit : value) (pgArray pgSingle : CreatedResolver)
    (q : statement) :
  destructure args "offset" = inr offset ->
  destructure args "limit" = inr limit ->
  Pg.generateSelectArray db tableName table relations orderArgs filterArgs
    relationsOrderArgs relationsFilterArgs = inr pgArray ->
  Pg.generateSelectSingle db tableName table relations orderArgs filterArgs
    relationsOrderArgs relationsFilterArgs = inr pgSingle ->
  (forall op,
      op ∈ [MySql.generateSelectArray db tableName tables named orderArgs filterArgs;
            SQLite.generateSelectArray db tableName tables named orderArgs filterArgs;
            pgArray] ->
      Awaited q ∈ trace (resolver op exec source args context info) ->
      exists d cfg,
        q = FindMany d tableName cfg
        /\ assoc "offset" cfg = Some offset
        /\ assoc "limit" cfg = Some limit)
  /\ (forall op,
        op ∈ [MySql.generateSelectSingle db tableName tables named orderArgs filterArgs;
              SQLite.generateSelectSingle db tableName tables named orderArgs filterArgs;
              pgSingle] ->
        Awaited q ∈ trace (resolver op exec source args context info) ->
        exists d cfg,
          q = FindFirst d tableName cfg
          /\ assoc "offset" cfg = Some offset
          /\ assoc "limit" cfg = None).
Proof.
  intros Hoffset Hlimit Ha Hs.
  split; intros op Hop;
    repeat (apply elem_of_cons in Hop as [->|Hop]); try (by apply elem_of_nil in Hop).
  1,2,4,5: explore; intros Hin; awaited_is Hin; simplify_eq;
    do 2 eexists; (split; [reflexivity|]); by split.
  - run_pg_select Ha relations
      ltac:(intros Hin; awaited_is Hin; simplify_eq;
            do 2 eexists; (split; [reflexivity|]); by split).
  - run_pg_select Hs relations
      ltac:(intros Hin; awaited_is Hin; simplify_eq;
            do 2 eexists; (split; [reflexivity|]); by split).
Qed.

(** X8. Insert-one of the Postgres and SQLite builders returns the first
    row of the executor's answer, remapped, and looks at no other row. *)
Theorem insert_single_returns_first_row (baseType : GraphQLType) (q : statement)
    (row : value) (rest : list value) :
  exec q = inr (VArray (row :: rest)) ->
  truthy row = true ->
  (Awaited q ∈ trace (resolver (Pg.generateInsertSingle db tableName table baseType)
                        exec source args context info) ->
   resolver (Pg.generateInsertSingle db tableName table baseType)
     exec source args context info
   = ([Awaited q; Remapped row], Pg.remapToGraphQLSingleOutput row None))
  /\ (Awaited q ∈ trace (resolver (SQLite.generateInsertSingle db tableName table baseType)
                           exec source args context info) ->
      resolver (SQLite.generateInsertSingle db tableName table baseType)
        exec source args context info
      = ([Awaited q; Remapped row],
         match remapToGraphQLSingleOutput row tableName (Some table) None with
         | inl e => inl (rethrown e)
         | inr out => inr out
         end)).
Proof.
  intros Hexec Htruthy.
  split; explore; intros Hin; awaited_is Hin;
    try match goal with
        | Hq : exec _ = inl _ |- _ => rewrite Hexec in Hq; discriminate
        | Hq : exec _ = inr ?x |- _ => is_var x; rewrite Hexec in Hq; injection Hq as <-
        end;
    cbn in *; simplify_eq;
    first [congruence
          | match goal with
            | Heq : _ = _ |- _ => by rewrite Heq
            end].
Qed.

(** X9. An input that does not remap stops a mutation before the
    executor: when the input remapper throws on the [values] (insert) or on
    the [set] (update) of the request, the resolver fails and awaits
    nothing. *)
Theorem input_failure_prevents_dispatch (values set : value) (baseType setArgs : GraphQLType) :
  member args "values" = inr values ->
  destructure args "set" = inr set ->
  failed (remapFromGraphQLArrayInput values (Some table)) ->
  failed (remapFromGraphQLSingleInput values (Some table)) ->
  failed (remapFromGraphQLSingleInput set (Some table)) ->
  failed (Pg.remapFromGraphQLArrayInput values table) ->
  failed (Pg.remapFromGraphQLSingleInput values table) ->
  failed (Pg.remapFromGraphQLSingleInput set table) ->
  forall op,
    op ∈ [MySql.generateInsertArray db tableName table baseType;
          MySql.generateInsertSingle db tableName table baseType;
          MySql.generateUpdate db tableName table setArgs filterArgs;
          SQLite.generateInsertArray db tableName table baseType;
          SQLite.generateInsertSingle db tableName table baseType;
          SQLite.generateUpdate db tableName table setArgs filterArgs;
          Pg.generateInsertArray db tableName table baseType;
          Pg.generateInsertSingle db tableName table baseType;
          Pg.generateUpdate db tableName table setArgs filterArgs] ->
    trace (resolver op exec source args context info) = []
    /\ failed (result (resolver op exec source args context info)).
Proof.
  intros Hvalues Hset H1 H2 H3 H4 H5 H6 op Hop.
  repeat (apply elem_of_cons in Hop as [->|Hop]); try (by apply elem_of_nil in Hop);
    explore; try done; simplify_eq;
    repeat match goal with
           | Hf : failed ?x, Heq : ?x = inr _ |- _ => by rewrite Heq in Hf
           end.
Qed.

(** X15. The filter and the ordering of a select.  The [where] and the
    [orderBy] of the [findMany] or [findFirst] configuration are what
    [extractFilters] and [extractOrderBy] make of the arguments of the request
    when these are present, and [undefined] when they are not. *)
Theorem select_filter_and_order (where_ orderBy filters order pgFilters pgOrder : value)
    (pgArray pgSingle : CreatedResolver) (q : statement) :
  destructure args "where" = inr where_ ->
  destructure args "orderBy" = inr orderBy ->
  (truthy where_ = true ->
   extractFilters (tables !! tableName) tableName where_ = inr filters) ->
  (truthy orderBy = true -> extractOrderBy (tables !! tableName) orderBy = inr order) ->
  (truthy where_ = true -> Pg.extractFilters table tableName where_ = inr pgFilters) ->
  (truthy orderBy = true -> Pg.extractOrderBy table orderBy = inr pgOrder) ->
  Pg.generateSelectArray db tableName table relations orderArgs filterArgs
    relationsOrderArgs relationsFilterArgs = inr pgArray ->
  Pg.generateSelectSingle db tableName table relations orderArgs filterArgs
    relationsOrderArgs relationsFilterArgs = inr pgSingle ->
  (forall op,
      op ∈ [MySql.generateSelectArray db tableName tables named orderArgs filterArgs;
            MySql.generateSelectSingle db tableName tables named orderArgs filterArgs;
            SQLite.generateSelectArray db tableName tables named orderArgs filterArgs;
            SQLite.generateSelectSingle db tableName tables named orderArgs filterArgs] ->
      Awaited q ∈ trace (resolver op exec source args context info) ->
      assoc "where" (config_of q) = Some (if truthy where_ then filters else VUndefined)
      /\ assoc "orderBy" (config_of q)
         = Some (if truthy orderBy then order else VUndefined))
  /\ (forall op,
        op ∈ [pgArray; pgSingle] ->
        Awaited q ∈ trace (resolver op exec source args context info) ->
        assoc "where" (config_of q)
        = Some (if truthy where_ then pgFilters else VUndefined)
        /\ assoc "orderBy" (config_of q)
           = Some (if truthy orderBy then pgOrder else VUndefined)).
Proof.
  intros Hwhere HorderBy Hfilters Horder HpgFilters HpgOrder Ha Hs.
  split; intros op Hop;
    repeat (apply elem_of_cons in Hop as [->|Hop]); try (by apply elem_of_nil in Hop).
  1-4: explore; intros Hin; awaited_is Hin; cbn; simplify_eq;
    try specialize (Hfilters eq_refl); try specialize (Horder eq_refl);
    split; congruence.
  - run_pg_select Ha relations
      ltac:(intros Hin; awaited_is Hin; cbn; simplify_eq;
            try specialize (HpgFilters eq_refl); try specialize (HpgOrder eq_refl);
            split; congruence).
  - run_pg_select Hs relations
      ltac:(intros Hin; awaited_is Hin; cbn; simplify_eq;
            try specialize (HpgFilters eq_refl); try specialize (HpgOrder eq_refl);
            split; congruence).
Qed.

(** X16. What an insert-many or an update hands to the executor is the
    remapped input of the request, and it is never empty: no insert without
    rows and no update without values is awaited. *)
Theorem dispatched_input_is_remapped (values set : value) (baseType setArgs : GraphQLType)
    (q : statement) :
  member args "values" = inr values ->
  destructure args "set" = inr set ->
  (forall op,
      op ∈ [MySql.generateInsertArray db tableName table baseType;
            SQLite.generateInsertArray db tableName table baseType] ->
      Awaited q ∈ trace (resolver op exec source args context info) ->
      exists d input returning skip,
        q = Insert d table (ManyRows input) returning skip
        /\ input <> []
        /\ remapFromGraphQLArrayInput values (Some table) = inr input)
  /\ (Awaited q ∈ trace (resolver (Pg.generateInsertArray db tableName table baseType)
                           exec source args context info) ->
      exists d input returning skip,
        q = Insert d table (ManyRows input) returning skip
        /\ input <> []
        /\ Pg.remapFromGraphQLArrayInput values table = inr input)
  /\ (forall op,
        op ∈ [MySql.generateUpdate db tableName table setArgs filterArgs;
              SQLite.generateUpdate db tableName table setArgs filterArgs] ->
        Awaited q ∈ trace (resolver op exec source args context info) ->
        exists d input predicate returning,
          q = Update d table input predicate returning
          /\ input <> []
          /\ remapFromGraphQLSingleInput set (Some table) = inr input)
  /\ (Awaited q ∈ trace (resolver (Pg.generateUpdate db tableName table setArgs filterArgs)
                           exec source args context info) ->
      exists d input predicate returning,
        q = Update d table input predicate returning
        /\ input <> []
        /\ Pg.remapFromGraphQLSingleInput set table = inr input).
Proof.
  intros Hvalues Hset.
  assert (forall input : list record, (length input =? 0)%nat = false -> input <> [])
    as Hrows by (by intros [|]).
  assert (forall input : record, (length input =? 0)%nat = false -> input <> [])
    as Hkeys by (by intros [|]).
  split; [|split; [|split]]; try intros op Hop;
    repeat (apply elem_of_cons in Hop as [->|Hop]); try (by apply elem_of_nil in Hop);
    explore; intros Hin; awaited_is Hin; simplify_eq;
    do 4 eexists; (split; [reflexivity|]); split; auto.
Qed.
End Statements.

(** * Further properties of the Postgres relation loop *)

Lemma set_own_keys (k : string) (v : value) (props : record) :
  (k ∉ props.*1) -> (set_own k v props).*1 = props.*1 ++ [k].
Proof.
  induction props as [|[k' v'] rest IH]; intros Hfresh; [done|].
  cbn in *. apply not_elem_of_cons in Hfresh as [Hne Hrest].
  destruct (String.eqb k k') eqn:Heq.
  - apply String.eqb_eq in Heq. done.
  - cbn. by rewrite IH.
Qed.

Lemma set_prop_keys (k : string) (v : value) (props : record) :
  (k ∉ props.*1) -> (set_prop k v props).*1 = props.*1 ++ own_names [k].
Proof.
  intros Hfresh. unfold set_prop. rewrite own_names_singleton.
  destruct (String.eqb k "__proto__"); [by rewrite app_nil_r|by apply set_own_keys].
Qed.

Section RelationLoop.
Context `{Pg.Vanilla}.
Variables (exec : Executor) (db : Db) (tableName : string) (table : Table).
Variables (orderArgs filterArgs : GraphQLType).
Variables (relationsOrderArgs relationsFilterArgs : gmap string GraphQLType).
Variables (source args context : value) (info : GraphQLResolveInfo).

Lemma withFieldsLoop_keys (n : string) (sels : list SelectionNode)
    (entries : list (string * Relation)) (withFields w : record) (log : list event) :
  Pg.withFieldsLoop args (Some (FieldNode n (Some sels))) entries withFields
  = (log, inr w) ->
  NoDup (withFields.*1 ++ entries.*1) ->
  w.*1 = withFields.*1 ++ own_names (selected_relations sels entries.*1).
Proof.
  revert withFields log.
  induction entries as [|[relName relValue] rest IH]; intros withFields log.
  - cbn. intros [= <- <-] _. by rewrite app_nil_r.
  - intros Hloop Hnodup. cbn [fmap list_fmap fst] in *.
    assert ((relName ∉ withFields.*1) /\ NoDup (withFields.*1 ++ rest.*1)
            /\ NoDup ((withFields.*1 ++ own_names [relName]) ++ rest.*1))
      as (Hfresh & Hrest & Hnext).
    { apply NoDup_app in Hnodup as (Hw & Hdisj & Hentries).
      apply NoDup_cons in Hentries as [Hrel Hentries].
      assert (NoDup (withFields.*1 ++ rest.*1)) as Hrest.
      { apply NoDup_app. repeat split; [done| |done].
        intros x Hx Hx'. apply (Hdisj _ Hx). by right. }
      repeat split; [|done|].
      - intros Hin. apply (Hdisj _ Hin). by left.
      - rewrite own_names_singleton.
        destruct (String.eqb relName "__proto__"); [by rewrite app_nil_r|].
        rewrite <- (assoc_L (++)). cbn.
        apply NoDup_app. repeat split; [done| |by apply NoDup_cons].
        intros x Hx Hx'. by apply (Hdisj _ Hx). }
    unfold selected_relations. rewrite filter_cons.
    cbn [Pg.withFieldsLoop] in Hloop.
    destruct (find_field relName sels) as [node|] eqn:Hfind.
    + destruct (decide (is_Some (Some node))) as [_|Hno]; [|by destruct Hno].
      change (relName :: ?l) with ([relName] ++ l). rewrite own_names_app.
      remember (own_names [relName]) as added eqn:Hadded.
      revert Hloop. cbn -[set_prop].
      repeat (next_call; try discriminate).
      all: match goal with
           | |- context [Pg.withFieldsLoop ?a ?sel ?l ?w0] =>
               destruct (Pg.withFieldsLoop a sel l w0) as [log' [e|w']] eqn:Hrec;
               cbn; [discriminate|]
           end.
      all: intros [= <- <-].
      all: subst added.
      all: apply IH in Hrec; [|by rewrite set_prop_keys].
      all: rewrite Hrec, set_prop_keys by done.
      all: by rewrite <- (assoc_L (++)).
    + destruct (decide (is_Some None)) as [Hyes|_]; [by destruct Hyes|].
      by apply (IH _ _ Hloop).
Qed.

(** X10. The [with] of a Postgres select names exactly the relations the
    request selects under the field of the operation, in the order the
    relations are declared; a select that selects no relation hands no
    [with] to the executor.  (A relation named [__proto__] never gets an
    entry: the assignment to [withFields] makes no property of it.) *)
Theorem pg_with_names_selected_relations (entries : list (string * Relation))
    (n : string) (sels : list SelectionNode)
    (pgArray pgSingle : CreatedResolver) (q : statement) :
  NoDup entries.*1 ->
  Pg.generateSelectArray db tableName table (Some entries) orderArgs filterArgs
    relationsOrderArgs relationsFilterArgs = inr pgArray ->
  Pg.generateSelectSingle db tableName table (Some entries) orderArgs filterArgs
    relationsOrderArgs relationsFilterArgs = inr pgSingle ->
  (find_field (Pg.camelize tableName) (selections info) = Some (FieldNode n (Some sels)) ->
   Awaited q ∈ trace (resolver pgArray exec source args context info) ->
   exists cfg withFields,
     q = FindMany db tableName cfg
     /\ assoc "with" cfg
        = Some (if decide (withFields = []) then VUndefined else VObject withFields)
     /\ withFields.*1 = own_names (selected_relations sels entries.*1))
  /\ (find_field (Pg.camelize tableName +:+ "Single") (selections info)
      = Some (FieldNode n (Some sels)) ->
      Awaited q ∈ trace (resolver pgSingle exec source args context info) ->
      exists cfg withFields,
        q = FindFirst db tableName cfg
        /\ assoc "with" cfg
           = Some (if decide (withFields = []) then VUndefined else VObject withFields)
        /\ withFields.*1 = own_names (selected_relations sels entries.*1)).
Proof.
  intros Hnodup Ha Hs.
  assert (forall w : record,
             Pg.with_or_undefined w = if decide (w = []) then VUndefined else VObject w)
    as Hwith.
  { intros [|kv w]; reflexivity. }
  unfold Pg.generateSelectArray in Ha. unfold Pg.generateSelectSingle in Hs.
  destruct (query_base _ _) as [[|]|] in Ha, Hs; [| |done];
    injection Ha as <-; injection Hs as <-.
  all: split; intros Hsel; cbn; rewrite Hsel.
  all: repeat (next_call; try leaf).
  all: match goal with
       | |- context [Pg.withFieldsLoop ?a ?sel ?l ?w0] =>
           pose proof (withFieldsLoop_silent a sel l w0) as Hsilent;
           destruct (Pg.withFieldsLoop a sel l w0) as [loopLog [?|w]] eqn:Hloop;
           cbn in Hsilent; subst loopLog; cbn; try leaf
       end.
  all: apply withFieldsLoop_keys in Hloop; [|done].
  all: repeat (next_call; try leaf).
  all: intros Hin; awaited_is Hin.
  all: do 2 eexists; split; [reflexivity|]; cbn; by rewrite Hwith.
Qed.
End RelationLoop.

(** * Further properties of schema generation *)

Lemma fromEntries_snoc {A} (l : list (string * A)) (kv : string * A) :
  fromEntries (l ++ [kv]) = <[kv.1 := kv.2]> (fromEntries l).
Proof. unfold fromEntries. by rewrite foldl_app. Qed.

Lemma fromEntries_lookup {A} (l : list (string * A)) (k : string) (v : A) :
  fromEntries l !! k = Some v -> (k, v) ∈ l.
Proof.
  induction l as [|[k' v'] l IH] using rev_ind; [done|].
  rewrite fromEntries_snoc. cbn.
  destruct (decide (k' = k)) as [->|Hne].
  - rewrite lookup_insert_eq. intros [= ->]. apply elem_of_app. right. by left.
  - rewrite lookup_insert_ne by done. intros Hl. apply elem_of_app. left. by apply IH.
Qed.

Lemma name_of_table_found (tableEntries : list (string * Table)) (target : Table)
    (tableName : string) :
  name_of_table tableEntries target = inr tableName ->
  exists t, (tableName, t) ∈ tableEntries /\ same_table t target = true.
Proof.
  unfold name_of_table.
  destruct (List.find _ _) as [[n t]|] eqn:Hfind; [|done].
  intros [= <-]. apply find_some in Hfind as [Hin Hsame].
  exists t. split; [by apply list_elem_of_In|done].
Qed.

Lemma lookup_assign {A} (k : string) (v : A) (m : gmap string A) (n : string) (x : A) :
  assign k v m !! n = Some x -> (k = n /\ x = v) \/ m !! n = Some x.
Proof.
  unfold assign. destruct (String.eqb k "__proto__"); [by right|].
  rewrite lookup_insert. case_decide; [intros [= <-]; by left|by right].
Qed.

Section Schemas.
Context `{Common} `{Pg.Vanilla}.

(** X11. A [relations(...)] declaration of a table that is not in the
    schema makes generation fail in the three builders, with the
    [TypeError] of reading [[0]] of the [undefined] that [find] returned. *)
Theorem relations_of_unknown_table_fail_generation (db : Db) (schema : Schema)
    (relationsDepthLimit : option Z) (key : string) (rels : Relations) :
  (key, SchemaRelations rels) ∈ schema ->
  (tables_of MySqlTable schema <> [] ->
   (forall kv, kv ∈ tables_of MySqlTable schema ->
               same_table kv.2 (relations_table rels) = false) ->
   MySqlSchema.generateSchemaData db schema relationsDepthLimit
   = inl (cannot_read "undefined" "0"))
  /\ (tables_of SQLiteTable schema <> [] ->
      (forall kv, kv ∈ tables_of SQLiteTable schema ->
                  same_table kv.2 (relations_table rels) = false) ->
      SQLiteSchema.generateSchemaData db schema relationsDepthLimit
      = inl (cannot_read "undefined" "0"))
  /\ (tables_of PgTable schema <> [] ->
      (forall kv, kv ∈ tables_of PgTable schema ->
                  same_table kv.2 (relations_table rels) = false) ->
      PgSchema.generateSchemaData db schema = inl (cannot_read "undefined" "0")).
Proof.
  intros Hrels.
  assert (forall d,
             (forall kv, kv ∈ tables_of d schema ->
                         same_table kv.2 (relations_table rels) = false) ->
             rawRelations (tables_of d schema) schema = inl (cannot_read "undefined" "0"))
    as Hraw.
  { intros d Hnone. unfold rawRelations.
    apply (map_throwing_first_failure _ _ (key, rels)).
    - by apply relations_of_elem.
    - cbn. pose proof (name_of_table_unknown _ _ Hnone) as Hu.
      by destruct (name_of_table _ _).
    - intros [k r] e'. cbn.
      destruct (name_of_table _ _) eqn:Hn; [|done].
      intros [= <-]. by apply (name_of_table_error _ _ _ Hn). }
  split; [|split]; intros Hsome Hnone.
  - unfold MySqlSchema.generateSchemaData.
    destruct (tables_of MySqlTable schema) eqn:Ht; [done|]. rewrite <- Ht in *.
    cbn [length Nat.eqb]. destruct (length _ =? 0)%nat eqn:Hlen.
    + rewrite Ht in Hlen. done.
    + by rewrite (Hraw _ Hnone).
  - unfold SQLiteSchema.generateSchemaData.
    destruct (tables_of SQLiteTable schema) eqn:Ht; [done|]. rewrite <- Ht in *.
    destruct (length _ =? 0)%nat eqn:Hlen.
    + rewrite Ht in Hlen. done.
    + by rewrite (Hraw _ Hnone).
  - unfold PgSchema.generateSchemaData.
    destruct (tables_of PgTable schema) eqn:Ht; [done|]. rewrite <- Ht in *.
    destruct (length _ =? 0)%nat eqn:Hlen.
    + rewrite Ht in Hlen. done.
    + by rewrite (Hraw _ Hnone).
Qed.

(** X12. The relation map that the MySQL and SQLite generators hand to
    the type generator and to the resolvers: every entry belongs to a
    relations declaration of the schema, keeps the names and the relations
    of that declaration in their order, and gives each relation, as
    [targetTableName], the key of a schema table that is the relation's
    [referencedTable]. *)
Theorem namedRelations_resolves_targets (tableEntries : list (string * Table))
    (raw : list (string * list (string * Relation))) (relationMap : RelationMap)
    (owner : string) (namedConfig : list (string * TableNamedRelations)) :
  namedRelations tableEntries raw = inr relationMap ->
  relationMap !! owner = Some namedConfig ->
  exists cfg,
    (owner, cfg) ∈ raw
    /\ namedConfig.*1 = cfg.*1
    /\ relation <$> namedConfig.*2 = cfg.*2
    /\ forall relName rel,
         (relName, rel) ∈ namedConfig ->
         exists t, (targetTableName rel, t) ∈ tableEntries
                   /\ same_table t (referencedTable (relation rel)) = true.
Proof.
  unfold namedRelations.
  destruct (map_throwing _ raw) as [|entries] eqn:Hmap; [done|].
  intros [= <-] Hlookup.
  apply fromEntries_lookup in Hlookup.
  apply map_throwing_inr in Hmap.
  apply list_elem_of_lookup in Hlookup as [i Hi].
  destruct (Forall2_lookup_r _ _ _ _ _ Hmap Hi) as [[owner' cfg] [Hj Hf]].
  cbn in Hf.
  destruct (map_throwing _ cfg) as [|named'] eqn:Hinner; [done|].
  injection Hf as -> ->.
  exists cfg. split; [by eapply list_elem_of_lookup_2|].
  apply map_throwing_inr in Hinner.
  clear Hi Hj Hmap.
  induction Hinner as [|[relName rel] [relName' tnr] cfg named' Hhead Htail IH].
  - repeat split; try done. intros ?? Hin. by apply elem_of_nil in Hin.
  - cbn in Hhead.
    destruct (name_of_table tableEntries (referencedTable rel)) as [|target] eqn:Hn;
      [done|].
    injection Hhead as <- <-.
    destruct IH as (Hnames & Hrels & Htargets).
    cbn. rewrite Hnames, Hrels. repeat split; try done.
    intros relName' rel' Hin. apply elem_of_cons in Hin as [[= -> ->]|Hin].
    + cbn. by apply name_of_table_found.
    + by eapply Htargets.
Qed.

(** X13. Every mutation that the MySQL generator registers has the type
    [MutationReturn]. *)
Theorem mysql_mutations_return_MutationReturn (db : Db) (schema : Schema)
    (relationsDepthLimit : option Z) (g : GeneratedEntities) (n : string)
    (f : FieldConfig) :
  MySqlSchema.generateSchemaData db schema relationsDepthLimit = inr g ->
  mutations g !! n = Some f ->
  type f = mutationReturnType.
Proof.
  unfold MySqlSchema.generateSchemaData.
  destruct (length _ =? 0)%nat; [done|].
  destruct (rawRelations _ _) as [|raw]; [done|].
  destruct (namedRelations _ _) as [|relationMap]; [done|].
  destruct (map_throwing _ _) as [|gqlSchemaTypes]; [done|].
  intros [= <-]. revert n f.
  generalize (fromEntries (tables_of MySqlTable schema)). intros tables.
  assert (forall acc,
             (forall n f, mutations acc !! n = Some f -> type f = mutationReturnType) ->
             forall n f,
               mutations (foldl (MySqlSchema.addTable db tables relationMap)
                            acc gqlSchemaTypes) !! n = Some f ->
               type f = mutationReturnType) as Hfold.
  { induction gqlSchemaTypes as [|[[tableName table] tableTypes] rest IH];
      intros acc Hacc; [done|].
    cbn [foldl]. apply IH. intros n f.
    unfold MySqlSchema.addTable. cbn [mutations]. unfold register.
    intros Hl.
    repeat (apply lookup_assign in Hl as [[_ ->]|Hl]; [done|]).
    by apply (Hacc n). }
  apply Hfold. intros n f. cbn [mutations]. by rewrite lookup_empty.
Qed.

Lemma keyed_by_name_assign (t : GraphQLType) (m : gmap string GraphQLType) :
  keyed_by_name m -> keyed_by_name (assign (type_name t) t m).
Proof.
  intros Hm n t' Hl. apply lookup_assign in Hl as [[<- ->]|Hl]; [done|by apply Hm].
Qed.

Lemma keyed_by_name_insert (t : GraphQLType) (m : gmap string GraphQLType) :
  keyed_by_name m -> keyed_by_name (<[type_name t := t]> m).
Proof.
  intros Hm n t'. rewrite lookup_insert.
  case_decide; [by intros [= <-]|apply Hm].
Qed.

Lemma keyed_by_name_register_types (ts : list GraphQLType) (m : gmap string GraphQLType) :
  keyed_by_name m -> keyed_by_name (register_types ts m).
Proof.
  revert m. unfold register_types.
  induction ts as [|t ts IH]; intros m Hm; [done|].
  cbn. apply IH. by apply keyed_by_name_assign.
Qed.

(** X14. In what the three generators return, every input type and
    every output type is registered under its own name: looking a name up in
    [inputs] or in [types] gives a type of that name. *)
Theorem generated_types_keyed_by_name (db : Db) (schema : Schema)
    (relationsDepthLimit : option Z) (g : GeneratedEntities) :
  MySqlSchema.generateSchemaData db schema relationsDepthLimit = inr g
  \/ SQLiteSchema.generateSchemaData db schema relationsDepthLimit = inr g
  \/ PgSchema.generateSchemaData db schema = inr g ->
  keyed_by_name (inputs g) /\ keyed_by_name (types g).
Proof.
  assert (keyed_by_name ∅) as Hempty by (intros n t; by rewrite lookup_empty).
  intros [Hg|[Hg|Hg]].
  - revert Hg. unfold MySqlSchema.generateSchemaData.
    destruct (length _ =? 0)%nat; [done|].
    destruct (rawRelations _ _) as [|raw]; [done|].
    destruct (namedRelations _ _) as [|relationMap]; [done|].
    destruct (map_throwing _ _) as [|gqlSchemaTypes]; [done|].
    intros [= <-].
    generalize (fromEntries (tables_of MySqlTable schema)). intros tables.
    assert (forall acc,
               keyed_by_name (inputs acc) /\ keyed_by_name (types acc) ->
               let g := foldl (MySqlSchema.addTable db tables relationMap)
                          acc gqlSchemaTypes in
               keyed_by_name (inputs g) /\ keyed_by_name (types g)) as Hfold.
    { induction gqlSchemaTypes as [|[[tableName table] tableTypes] rest IH];
        intros acc Hacc; [done|].
      cbn [foldl]. apply IH. destruct Hacc as [Hin Hty].
      unfold MySqlSchema.addTable. cbn [inputs types]. split.
      - by apply keyed_by_name_register_types.
      - by apply keyed_by_name_assign. }
    apply Hfold. cbn [inputs types]. split; [done|].
    apply (keyed_by_name_insert mutationReturnType ∅ Hempty).
  - revert Hg. unfold SQLiteSchema.generateSchemaData.
    destruct (length _ =? 0)%nat; [done|].
    destruct (rawRelations _ _) as [|raw]; [done|].
    destruct (namedRelations _ _) as [|relationMap]; [done|].
    destruct (map_throwing _ _) as [|gqlSchemaTypes]; [done|].
    intros [= <-].
    generalize (fromEntries (tables_of SQLiteTable schema)). intros tables.
    assert (forall acc,
               keyed_by_name (inputs acc) /\ keyed_by_name (types acc) ->
               let g := foldl (SQLiteSchema.addTable db tables relationMap)
                          acc gqlSchemaTypes in
               keyed_by_name (inputs g) /\ keyed_by_name (types g)) as Hfold.
    { induction gqlSchemaTypes as [|[[tableName table] tableTypes] rest IH];
        intros acc Hacc; [done|].
      cbn [foldl]. apply IH. destruct Hacc as [Hin Hty].
      unfold SQLiteSchema.addTable. cbn [inputs types]. split.
      - by apply keyed_by_name_register_types.
      - by do 2 apply keyed_by_name_assign. }
    by apply Hfold.
  - revert Hg. unfold PgSchema.generateSchemaData.
    destruct (length _ =? 0)%nat; [done|].
    destruct (rawRelations _ _) as [|raw]; [done|].
    destruct (map_throwing _ _) as [|gqlSchemaTypes]; [done|].
    generalize (fromEntries raw). intros relations.
    assert (forall acc,
               keyed_by_name (inputs acc) /\ keyed_by_name (types acc) ->
               PgSchema.addTables db relations acc gqlSchemaTypes = inr g ->
               keyed_by_name (inputs g) /\ keyed_by_name (types g)) as Hfold.
    { induction gqlSchemaTypes as [|[[tableName table] tableTypes] rest IH];
        intros acc Hacc; cbn [PgSchema.addTables]; [by intros [= <-]|].
      destruct (PgSchema.addTable _ _ _ _) as [|acc'] eqn:Hadd; [done|].
      apply IH. destruct Hacc as [Hin Hty].
      revert Hadd. unfold PgSchema.addTable.
      destruct (Pg.generateSelectArray _ _ _ _ _ _ _ _); [done|].
      destruct (Pg.generateSelectSingle _ _ _ _ _ _ _ _); [done|].
      intros [= <-]. cbn [inputs types]. split.
      - by repeat apply keyed_by_name_assign.
      - by apply keyed_by_name_assign. }
    by apply Hfold.
Qed.
End Schemas.

(** * Runs on the mocks *)

Lemma one_await_per_operation_witness :
  exists ops,
    @pg_operations Mock.vanilla Mock.db "users" Mock.pg_users None
      (Mock.tableTypes "users") = inr ops
    /\ one_await (Mock.store [])
         (resolver (@MySql.generateDelete Mock.common Mock.db "users" Mock.users
                      (tableFilters (Mock.tableTypes "users")))
            (Mock.store []) VUndefined (VObject []) VUndefined Mock.info).
Proof.
  eexists. split; [reflexivity|].
  eapply (one_await_per_operation (H:=Mock.common) (H0:=Mock.vanilla)
            (Mock.store []) Mock.db "users" Mock.users ∅ ∅ None (Mock.tableTypes "users"));
    [reflexivity|].
  unfold mysql_operations. rewrite elem_of_app, !elem_of_cons. auto 10.
Defined.

Lemma errors_leave_as_GraphQLError_witness :
  let r := resolver (@MySql.generateSelectArray Mock.common Mock.empty_db "users" ∅ ∅
                       (tableOrder (Mock.tableTypes "users"))
                       (tableFilters (Mock.tableTypes "users")))
             (Mock.store []) VUndefined (VObject []) VUndefined Mock.info in
  exists e,
    result r = inl e
    /\ forall c m, e = ErrorObject c m ->
         c = GraphQLErrorClass \/ e = cannot_read "null" "message".
Proof.
  eexists. split; [reflexivity|].
  refine (proj2 (errors_leave_as_GraphQLError (H:=Mock.common)
                   (Mock.store []) Mock.empty_db "users" Mock.users ∅ ∅
                   (Mock.tableTypes "users") VUndefined (VObject []) VUndefined
                   Mock.info _
                   (@MySql.generateSelectArray Mock.common Mock.empty_db "users" ∅ ∅
                      (tableOrder (Mock.tableTypes "users"))
                      (tableFilters (Mock.tableTypes "users")))
                   _ eq_refl)).
  unfold mysql_operations. rewrite elem_of_app, !elem_of_cons. auto 10.
Defined.

Lemma mysql_mutation_returns_isSuccess_witness :
  let exec := Mock.answering (VNumber 7) in
  let q := Delete Mock.db Mock.users None None in
  exec q = inr (VNumber 7)
  /\ resolver (@MySql.generateDelete Mock.common Mock.db "users" Mock.users GraphQLInt)
       exec VUndefined (VObject []) VUndefined Mock.info
     = ([Awaited q], inr isSuccess).
Proof.
  split; [reflexivity|].
  eapply (mysql_mutation_returns_isSuccess (H:=Mock.common)
            (Mock.answering (VNumber 7)) Mock.db "users" Mock.users
            VUndefined (VObject []) VUndefined Mock.info GraphQLInt GraphQLInt GraphQLInt
            (Delete Mock.db Mock.users None None) (VNumber 7) eq_refl).
  - rewrite !elem_of_cons. auto 10.
  - apply elem_of_cons. by left.
Defined.

Lemma statement_database_witness :
  let exec := Mock.store [] in
  let args := VObject [("values", VArray [VObject [("id", VNumber 1)]])] in
  let rows := ManyRows [[("id", VNumber 1)]] in
  @databaseOfContext (Mock.in_database Mock.tenant_db) Mock.db VUndefined
  = inr Mock.tenant_db
  /\ (exists ops, @pg_operations Mock.vanilla Mock.db "users" Mock.users None
                    (Mock.tableTypes "users") = inr ops)
  /\ trace (resolver (@MySql.generateInsertArray (Mock.in_database Mock.tenant_db)
                        Mock.db "users" Mock.users (insertInput (Mock.tableTypes "users")))
              exec VUndefined args VUndefined Mock.info)
     = [Awaited (Insert Mock.tenant_db Mock.users rows None false)]
  /\ db_of (Insert Mock.tenant_db Mock.users rows None false) = Mock.tenant_db
  /\ trace (resolver (@SQLite.generateInsertArray (Mock.in_database Mock.tenant_db)
                        Mock.db "users" Mock.users GraphQLInt)
              exec VUndefined args VUndefined Mock.info)
     = [Awaited (Insert Mock.db Mock.users rows (Some Mock.selected) true);
        Remapped (VArray [VObject [("id", VNumber 1)]])]
  /\ db_of (Insert Mock.db Mock.users rows (Some Mock.selected) true) = Mock.db.
Proof.
  intros exec args rows.
  pose proof (@statement_database (Mock.in_database Mock.tenant_db) Mock.vanilla
                exec Mock.db "users" Mock.users ∅ ∅ None (Mock.tableTypes "users")
                VUndefined args VUndefined Mock.info Mock.tenant_db GraphQLInt)
    as Hdatabase.
  split; [reflexivity|]. split; [eexists; reflexivity|].
  split; [reflexivity|]. split.
  - refine (proj1 (Hdatabase (Insert Mock.tenant_db Mock.users rows None false)
                     _ eq_refl eq_refl) _ _ _).
    + unfold mysql_operations. rewrite elem_of_app, !elem_of_cons. left. right. right. by left.
    + apply elem_of_cons. by left.
  - split; [reflexivity|].
    refine (proj2 (Hdatabase (Insert Mock.db Mock.users rows (Some Mock.selected) true)
                     _ eq_refl eq_refl) _ _ _).
    + apply elem_of_cons. by left.
    + apply elem_of_cons. by left.
Defined.

Lemma filter_failure_prevents_dispatch_witness :
  let where_ := VObject [("age", VObject [("eq", VNumber 3)])] in
  let args := VObject [("where", where_)] in
  let e := GraphQLError "Unknown column: age" in
  destructure args "where" = inr where_
  /\ truthy where_ = true
  /\ @extractFilters Mock.strict_common (Some Mock.users) "users" where_ = inl e
  /\ @Pg.extractFilters Mock.strict_vanilla Mock.users "users" where_ = inl e
  /\ resolver (@MySql.generateDelete Mock.strict_common Mock.db "users" Mock.users
                 GraphQLInt)
       (Mock.store []) VUndefined args VUndefined Mock.info
     = ([], inl e).
Proof.
  intros where_ args e.
  repeat (split; [reflexivity|]).
  assert (trace (resolver (@MySql.generateDelete Mock.strict_common Mock.db "users"
                             Mock.users GraphQLInt)
                   (Mock.store []) VUndefined args VUndefined Mock.info) = []
          /\ failed (result (resolver (@MySql.generateDelete Mock.strict_common Mock.db
                                         "users" Mock.users GraphQLInt)
                               (Mock.store []) VUndefined args VUndefined Mock.info)))
    as [Htrace _]; [|reflexivity].
  eapply (@filter_failure_prevents_dispatch Mock.strict_common Mock.strict_vanilla
            (Mock.store []) Mock.db "users" Mock.users ∅ ∅ None GraphQLInt GraphQLInt ∅ ∅
            VUndefined args VUndefined Mock.info where_ e e e GraphQLInt);
    try reflexivity.
  rewrite !elem_of_cons. auto 20.
Defined.

Lemma mutation_predicate_witness :
  let where_ := VObject [("id", VObject [("eq", VNumber 3)])] in
  let args := VObject [("where", where_)] in
  let q := Delete Mock.db Mock.users (Some where_) None in
  destructure args "where" = inr where_
  /\ (truthy where_ = true ->
      @extractFilters Mock.common (Some Mock.users) "users" where_ = inr where_)
  /\ (truthy where_ = true ->
      @Pg.extractFilters Mock.vanilla Mock.users "users" where_ = inr where_)
  /\ Awaited q ∈ trace (resolver (@MySql.generateDelete Mock.common Mock.db "users"
                                    Mock.users GraphQLInt)
                          (Mock.store []) VUndefined args VUndefined Mock.info)
  /\ predicate_of q = Some where_.
Proof.
  intros where_ args q.
  split; [reflexivity|]. split; [reflexivity|]. split; [reflexivity|].
  assert (Hin : Awaited q ∈ trace (resolver (@MySql.generateDelete Mock.common Mock.db
                                               "users" Mock.users GraphQLInt)
                                     (Mock.store []) VUndefined args VUndefined Mock.info))
    by (apply elem_of_cons; by left).
  split; [exact Hin|].
  refine (proj1 (@mutation_predicate Mock.common Mock.vanilla (Mock.store []) Mock.db
                   "users" Mock.users GraphQLInt VUndefined args VUndefined Mock.info
                   where_ where_ where_ GraphQLInt q eq_refl (fun _ => eq_refl)
                   (fun _ => eq_refl)) _ _ Hin).
  rewrite !elem_of_cons. auto.
Defined.

Lemma select_statement_witness :
  let args := VObject [("offset", VNumber 10); ("limit", VNumber 5)] in
  let q := FindFirst Mock.db "users"
             [("columns", Mock.selected); ("offset", VNumber 10);
              ("orderBy", VUndefined); ("where", VUndefined); ("with", VUndefined)] in
  exists pgArray pgSingle,
    destructure args "offset" = inr (VNumber 10)
    /\ destructure args "limit" = inr (VNumber 5)
    /\ @Pg.generateSelectArray Mock.vanilla Mock.db "users" Mock.pg_users None
         GraphQLInt GraphQLInt ∅ ∅ = inr pgArray
    /\ @Pg.generateSelectSingle Mock.vanilla Mock.db "users" Mock.pg_users None
         GraphQLInt GraphQLInt ∅ ∅ = inr pgSingle
    /\ Awaited q ∈ trace (resolver pgSingle (Mock.store []) VUndefined args VUndefined
                            Mock.info)
    /\ exists d cfg,
         q = FindFirst d "users" cfg
         /\ assoc "offset" cfg = Some (VNumber 10)
         /\ assoc "limit" cfg = None.
Proof.
  intros args q. do 2 eexists.
  split; [reflexivity|]. split; [reflexivity|].
  split; [reflexivity|]. split; [reflexivity|].
  match goal with
  | |- Awaited _ ∈ trace (resolver ?op _ _ _ _ _) /\ _ => set (single := op)
  end.
  assert (Hin : Awaited q ∈ trace (resolver single (Mock.store []) VUndefined args
                                     VUndefined Mock.info))
    by (apply elem_of_cons; by left).
  split; [exact Hin|].
  refine (proj2 (@select_statement Mock.common Mock.vanilla (Mock.store []) Mock.db
                   "users" Mock.pg_users ∅ ∅ None GraphQLInt GraphQLInt ∅ ∅
                   VUndefined args VUndefined Mock.info (VNumber 10) (VNumber 5) _ single q
                   eq_refl eq_refl eq_refl eq_refl) single _ Hin).
  rewrite !elem_of_cons. auto.
Defined.

Lemma insert_single_returns_first_row_witness :
  let first := VObject [("id", VNumber 1)] in
  let exec := Mock.answering (VArray [first; VObject [("id", VNumber 2)]]) in
  let args := VObject [("values", VObject [("id", VNumber 1)])] in
  let q := Insert Mock.db Mock.pg_users (OneRow [("id", VNumber 1)])
             (Some Mock.selected) true in
  exec q = inr (VArray [first; VObject [("id", VNumber 2)]])
  /\ truthy first = true
  /\ resolver (@Pg.generateInsertSingle Mock.vanilla Mock.db "users" Mock.pg_users
                 GraphQLInt)
       exec VUndefined args VUndefined Mock.info
     = ([Awaited q; Remapped first], inr first).
Proof.
  intros first exec args q.
  split; [reflexivity|]. split; [reflexivity|].
  refine (proj1 (@insert_single_returns_first_row Mock.common Mock.vanilla exec Mock.db
                   "users" Mock.pg_users VUndefined args VUndefined Mock.info GraphQLInt
                   q first [VObject [("id", VNumber 2)]] eq_refl eq_refl) _).
  apply elem_of_cons. by left.
Defined.

Lemma input_failure_prevents_dispatch_witness :
  let bogus := VObject [("age", VNumber 3)] in
  let args := VObject [("values", bogus); ("set", bogus)] in
  member args "values" = inr bogus
  /\ destructure args "set" = inr bogus
  /\ failed (@remapFromGraphQLArrayInput Mock.strict_common bogus (Some Mock.users))
  /\ failed (@remapFromGraphQLSingleInput Mock.strict_common bogus (Some Mock.users))
  /\ failed (@Pg.remapFromGraphQLArrayInput Mock.strict_vanilla bogus Mock.users)
  /\ failed (@Pg.remapFromGraphQLSingleInput Mock.strict_vanilla bogus Mock.users)
  /\ trace (resolver (@Pg.generateUpdate Mock.strict_vanilla Mock.db "users" Mock.users
                        GraphQLInt GraphQLInt)
              (Mock.store []) VUndefined args VUndefined Mock.info) = []
  /\ failed (result (resolver (@Pg.generateUpdate Mock.strict_vanilla Mock.db "users"
                                 Mock.users GraphQLInt GraphQLInt)
                       (Mock.store []) VUndefined args VUndefined Mock.info)).
Proof.
  intros bogus args.
  split; [reflexivity|]. split; [reflexivity|].
  split; [exact I|]. split; [exact I|]. split; [exact I|]. split; [exact I|].
  eapply (@input_failure_prevents_dispatch Mock.strict_common Mock.strict_vanilla
            (Mock.store []) Mock.db "users" Mock.users GraphQLInt
            VUndefined args VUndefined Mock.info bogus bogus GraphQLInt GraphQLInt);
    try reflexivity; try exact I.
  rewrite !elem_of_cons. auto 20.
Defined.

Lemma pg_with_names_selected_relations_witness :
  let entries := [("posts", Mock.users_posts); ("invitedBy", Mock.users_invitedBy)] in
  let posts := VObject [("columns", Mock.selected); ("orderBy", VUndefined);
                        ("where", VUndefined); ("offset", VUndefined);
                        ("limit", VUndefined)] in
  let sels := [FieldNode "id" None; FieldNode "posts" (Some [FieldNode "id" None])] in
  let many := FindMany Mock.db "users"
                [("columns", Mock.selected); ("offset", VUndefined); ("limit", VUndefined);
                 ("orderBy", VUndefined); ("where", VUndefined);
                 ("with", VObject [("posts", posts)])] in
  let one := FindFirst Mock.db "users"
               [("columns", Mock.selected); ("offset", VUndefined);
                ("orderBy", VUndefined); ("where", VUndefined);
                ("with", VObject [("posts", posts)])] in
  exists pgArray pgSingle,
    NoDup entries.*1
    /\ @Pg.generateSelectArray Mock.vanilla Mock.db "users" Mock.pg_users (Some entries)
         GraphQLInt GraphQLInt ∅ ∅ = inr pgArray
    /\ @Pg.generateSelectSingle Mock.vanilla Mock.db "users" Mock.pg_users (Some entries)
         GraphQLInt GraphQLInt ∅ ∅ = inr pgSingle
    /\ (find_field "users" (selections Mock.info_many_with_posts)
        = Some (FieldNode "users" (Some sels))
        /\ find_field "usersSingle" (selections Mock.info_many_with_posts) = None
        /\ Awaited many ∈ trace (resolver pgArray (Mock.store []) VUndefined (VObject [])
                                   VUndefined Mock.info_many_with_posts)
        /\ exists cfg withFields,
             many = FindMany Mock.db "users" cfg
             /\ assoc "with" cfg
                = Some (if decide (withFields = []) then VUndefined else VObject withFields)
             /\ withFields.*1 = own_names (selected_relations sels entries.*1))
    /\ (find_field "usersSingle" (selections Mock.info_single_with_posts)
        = Some (FieldNode "usersSingle" (Some sels))
        /\ find_field "users" (selections Mock.info_single_with_posts) = None
        /\ Awaited one ∈ trace (resolver pgSingle (Mock.store []) VUndefined (VObject [])
                                  VUndefined Mock.info_single_with_posts)
        /\ exists cfg withFields,
             one = FindFirst Mock.db "users" cfg
             /\ assoc "with" cfg
                = Some (if decide (withFields = []) then VUndefined else VObject withFields)
             /\ withFields.*1 = own_names (selected_relations sels entries.*1)).
Proof.
  intros entries posts sels many one. do 2 eexists.
  assert (Hnodup : NoDup entries.*1) by (apply (bool_decide_unpack _); by vm_compute).
  split; [exact Hnodup|]. split; [reflexivity|]. split; [reflexivity|].
  split.
  - split; [reflexivity|]. split; [reflexivity|].
    match goal with
    | |- Awaited _ ∈ trace (resolver ?op _ _ _ _ _) /\ _ => set (pgArray := op)
    end.
    assert (Hin : Awaited many ∈ trace (resolver pgArray (Mock.store []) VUndefined
                                          (VObject []) VUndefined
                                          Mock.info_many_with_posts))
      by (apply elem_of_cons; by left).
    split; [exact Hin|].
    exact (proj1 (@pg_with_names_selected_relations Mock.vanilla (Mock.store []) Mock.db
                    "users" Mock.pg_users GraphQLInt GraphQLInt ∅ ∅
                    VUndefined (VObject []) VUndefined Mock.info_many_with_posts entries
                    "users" sels pgArray _ many Hnodup eq_refl eq_refl) eq_refl Hin).
  - split; [reflexivity|]. split; [reflexivity|].
    match goal with
    | |- Awaited _ ∈ trace (resolver ?op _ _ _ _ _) /\ _ => set (pgSingle := op)
    end.
    assert (Hin : Awaited one ∈ trace (resolver pgSingle (Mock.store []) VUndefined
                                         (VObject []) VUndefined
                                         Mock.info_single_with_posts))
      by (apply elem_of_cons; by left).
    split; [exact Hin|].
    exact (proj2 (@pg_with_names_selected_relations Mock.vanilla (Mock.store []) Mock.db
                    "users" Mock.pg_users GraphQLInt GraphQLInt ∅ ∅
                    VUndefined (VObject []) VUndefined Mock.info_single_with_posts entries
                    "usersSingle" sels _ pgSingle one Hnodup eq_refl eq_refl) eq_refl Hin).
Defined.

Lemma relations_of_unknown_table_fail_generation_witness :
  let schema : Schema :=
    [("users", SchemaTable Mock.users);
     ("postsRelations", SchemaRelations Mock.posts_relations)] in
  ("postsRelations", SchemaRelations Mock.posts_relations) ∈ schema
  /\ tables_of MySqlTable schema <> []
  /\ (forall kv, kv ∈ tables_of MySqlTable schema ->
                 same_table kv.2 (relations_table Mock.posts_relations) = false)
  /\ @MySqlSchema.generateSchemaData Mock.common Mock.db schema None
     = inl (cannot_read "undefined" "0").
Proof.
  intros schema.
  assert (Hrels : ("postsRelations", SchemaRelations Mock.posts_relations) ∈ schema)
    by (apply elem_of_cons; right; apply elem_of_cons; by left).
  assert (Hsome : tables_of MySqlTable schema <> []) by done.
  assert (Hnone : forall kv, kv ∈ tables_of MySqlTable schema ->
                             same_table kv.2 (relations_table Mock.posts_relations) = false).
  { intros kv Hkv. apply elem_of_cons in Hkv as [->|Hkv]; [done|].
    by apply elem_of_nil in Hkv. }
  split; [exact Hrels|]. split; [exact Hsome|]. split; [exact Hnone|].
  exact (proj1 (@relations_of_unknown_table_fail_generation Mock.common Mock.vanilla
                  Mock.db schema None "postsRelations" Mock.posts_relations Hrels)
           Hsome Hnone).
Defined.

Lemma namedRelations_resolves_targets_witness :
  let tableEntries := [("users", Mock.users)] in
  let raw := [("users", [("invitedBy", Mock.users_invitedBy)])] in
  let namedConfig := [("invitedBy", {| relation := Mock.users_invitedBy;
                                       targetTableName := "users" |})] in
  exists relationMap,
    namedRelations tableEntries raw = inr relationMap
    /\ relationMap !! "users" = Some namedConfig
    /\ exists cfg,
         ("users", cfg) ∈ raw
         /\ namedConfig.*1 = cfg.*1
         /\ relation <$> namedConfig.*2 = cfg.*2
         /\ forall relName rel,
              (relName, rel) ∈ namedConfig ->
              exists t, (targetTableName rel, t) ∈ tableEntries
                        /\ same_table t (referencedTable (relation rel)) = true.
Proof.
  intros tableEntries raw namedConfig. eexists.
  split; [reflexivity|].
  assert (Hlookup : fromEntries [("users", namedConfig)] !! "users" = Some namedConfig)
    by apply lookup_insert_eq.
  split; [exact Hlookup|].
  exact (namedRelations_resolves_targets tableEntries raw _ "users" namedConfig
           eq_refl Hlookup).
Defined.

Lemma mysql_mutations_return_MutationReturn_witness :
  exists g f,
    @MySqlSchema.generateSchemaData Mock.common Mock.db
      [("users", SchemaTable Mock.users)] None = inr g
    /\ mutations g !! "deleteFromusers" = Some f
    /\ type f = mutationReturnType.
Proof.
  do 2 eexists. split; [reflexivity|].
  assert (Hlookup : forall g f,
             mutations g !! "deleteFromusers" = Some f ->
             @MySqlSchema.generateSchemaData Mock.common Mock.db
               [("users", SchemaTable Mock.users)] None = inr g ->
             mutations g !! "deleteFromusers" = Some f /\ type f = mutationReturnType).
  { intros g f Hf Hg. split; [exact Hf|].
    exact (@mysql_mutations_return_MutationReturn Mock.common Mock.db
             [("users", SchemaTable Mock.users)] None g "deleteFromusers" f Hg Hf). }
  apply Hlookup; [|reflexivity].
  vm_compute. reflexivity.
Defined.

Lemma generated_types_keyed_by_name_witness :
  exists g,
    @PgSchema.generateSchemaData Mock.vanilla Mock.db
      [("users", SchemaTable Mock.pg_users)] = inr g
    /\ keyed_by_name (inputs g) /\ keyed_by_name (types g).
Proof.
  eexists. split; [reflexivity|].
  apply (@generated_types_keyed_by_name Mock.common Mock.vanilla Mock.db
           [("users", SchemaTable Mock.pg_users)] None).
  right. right. reflexivity.
Defined.

Lemma select_filter_and_order_witness :
  let where_ := VObject [("id", VObject [("eq", VNumber 3)])] in
  let args := VObject [("where", where_)] in
  let q := FindMany Mock.db "users"
             [("columns", Mock.selected); ("offset", VUndefined); ("limit", VUndefined);
              ("orderBy", VUndefined); ("where", where_); ("with", VUndefined)] in
  exists pgArray pgSingle,
    destructure args "where" = inr where_
    /\ destructure args "orderBy" = inr VUndefined
    /\ @Pg.generateSelectArray Mock.vanilla Mock.db "users" Mock.pg_users None
         GraphQLInt GraphQLInt ∅ ∅ = inr pgArray
    /\ @Pg.generateSelectSingle Mock.vanilla Mock.db "users" Mock.pg_users None
         GraphQLInt GraphQLInt ∅ ∅ = inr pgSingle
    /\ Awaited q ∈ trace (resolver (@MySql.generateSelectArray Mock.common Mock.db "users"
                                      ∅ ∅ GraphQLInt GraphQLInt)
                            (Mock.store []) VUndefined args VUndefined Mock.info)
    /\ assoc "where" (config_of q) = Some where_
    /\ assoc "orderBy" (config_of q) = Some VUndefined.
Proof.
  intros where_ args q. do 2 eexists.
  split; [reflexivity|]. split; [reflexivity|].
  split; [reflexivity|]. split; [reflexivity|].
  assert (Hin : Awaited q ∈ trace (resolver (@MySql.generateSelectArray Mock.common Mock.db
                                               "users" ∅ ∅ GraphQLInt GraphQLInt)
                                     (Mock.store []) VUndefined args VUndefined Mock.info))
    by (apply elem_of_cons; by left).
  split; [exact Hin|].
  refine (proj1 (@select_filter_and_order Mock.common Mock.vanilla (Mock.store []) Mock.db
                   "users" Mock.pg_users ∅ ∅ None GraphQLInt GraphQLInt ∅ ∅
                   VUndefined args VUndefined Mock.info where_ VUndefined where_ VUndefined
                   where_ VUndefined _ _ q eq_refl eq_refl
                   (fun _ => eq_refl) _ (fun _ => eq_refl) _ eq_refl eq_refl) _ _ Hin).
  - discriminate.
  - discriminate.
  - rewrite !elem_of_cons. auto.
Defined.

Lemma dispatched_input_is_remapped_witness :
  let set := VObject [("name", VString "Ann")] in
  let args := VObject [("set", set); ("values", VArray [])] in
  let q := Update Mock.db Mock.users [("name", VString "Ann")] None None in
  member args "values" = inr (VArray [])
  /\ destructure args "set" = inr set
  /\ Awaited q ∈ trace (resolver (@MySql.generateUpdate Mock.common Mock.db "users"
                                    Mock.users GraphQLInt GraphQLInt)
                          (Mock.store []) VUndefined args VUndefined Mock.info)
  /\ exists d input predicate returning,
       q = Update d Mock.users input predicate returning
       /\ input <> []
       /\ @remapFromGraphQLSingleInput Mock.common set (Some Mock.users) = inr input.
Proof.
  intros set args q.
  split; [reflexivity|]. split; [reflexivity|].
  assert (Hin : Awaited q ∈ trace (resolver (@MySql.generateUpdate Mock.common Mock.db
                                               "users" Mock.users GraphQLInt GraphQLInt)
                                     (Mock.store []) VUndefined args VUndefined Mock.info))
    by (apply elem_of_cons; by left).
  split; [exact Hin|].
  refine (proj1 (proj2 (proj2 (@dispatched_input_is_remapped Mock.common Mock.vanilla
                                 (Mock.store []) Mock.db "users" Mock.users GraphQLInt
                                 VUndefined args VUndefined Mock.info (VArray []) set
                                 GraphQLInt GraphQLInt q eq_refl eq_refl))) _ _ Hin).
  rewrite !elem_of_cons. auto.
Defined.
